(** * The websocket transport and the agent session of pm2-io-agent-node

    A shallow embedding of [src/transport.js] (class [WebsocketTransport])
    and of [src/index.js] (class [Agent]), followed by the properties of
    the transport that the specification states and by further properties
    of the two classes: subscriptions, the heartbeat, the life of a socket,
    the start of the agent, sending, and the identifier.

    The program is single threaded and event driven.  Its state is the
    agent object, the transport object, the [WebSocket] objects the
    transport has created, and the pending timers; the state changes when
    the embedding application calls a method, when the [ws] library emits an
    event on a socket, and when a timer fires. *)

From Stdlib Require Import ZArith Ascii String.
From stdpp Require Import base option list strings gmap pretty.

Local Set Warnings "-register-all".
Local Open Scope string_scope.
Local Open Scope list_scope.
Local Open Scope Z_scope.

(** ** JavaScript values *)

(** The values that packets, frames and HTTP answers are made of.  Numbers
    are the integral ones.  An object is its own enumerable properties in
    insertion order, each name bound once. *)
Inductive value : Type :=
| VUndefined
| VNull
| VBool (b : bool)
| VNum (n : Z)
| VStr (s : string)
| VArr (items : list value)
| VObj (props : list (string * value)).

(** What a [throw] carries: the class of the error and its message. *)
Inductive error : Type :=
| TypeError (msg : string)
| Error (msg : string).

(** How the evaluation of a JavaScript expression or call ends. *)
Inductive completion (A : Type) : Type :=
| Return (a : A)
| Throw (e : error).
Arguments Return {A} a.
Arguments Throw {A} e.

(** [!!v] of JavaScript: [undefined], [null], [false], [0] and the empty
    string are falsy, every array and every object is truthy. *)
Definition truthy (v : value) : bool :=
  match v with
  | VUndefined | VNull => false
  | VBool b => b
  | VNum n => negb (n =? 0)
  | VStr s => negb (String.eqb s "")
  | VArr _ | VObj _ => true
  end.

Fixpoint lookup_prop (k : string) (props : list (string * value)) : option value :=
  match props with
  | [] => None
  | (k', v) :: rest => if String.eqb k k' then Some v else lookup_prop k rest
  end.

(** [obj[k] = v]: overwrite in place, or append. *)
Fixpoint set_prop (k : string) (v : value) (props : list (string * value))
  : list (string * value) :=
  match props with
  | [] => [(k, v)]
  | (k', v') :: rest =>
      if String.eqb k k' then (k, v) :: rest else (k', v') :: set_prop k v rest
  end.

(** [v.k] for the property names the program reads ([channel], [payload],
    [ws], [disabled], [pending], [active], [endpoints]), none of which a
    prototype defines: reading a property of [null] or [undefined] throws,
    a missing property reads as [undefined]. *)
Definition get_prop (v : value) (k : string) : completion value :=
  match v with
  | VUndefined | VNull =>
      Throw (TypeError ("Cannot read property '" +:+ k +:+ "' of null or undefined"))
  | VObj props => Return (default VUndefined (lookup_prop k props))
  | VBool _ | VNum _ | VStr _ | VArr _ => Return VUndefined
  end.

(** [v === true] and [v === false]. *)
Definition is_true (v : value) : bool :=
  match v with VBool true => true | _ => false end.
Definition is_false (v : value) : bool :=
  match v with VBool false => true | _ => false end.

(** ** A JSON reader and writer

    [JSON.parse] and [JSON.stringify] belong to the JavaScript runtime.  The
    transport is embedded over any pair of them (class [Env] below); the
    reader and writer here serve the concrete runs.  They cover JSON texts
    whose numbers are integer literals and whose strings use the
    one-letter escapes. *)
Module Json.

(** The double quote. *)
Definition dquote : ascii := ascii_of_nat 34.

Definition is_ws (c : ascii) : bool :=
  match c with
  | " "%char | "009"%char | "010"%char | "013"%char => true
  | _ => false
  end.

Fixpoint skip_ws (s : list ascii) : list ascii :=
  match s with
  | c :: r => if is_ws c then skip_ws r else s
  | [] => []
  end.

Definition digit (c : ascii) : option Z :=
  let n := Z.of_nat (nat_of_ascii c) in
  if (48 <=? n) && (n <=? 57) then Some (n - 48) else None.

Fixpoint digits (acc : Z) (s : list ascii) : Z * list ascii :=
  match s with
  | c :: r => match digit c with
              | Some d => digits (10 * acc + d) r
              | None => (acc, s)
              end
  | [] => (acc, [])
  end.

(** After the number: a fraction or an exponent is outside the fragment. *)
Definition integer_end (s : list ascii) : bool :=
  match s with
  | "."%char :: _ | "e"%char :: _ | "E"%char :: _ => false
  | _ => true
  end.

Definition natural (s : list ascii) : option (Z * list ascii) :=
  match s with
  | c :: r =>
      match digit c with
      | Some 0 =>
          match r with
          | c' :: _ => if digit c' is Some _ then None
                       else if integer_end r then Some (0, r) else None
          | [] => Some (0, [])
          end
      | Some d => let '(n, r') := digits d r in
                  if integer_end r' then Some (n, r') else None
      | None => None
      end
  | [] => None
  end.

Definition number (s : list ascii) : option (value * list ascii) :=
  match s with
  | "-"%char :: r => '(n, r') ← natural r; Some (VNum (- n), r')
  | _ => '(n, r') ← natural s; Some (VNum n, r')
  end.

(** The characters of a string literal after its opening quote. *)
Fixpoint chars (s : list ascii) : option (string * list ascii) :=
  match s with
  | [] => None
  | c :: r =>
      if Ascii.eqb c dquote then Some (EmptyString, r)
      else if Ascii.eqb c "\"%char then
        match r with
        | [] => None
        | e :: r' =>
            let keep (x : ascii) := '(t, r'') ← chars r'; Some (String x t, r'') in
            if Ascii.eqb e dquote then keep dquote
            else
              match e with
              | "\"%char => keep "\"%char
              | "/"%char => keep "/"%char
              | "b"%char => keep "008"%char
              | "f"%char => keep "012"%char
              | "n"%char => keep "010"%char
              | "r"%char => keep "013"%char
              | "t"%char => keep "009"%char
              | _ => None
              end
        end
      else if (nat_of_ascii c <? 32)%nat then None
      else '(t, r') ← chars r; Some (String c t, r')
  end.

Fixpoint parse_value (fuel : nat) (s : list ascii) {struct fuel}
  : option (value * list ascii) :=
  match fuel with
  | O => None
  | S f =>
      let fix elements (n : nat) (acc : list value) (s : list ascii) {struct n}
        : option (value * list ascii) :=
        match n with
        | O => None
        | S n' =>
            '(v, r) ← parse_value f s;
            match skip_ws r with
            | ","%char :: r' => elements n' (acc ++ [v]) r'
            | "]"%char :: r' => Some (VArr (acc ++ [v]), r')
            | _ => None
            end
        end in
      let fix members (n : nat) (acc : list (string * value)) (s : list ascii)
              {struct n} : option (value * list ascii) :=
        match n with
        | O => None
        | S n' =>
            match skip_ws s with
            | c :: r =>
                if Ascii.eqb c dquote then
                  '(k, r1) ← chars r;
                  match skip_ws r1 with
                  | ":"%char :: r2 =>
                      '(v, r3) ← parse_value f r2;
                      match skip_ws r3 with
                      | ","%char :: r4 => members n' (set_prop k v acc) r4
                      | "}"%char :: r4 => Some (VObj (set_prop k v acc), r4)
                      | _ => None
                      end
                  | _ => None
                  end
                else None
            | [] => None
            end
        end in
      match skip_ws s with
      | "n"%char :: "u"%char :: "l"%char :: "l"%char :: r => Some (VNull, r)
      | "t"%char :: "r"%char :: "u"%char :: "e"%char :: r => Some (VBool true, r)
      | "f"%char :: "a"%char :: "l"%char :: "s"%char :: "e"%char :: r =>
          Some (VBool false, r)
      | "["%char :: r =>
          match skip_ws r with
          | "]"%char :: r' => Some (VArr [], r')
          | _ => elements f [] r
          end
      | "{"%char :: r =>
          match skip_ws r with
          | "}"%char :: r' => Some (VObj [], r')
          | _ => members f [] r
          end
      | c :: r =>
          if Ascii.eqb c dquote
          then '(t, r') ← chars r; Some (VStr t, r')
          else number (c :: r)
      | [] => None
      end
  end.

Definition parse (text : string) : option value :=
  let s := list_ascii_of_string text in
  '(v, r) ← parse_value (S (List.length s)) s;
  match skip_ws r with
  | [] => Some v
  | _ => None
  end.

Definition hex_digit (n : nat) : ascii :=
  ascii_of_nat (if (n <? 10)%nat then 48 + n else 87 + n)%nat.

Fixpoint quote_chars (s : string) : string :=
  match s with
  | EmptyString => EmptyString
  | String c t =>
      let rest := quote_chars t in
      if Ascii.eqb c dquote then String "\"%char (String dquote rest)
      else
        match c with
        | "\"%char => "\\" +:+ rest
        | "008"%char => "\b" +:+ rest
        | "012"%char => "\f" +:+ rest
        | "010"%char => "\n" +:+ rest
        | "013"%char => "\r" +:+ rest
        | "009"%char => "\t" +:+ rest
        | _ =>
            let n := nat_of_ascii c in
            if (n <? 32)%nat
            then "\u00" +:+ String (hex_digit (n / 16))
                              (String (hex_digit (n mod 16)) rest)
            else String c rest
        end
  end.

Definition quote (s : string) : string :=
  String dquote (quote_chars s +:+ String dquote EmptyString).

Definition join (sep : string) (l : list string) : string :=
  match l with
  | [] => EmptyString
  | x :: r => fold_left (fun acc y => acc +:+ sep +:+ y) r x
  end.

(** [JSON.stringify]: a property whose value is [undefined] is left out
    of an object, and [undefined] inside an array is written [null]. *)
Fixpoint stringify (v : value) : string :=
  match v with
  | VUndefined => "undefined"
  | VNull => "null"
  | VBool true => "true"
  | VBool false => "false"
  | VNum n => pretty n
  | VStr s => quote s
  | VArr items =>
      "[" +:+ join ","
               ((fix each (l : list value) : list string :=
                   match l with
                   | [] => []
                   | VUndefined :: r => "null" :: each r
                   | x :: r => stringify x :: each r
                   end) items) +:+ "]"
  | VObj props =>
      "{" +:+ join ","
               ((fix each (l : list (string * value)) : list string :=
                   match l with
                   | [] => []
                   | (_, VUndefined) :: r => each r
                   | (k, x) :: r => (quote k +:+ ":" +:+ stringify x) :: each r
                   end) props) +:+ "}"
  end.

(** [String(v)], the conversion applied to a value used as a property
    name. *)
Fixpoint to_string (v : value) : string :=
  match v with
  | VUndefined => "undefined"
  | VNull => "null"
  | VBool true => "true"
  | VBool false => "false"
  | VNum n => pretty n
  | VStr s => s
  | VArr items =>
      join ","
        ((fix each (l : list value) : list string :=
            match l with
            | [] => []
            | VUndefined :: r | VNull :: r => "" :: each r
            | x :: r => to_string x :: each r
            end) items)
  | VObj _ => "[object Object]"
  end.

End Json.

(** ** [src/index.js]: the functions of [Agent] that read no field but
    [config.appName] *)

(** [typeof v]; the values have no function among them. *)
Definition typeof (v : value) : string :=
  match v with
  | VUndefined => "undefined"
  | VNull => "object"
  | VBool _ => "boolean"
  | VNum _ => "number"
  | VStr _ => "string"
  | VArr _ | VObj _ => "object"
  end.

(** [s.substr(start, 1)]: a negative [start] counts from the end, and a
    [start] past the end answers the empty string. *)
Definition substr1 (s : string) (start : Z) : string :=
  let len := Z.of_nat (String.length s) in
  let from := if start <? 0 then Z.max (len + start) 0 else start in
  match String.get (Z.to_nat from) s with
  | Some c => String c EmptyString
  | None => EmptyString
  end.

(** The number that [x & 0x3] reads from [x], a string of at most one
    character: the digit, 0 for the empty string and for a blank, and 0
    for any other character, whose [Number(x)] is [NaN]. *)
Definition digit_value (x : string) : Z :=
  match x with
  | String c EmptyString => default 0 (Json.digit c)
  | _ => 0
  end.

Definition hexDigits : string := "0123456789abcdef".

(** [generateUniqueId ()]; [random i] is what the [i]-th evaluation of
    [Math.floor(Math.random() * 0x10)] gives.  The chained assignment of
    line 79 writes [s[23]] first. *)
Definition generateUniqueId (random : nat -> Z) : string :=
  let s := map (fun i => substr1 hexDigits (random i)) (seq 0 36) in
  let s := <[14%nat := "4"]> s in
  let s := <[19%nat :=
               substr1 hexDigits
                 (Z.lor (Z.land (digit_value (default EmptyString (s !! 19%nat))) 3) 8)]> s in
  let s := <[23%nat := "-"]> s in
  let s := <[18%nat := "-"]> s in
  let s := <[13%nat := "-"]> s in
  let s := <[8%nat := "-"]> s in
  String.concat EmptyString s.

(** What [generateProcess] reads from the host: [process.pid],
    [new Date().getTime()], [process.uptime()], [meta.getCpuUsage()],
    [meta.getMemoryUsage()] and [process.NODE_ENV]. *)
Record host : Type := {
  host_pid : value;
  host_time : value;
  host_uptime : value;
  host_cpu : value;
  host_memory : value;
  host_NODE_ENV : value
}.

(** [a || b] *)
Definition or_else (a b : value) : value := if truthy a then a else b.

(** [proc.k] on a plain object. *)
Definition field (props : list (string * value)) (k : string) : value :=
  default VUndefined (lookup_prop k props).

(** [generateProcess (proc)] for a process descriptor that is a plain
    object, as the fields of [proc] after the call and the object
    answered. *)
Definition generateProcess (h : host) (app : string)
  (proc : list (string * value)) : list (string * value) * value :=
  let proc := if negb (truthy (field proc "createdAt"))
              then set_prop "createdAt" (host_time h) proc
              else proc in
  (proc,
   VObj [("pid", host_pid h);
         ("name", VStr app);
         ("interpreter", or_else (field proc "interpreter") (VStr "node"));
         ("restart_time", VNum 0);
         ("created_at", field proc "createdAt");
         ("exec_mode", VStr "fork_mode");
         ("watching", VBool false);
         ("pm_uptime", host_uptime h);
         ("status", VStr "online");
         ("pm_id", VNum 0);
         ("unique_id", field proc "unique_id");
         ("cpu", host_cpu h);
         ("memory", host_memory h);
         ("versioning", or_else (field proc "versioning") VNull);
         ("node_env", or_else (host_NODE_ENV h) VNull);
         ("axm_actions", or_else (field proc "axm_actions") (VArr []));
         ("axm_monitor", or_else (field proc "axm_monitor") (VObj []));
         ("axm_options", or_else (field proc "axm_options") (VObj []));
         ("axm_dynamic", or_else (field proc "dynamic") (VObj []))]).

(** The properties that [{...v}] copies, in the order [v] lists them: the
    own properties of an object, the elements of an array and the
    characters of a string under their indices, nothing of any other
    value. *)
Definition spread (v : value) : list (string * value) :=
  match v with
  | VObj props => props
  | VArr items => imap (fun i x => (pretty i, x)) items
  | VStr s =>
      imap (fun i c => (pretty i, VStr (String c EmptyString)))
           (list_ascii_of_string s)
  | VUndefined | VNull | VBool _ | VNum _ => []
  end.

(** The packet that [Agent.send] builds for the application [app]. *)
Definition agent_packet (app : string) (channel payload : value) : value :=
  VObj [("channel", channel);
        ("payload",
         VObj (set_prop "process"
                 (VObj [("pm_id", VNum 0); ("name", VStr app); ("server", VStr app)])
                 (spread payload)))].

(** ** What the program takes from outside [src/]

    The JavaScript built-ins ([JSON.parse] answers [None] where it throws a
    [SyntaxError]; [Math_random i] is the [i]-th value of
    [Math.floor(Math.random() * 0x10)]), the constants of [../constants],
    the values the helpers of [./utils/meta] produce, and what the host
    answers to [generateProcess]. *)
Class Env : Type := {
  JSON_parse : string -> option value;
  JSON_stringify : value -> string;
  ToString : value -> string;
  Math_random : nat -> Z;
  PM2_VERSION : value;
  PROTOCOL_VERSION : value;
  computeInternalIp : value;
  getServerMeta : value;
  readings : host
}.

(** ** The objects of the program *)

(** The events a [WebSocket] emits. *)
Inductive event_name : Type :=
| Eopen | Eerror | Eclose | Eping | Epong | Emessage.

#[global] Instance event_name_eq_dec : EqDecision event_name.
Proof. solve_decision. Defined.

(** The two callbacks that [connect] is called with: the one of
    [Agent.start], which closes over [endpoints], and the logging one of
    [onClose] and [noResponse]. *)
Inductive connect_cb : Type :=
| StartCb (endpoints : value)
| ReconnectCb.

(** The functions the transport registers on a socket.  [OnError] and
    [OnOpen] are the closures [onError] and [_ => {...}] of one call of
    [connect]; [origin], the socket that call created, tells the closures
    of different calls apart.  [OnPong] is the closure of one call of
    [ping] and closes over its [timeout]. *)
Inductive handler : Type :=
| OnError (origin : nat) (cb : connect_cb)
| OnOpen (origin : nat) (cb : connect_cb)
| OnClose
| LogError
| ReplyPong
| OnMessage
| OnPong (timeout : nat).

(** [f === g] on these functions. *)
Definition same_function (f g : handler) : bool :=
  match f, g with
  | OnError a _, OnError b _ => Nat.eqb a b
  | OnOpen a _, OnOpen b _ => Nat.eqb a b
  | OnClose, OnClose | LogError, LogError | ReplyPong, ReplyPong
  | OnMessage, OnMessage => true
  | OnPong a, OnPong b => Nat.eqb a b
  | _, _ => false
  end.

Record listener : Type := {
  on_event : event_name;
  once : bool;
  callback : handler
}.

Inductive frame : Type :=
| TextFrame (data : string)
| PingFrame
| PongFrame.

(** [readyState] of a [WebSocket]. *)
Definition CONNECTING : Z := 0.
Definition OPEN : Z := 1.
Definition CLOSING : Z := 2.
Definition CLOSED : Z := 3.

(** A [WebSocket] object: the address and upgrade headers it was made
    with, its state, its registered listeners in registration order, and
    the frames handed to it for the peer. *)
Record socket : Type := {
  url : value;
  upgrade_headers : list (string * value);
  readyState : Z;
  events : list listener;
  outbox : list frame
}.

(** A function passed to [listen]: its identity and what a call of it
    does, return ([None]) or throw. *)
Record subscriber : Type := {
  fn_id : nat;
  fn_body : value -> option error
}.

(** The fields of a [WebsocketTransport]; [ws] and [pingInterval] are
    [null] ([None]) or the index of a socket and the id of a timer. *)
Record WebsocketTransport : Type := {
  endpoint : value;
  headers : list (string * value);
  ws : option nat;
  pingInterval : option nat;
  listeners : gmap string (list subscriber)
}.

Record Config : Type := {
  publicKey : string;
  secretKey : string;
  appName : string;
  config_endpoint : value;
  internalIp : value
}.

(** The fields of an [Agent]; [process] is the process descriptor given
    to the constructor, as its own properties; [transport] and
    [statusInterval] are [None] until assigned. *)
Record Agent : Type := {
  config : Config;
  process : list (string * value);
  transport : option WebsocketTransport;
  statusInterval : option nat
}.

(** The functions given to [setInterval] and [setTimeout]: [this.ping],
    the closure [noResponse] of one call of [ping], [this.sendStatus]. *)
Inductive timer_callback : Type :=
| PingTick
| NoResponse
| SendStatus.

Record timer : Type := {
  timer_id : nat;
  delay : Z;
  repeat : bool;
  timer_fn : timer_callback
}.

(** The promise [start] returns. *)
Inductive promise : Type :=
| Pending
| Resolved
| Rejected (e : error).

(** The whole state: the agent with its transport, the sockets made so far
    (a socket is named by its position), the pending timers, and what the
    program has done that is visible from outside: its [debug] lines, the
    calls of subscribers, the exceptions no handler caught and the
    rejections of [async] calls. *)
Record world : Type := {
  agent : Agent;
  sockets : list socket;
  timers : list timer;
  next_timer : nat;
  started : promise;
  console : list string;
  calls : list (nat * value);
  uncaught : list error;
  rejections : list error
}.

Definition with_agent (f : Agent -> Agent) (w : world) : world :=
  {| agent := f (agent w); sockets := sockets w; timers := timers w;
     next_timer := next_timer w; started := started w; console := console w;
     calls := calls w; uncaught := uncaught w; rejections := rejections w |}.

Definition with_sockets (f : list socket -> list socket) (w : world) : world :=
  {| agent := agent w; sockets := f (sockets w); timers := timers w;
     next_timer := next_timer w; started := started w; console := console w;
     calls := calls w; uncaught := uncaught w; rejections := rejections w |}.

Definition with_timers (f : list timer -> list timer) (n : nat) (w : world) : world :=
  {| agent := agent w; sockets := sockets w; timers := f (timers w);
     next_timer := n; started := started w; console := console w;
     calls := calls w; uncaught := uncaught w; rejections := rejections w |}.

Definition with_started (p : promise) (w : world) : world :=
  {| agent := agent w; sockets := sockets w; timers := timers w;
     next_timer := next_timer w; started := p; console := console w;
     calls := calls w; uncaught := uncaught w; rejections := rejections w |}.

Definition with_console (line : string) (w : world) : world :=
  {| agent := agent w; sockets := sockets w; timers := timers w;
     next_timer := next_timer w; started := started w;
     console := console w ++ [line];
     calls := calls w; uncaught := uncaught w; rejections := rejections w |}.

Definition with_call (f : nat) (arg : value) (w : world) : world :=
  {| agent := agent w; sockets := sockets w; timers := timers w;
     next_timer := next_timer w; started := started w; console := console w;
     calls := calls w ++ [(f, arg)];
     uncaught := uncaught w; rejections := rejections w |}.

Definition with_uncaught (e : error) (w : world) : world :=
  {| agent := agent w; sockets := sockets w; timers := timers w;
     next_timer := next_timer w; started := started w; console := console w;
     calls := calls w; uncaught := uncaught w ++ [e];
     rejections := rejections w |}.

Definition with_rejection (e : error) (w : world) : world :=
  {| agent := agent w; sockets := sockets w; timers := timers w;
     next_timer := next_timer w; started := started w; console := console w;
     calls := calls w; uncaught := uncaught w;
     rejections := rejections w ++ [e] |}.

Definition set_transport (t : option WebsocketTransport) (a : Agent) : Agent :=
  {| config := config a; process := process a; transport := t;
     statusInterval := statusInterval a |}.

Definition set_statusInterval (i : option nat) (a : Agent) : Agent :=
  {| config := config a; process := process a; transport := transport a;
     statusInterval := i |}.

Definition set_config (c : Config) (a : Agent) : Agent :=
  {| config := c; process := process a; transport := transport a;
     statusInterval := statusInterval a |}.

Definition set_process (p : list (string * value)) (a : Agent) : Agent :=
  {| config := config a; process := p; transport := transport a;
     statusInterval := statusInterval a |}.

Definition set_ws (s : option nat) (t : WebsocketTransport) : WebsocketTransport :=
  {| endpoint := endpoint t; headers := headers t; ws := s;
     pingInterval := pingInterval t; listeners := listeners t |}.

Definition set_pingInterval (i : option nat) (t : WebsocketTransport)
  : WebsocketTransport :=
  {| endpoint := endpoint t; headers := headers t; ws := ws t;
     pingInterval := i; listeners := listeners t |}.

Definition set_listeners (r : gmap string (list subscriber))
  (t : WebsocketTransport) : WebsocketTransport :=
  {| endpoint := endpoint t; headers := headers t; ws := ws t;
     pingInterval := pingInterval t; listeners := r |}.

Definition set_readyState (n : Z) (k : socket) : socket :=
  {| url := url k; upgrade_headers := upgrade_headers k; readyState := n;
     events := events k; outbox := outbox k |}.

Definition set_events (l : list listener) (k : socket) : socket :=
  {| url := url k; upgrade_headers := upgrade_headers k;
     readyState := readyState k; events := l; outbox := outbox k |}.

Definition push_frame (f : frame) (k : socket) : socket :=
  {| url := url k; upgrade_headers := upgrade_headers k;
     readyState := readyState k; events := events k;
     outbox := outbox k ++ [f] |}.

(** ** Computations

    A method or handler is a function from the state to how it completes
    and the state it leaves; what was written before a [throw] stays
    written. *)
Definition M (A : Type) : Type := world -> completion A * world.

Definition ret {A} (a : A) : M A := fun w => (Return a, w).
Definition throw {A} (e : error) : M A := fun w => (Throw e, w).
Definition bind {A B} (m : M A) (k : A -> M B) : M B :=
  fun w => match m w with
           | (Return a, w') => k a w'
           | (Throw e, w') => (Throw e, w')
           end.
Definition gets {A} (f : world -> A) : M A := fun w => (Return (f w), w).
Definition modify (f : world -> world) : M unit := fun w => (Return tt, f w).
Definition lift {A} (c : completion A) : M A := fun w => (c, w).

Declare Scope js_scope.
Delimit Scope js_scope with js.
Notation "'do' x <- m ; k" := (bind m (fun x => k))
  (at level 10, x name, m at level 100, k at level 200) : js_scope.
Local Open Scope js_scope.

Definition debug (line : string) : M unit := modify (with_console line).

(** ** Timers *)

Definition setTimer (again : bool) (f : timer_callback) (ms : Z) : M nat :=
  do id <- gets next_timer;
  do _ <- modify (with_timers
                    (fun l => l ++ [{| timer_id := id; delay := ms;
                                       repeat := again; timer_fn := f |}])
                    (S id));
  ret id.

Definition setInterval : timer_callback -> Z -> M nat := setTimer true.
Definition setTimeout : timer_callback -> Z -> M nat := setTimer false.

Definition clearTimeout (id : nat) : M unit :=
  modify (fun w => with_timers (filter (fun t => timer_id t <> id)) (next_timer w) w).

(** ** The [ws] library, as the transport uses it

    [new WebSocket(address, options)] starts a handshake and answers an
    object in state [CONNECTING].  The constructor throws on an address
    that it cannot read as a websocket URL; the runs modelled are those in
    which it accepts the address of the transport.  [terminate] and
    [close] leave a closed socket alone and put any other in state
    [CLOSING]; on a socket that is still connecting they abort the
    handshake, and the library emits ['error'] inside the call (see
    [abortHandshake] below).  The library emits
    ['close'] on a socket once its connection is gone, whatever ended it,
    and answers a ping of the peer with a pong before it emits ['ping']
    (see [deliver] below).  [send] and [pong], called without a callback on
    a socket that is not open, throw; [ping], called with a callback on such
    a socket, passes the error to the callback at once. *)

Definition update_socket (s : nat) (f : socket -> socket) : M unit :=
  modify (with_sockets (alter f s)).

Definition socket_state (s : nat) : M Z :=
  gets (fun w => default CLOSED (readyState <$> sockets w !! s)).

Definition fresh_socket (address : value) (hdrs : list (string * value)) : socket :=
  {| url := address; upgrade_headers := hdrs; readyState := CONNECTING;
     events := []; outbox := [] |}.

Definition new_WebSocket (address : value) (hdrs : list (string * value)) : M nat :=
  do s <- gets (fun w => length (sockets w));
  do _ <- modify (with_sockets (fun l => l ++ [fresh_socket address hdrs]));
  ret s.

Definition ws_on (s : nat) (ev : event_name) (f : handler) : M unit :=
  update_socket s
    (fun k => set_events
                (events k ++ [{| on_event := ev; once := false; callback := f |}]) k).

Definition ws_once (s : nat) (ev : event_name) (f : handler) : M unit :=
  update_socket s
    (fun k => set_events
                (events k ++ [{| on_event := ev; once := true; callback := f |}]) k).

Fixpoint remove_first (p : listener -> bool) (l : list listener) : list listener :=
  match l with
  | [] => []
  | x :: r => if p x then r else x :: remove_first p r
  end.

Definition registered (ev : event_name) (f : handler) (l : listener) : bool :=
  bool_decide (on_event l = ev) && same_function (callback l) f.

(** [removeListener] takes out the instance registered last. *)
Definition ws_removeListener (s : nat) (ev : event_name) (f : handler) : M unit :=
  update_socket s
    (fun k => set_events (rev (remove_first (registered ev f) (rev (events k)))) k).

Definition ws_removeAllListeners (s : nat) : M unit :=
  update_socket s (set_events []).

Definition not_open : error := Error "WebSocket is not open".

Definition closed_before_open : error :=
  Error "WebSocket was closed before the connection was established".

(** The listeners of [ev] on the socket [s], in registration order. *)
Definition listeners_of (ev : event_name) (s : nat) (w : world) : list listener :=
  filter (fun l => on_event l = ev) (default [] (events <$> sockets w !! s)).

Definition ws_send (s : nat) (data : string) : M unit :=
  do st <- socket_state s;
  if st =? OPEN then update_socket s (push_frame (TextFrame data))
  else throw not_open.

Definition ws_ping (s : nat) : M (option error) :=
  do st <- socket_state s;
  if st =? OPEN
  then do _ <- update_socket s (push_frame PingFrame); ret None
  else ret (Some not_open).

Definition ws_pong (s : nat) : M unit :=
  do st <- socket_state s;
  if st =? OPEN then update_socket s (push_frame PongFrame)
  else throw not_open.

(** ** The Subscriber Registry

    [this.listeners] is a plain object: reading a name it does not own
    finds what [Object.prototype] defines under that name, a function or an
    object and never an array. *)
Definition Object_prototype : list string :=
  ["constructor"; "__proto__"; "hasOwnProperty"; "isPrototypeOf";
   "propertyIsEnumerable"; "toLocaleString"; "toString"; "valueOf";
   "__defineGetter__"; "__defineSetter__"; "__lookupGetter__";
   "__lookupSetter__"].

Inductive slot : Type :=
| Absent
| Handlers (fns : list subscriber)
| Inherited.

Definition read_listeners (r : gmap string (list subscriber)) (k : string) : slot :=
  match r !! k with
  | Some fns => Handlers fns
  | None => if bool_decide (k ∈ Object_prototype) then Inherited else Absent
  end.

(** The index [forEach] leaves in [indexToRemove]: that of the last
    function identical to [cb], or [-1]. *)
Fixpoint indexToRemove_from (cb : subscriber) (fns : list subscriber)
  (index : Z) (found : Z) : Z :=
  match fns with
  | [] => found
  | fn :: rest =>
      indexToRemove_from cb rest (index + 1)
        (if Nat.eqb (fn_id fn) (fn_id cb) then index else found)
  end.

(** ** [src/transport.js]: class [WebsocketTransport] *)

(** What the [ws] library reports on a socket. *)
Inductive ws_event : Type :=
| Open
| Failure (err : error)
| Close
| Ping
| Pong
| Message (rawData : string).

Definition name_of (e : ws_event) : event_name :=
  match e with
  | Open => Eopen
  | Failure _ => Eerror
  | Close => Eclose
  | Ping => Eping
  | Pong => Epong
  | Message _ => Emessage
  end.

Section Program.
Context {E : Env}.

(** [this], the one transport of the agent, and [this.ws]. *)
Definition this : M WebsocketTransport :=
  do a <- gets agent;
  match transport a with
  | Some t => ret t
  | None => throw (TypeError "Cannot read property of undefined")
  end.

Definition update_this (f : WebsocketTransport -> WebsocketTransport) : M unit :=
  modify (with_agent (fun a => set_transport (f <$> transport a) a)).

Definition this_ws : M nat :=
  do t <- this;
  match ws t with
  | Some s => ret s
  | None => throw (TypeError "Cannot read property of null")
  end.

(** [constructor (endpoint, headers)] *)
Definition new_WebsocketTransport (address : value) (hdrs : list (string * value))
  : M WebsocketTransport :=
  do _ <- debug "Init new websocket transport";
  ret {| endpoint := address; headers := hdrs; ws := None;
         pingInterval := None; listeners := ∅ |}.

(** [connect (cb)]; [this.ws] is the new socket in all four registrations. *)
Definition connect (cb : connect_cb) : M unit :=
  do _ <- debug "Connect transporter to websocket server";
  do t <- this;
  do s <- new_WebSocket (endpoint t) (headers t);
  do _ <- update_this (set_ws (Some s));
  do _ <- ws_once s Eerror (OnError s cb);
  do _ <- ws_once s Eopen (OnOpen s cb);
  do _ <- ws_on s Eping ReplyPong;
  ws_on s Emessage OnMessage.

Definition settle (p : promise) : M unit :=
  modify (fun w => match started w with
                   | Pending => with_started p w
                   | _ => w
                   end).

(** A call [cb(err)] or [cb(null, this.ws)] of the callback given to
    [connect]: lines 52 to 63 of [src/index.js] for the one of [start], the
    [debug] line for the one of [onClose] and [noResponse]. *)
Definition call_connect_cb (cb : connect_cb) (err : option error) : M unit :=
  match cb with
  | StartCb endpoints =>
      match err with
      | Some e => settle (Rejected e)
      | None =>
          do address <- lift (get_prop endpoints "ws");
          do _ <- modify (with_agent (fun a =>
                   set_config {| publicKey := publicKey (config a);
                                 secretKey := secretKey (config a);
                                 appName := appName (config a);
                                 config_endpoint := address;
                                 internalIp := internalIp (config a) |} a));
          do _ <- modify (with_agent (fun a =>
                   set_config {| publicKey := publicKey (config a);
                                 secretKey := secretKey (config a);
                                 appName := appName (config a);
                                 config_endpoint := config_endpoint (config a);
                                 internalIp := computeInternalIp |} a));
          do id <- setInterval SendStatus 1000;
          do _ <- modify (with_agent (set_statusInterval (Some id)));
          settle Resolved
      end
  | ReconnectCb =>
      debug (match err with
             | Some _ => "Got an error on websocket connection"
             | None => "Websocket connection successfuly reconnected"
             end)
  end.

(** [const onError = (err) => {...}] of [connect]. *)
Definition onError (cb : connect_cb) (err : error) : M unit :=
  do s <- this_ws;
  do _ <- ws_removeAllListeners s;
  call_connect_cb cb (Some err).

(** A call, from inside [abortHandshake], of a function registered on
    ['error'].  The program registers two functions on that event: the
    [onError] of [connect] (line 37) and the logging function of line 43. *)
Definition on_abort (f : handler) (err : error) : M unit :=
  match f with
  | OnError _ cb => onError cb err
  | LogError => debug "Got an error with websocket connection"
  | _ => ret tt
  end.

Fixpoint abort_listeners (s : nat) (ls : list listener) (err : error) : M unit :=
  match ls with
  | [] => ret tt
  | l :: rest =>
      do _ <- (if once l
               then update_socket s (fun k =>
                      set_events (remove_first (registered (on_event l) (callback l))
                                               (events k)) k)
               else ret tt);
      do _ <- on_abort (callback l) err;
      abort_listeners s rest err
  end.

(** [abortHandshake] of the [ws] library, which [terminate] and [close]
    run on a socket that is still connecting: the socket goes to
    [CLOSING] and ['error'] is emitted before the call returns, to the
    listeners registered then; with no listener the error is thrown. *)
Definition abortHandshake (s : nat) : M unit :=
  do _ <- update_socket s (set_readyState CLOSING);
  do ls <- gets (listeners_of Eerror s);
  match ls with
  | [] => throw closed_before_open
  | _ => abort_listeners s ls closed_before_open
  end.

Definition ws_terminate (s : nat) : M unit :=
  do st <- socket_state s;
  if st =? CLOSED then ret tt
  else if st =? CONNECTING then abortHandshake s
  else update_socket s (set_readyState CLOSING).

Definition ws_close (s : nat) : M unit :=
  do st <- socket_state s;
  if st =? CLOSED then ret tt
  else if st =? CONNECTING then abortHandshake s
  else update_socket s (set_readyState CLOSING).

(** The listener of ['open'] that [connect] registers. *)
Definition onOpen (origin : nat) (cb : connect_cb) : M unit :=
  do _ <- debug "Websocket connected";
  do s <- this_ws;
  do _ <- ws_removeListener s Eerror (OnError origin cb);
  do _ <- ws_on s Eclose OnClose;
  do _ <- ws_on s Eerror LogError;
  do id <- setInterval PingTick (30 * 1000);
  do _ <- update_this (set_pingInterval (Some id));
  call_connect_cb cb None.

(** [onClose ()] *)
Definition onClose : M unit :=
  do _ <- debug "Websocket connection is closed, try to reconnect";
  do s <- this_ws;
  do _ <- ws_terminate s;
  do _ <- ws_removeAllListeners s;
  connect ReconnectCb.

(** A call [fn(data.payload)] of a subscriber. *)
Definition invoke (fn : subscriber) (arg : value) : M unit :=
  do _ <- modify (with_call (fn_id fn) arg);
  match fn_body fn arg with
  | Some e => throw e
  | None => ret tt
  end.

Fixpoint forEach (fns : list subscriber) (arg : value) : M unit :=
  match fns with
  | [] => ret tt
  | fn :: rest => do _ <- invoke fn arg; forEach rest arg
  end.

(** The property name that [this.listeners[v]] reads. *)
Definition property_key (v : value) : string :=
  match v with
  | VStr s => s
  | _ => ToString v
  end.

(** [onMessage (rawData)] *)
Definition onMessage (rawData : string) : M unit :=
  match JSON_parse rawData with
  | None => debug ("Get non-JSON data from websocket server: " +:+ rawData)
  | Some data =>
      do channel <- lift (get_prop data "channel");
      if negb (truthy channel)
      then debug ("Get bad message from websocket server: " +:+ rawData)
      else
        do payload <- lift (get_prop data "payload");
        if negb (truthy payload)
        then debug ("Get bad message from websocket server: " +:+ rawData)
        else
          do t <- this;
          match read_listeners (listeners t) (property_key channel) with
          | Absent => ret tt
          | Handlers fns => forEach fns payload
          | Inherited =>
              throw (TypeError "this.listeners[data.channel].forEach is not a function")
          end
  end.

(** [const noResponse = _ => {...}] of [ping], with its [timeout]. *)
Definition noResponse (timeout : nat) : M unit :=
  do _ <- clearTimeout timeout;
  do _ <- debug "We can't get any response to ping from websocket server, trying to reconnect";
  do s <- this_ws;
  do _ <- ws_terminate s;
  connect ReconnectCb.

(** [ping ()] *)
Definition ping : M unit :=
  do timeout <- setTimeout NoResponse (5 * 1000);
  do s <- this_ws;
  do err <- ws_ping s;
  do _ <- match err with
          | Some _ => noResponse timeout
          | None => debug "Successfuly sended a ping!"
          end;
  do s' <- this_ws;
  ws_on s' Epong (OnPong timeout).

(** The listener of ['pong'] that [ping] registers. *)
Definition onPong (timeout : nat) : M unit :=
  do _ <- clearTimeout timeout;
  debug "Websocket server has replied to ping!".

(** [isConnected ()]: [this.ws && this.ws.readyState < 2], which is
    [null] when [this.ws] is. *)
Definition isConnected : M value :=
  do t <- this;
  match ws t with
  | None => ret VNull
  | Some s => do st <- socket_state s; ret (VBool (st <? 2))
  end.

(** [send (packet)] *)
Definition send (packet : value) : M bool :=
  do connected <- isConnected;
  if negb (truthy connected) then ret false
  else
    do channel <- lift (get_prop packet "channel");
    if negb (truthy channel) then ret false
    else
      do payload <- lift (get_prop packet "payload");
      if negb (truthy payload) then ret false
      else
        do s <- this_ws;
        do _ <- ws_send s (JSON_stringify packet);
        ret true.

(** [listen (event, cb)]; the answer is that of [push], the new length. *)
Definition listen (event : string) (cb : subscriber) : M Z :=
  do t <- this;
  do _ <- match read_listeners (listeners t) event with
          | Absent => update_this (set_listeners (<[event := []]> (listeners t)))
          | _ => ret tt
          end;
  do t' <- this;
  match read_listeners (listeners t') event with
  | Handlers fns =>
      do _ <- update_this (set_listeners (<[event := fns ++ [cb]]> (listeners t')));
      ret (Z.of_nat (length fns) + 1)
  | _ => throw (TypeError "this.listeners[event].push is not a function")
  end.

(** [unlisten (event, cb)], [cb] being [None] when no handle is given.  The
    assignment of line 131 is written as an own entry under every name.
    Under the name [__proto__] the code makes the new array the prototype
    of the registry instead: that name then reads as an own entry would,
    and what the other names inherit from the array is not followed. *)
Definition unlisten (event : string) (cb : option subscriber) : M value :=
  do t <- this;
  match read_listeners (listeners t) event with
  | Absent => ret VNull
  | found =>
      match cb with
      | None =>
          do _ <- update_this (set_listeners (<[event := []]> (listeners t)));
          ret (VArr [])
      | Some f =>
          do indexToRemove <-
            match found with
            | Handlers fns => ret (indexToRemove_from f fns 0 (-1))
            | _ => throw (TypeError "this.listeners[event].forEach is not a function")
            end;
          throw (TypeError "this.listeners.splice is not a function")
      end
  end.

(** [disconnect ()] *)
Definition disconnect : M unit :=
  do _ <- debug "Disconnect from websocket server";
  do s <- this_ws;
  ws_close s.

(** ** [src/index.js]: class [Agent] *)

(** The packet that [sendStatus] builds on the agent [a]; its [process]
    is what [this.generateProcess(this.process)] answers. *)
Definition status_packet (a : Agent) : value :=
  VObj [("channel", VStr "status");
        ("payload",
         VObj [("data",
                VObj [("process",
                       VArr [snd (generateProcess readings (appName (config a))
                                    (process a))]);
                      ("server", getServerMeta)]);
               ("server_name", VStr (appName (config a)));
               ("internal_ip", internalIp (config a));
               ("rev_con", VBool true)])].

(** [async sendStatus ()].  The receiver [this.transport] is read first;
    building the argument calls [generateProcess], which writes
    [createdAt] into [this.process]; then [send] runs.  What is thrown
    rejects the promise of the call and goes no further. *)
Definition sendStatus : M unit :=
  fun w =>
    match (do _ <- this;
           do a <- gets agent;
           do _ <- modify (with_agent
                             (set_process
                                (fst (generateProcess readings (appName (config a))
                                        (process a)))));
           send (status_packet a)) w with
    | (Return _, w') => (Return tt, w')
    | (Throw e, w') => (Return tt, with_rejection e w')
    end.

(** What [http.open] passes to its callback. *)
Inductive http_answer : Type :=
| HttpError (err : error)
| HttpData (data : value).

(** [checkCredentials (config, cb)], from the answer of the verification
    request on: the body of the callback given to [http.open]. *)
Definition checkCredentials (answer : http_answer)
  (cb : option error -> value -> M unit) : M unit :=
  match answer with
  | HttpError err => cb (Some err) VUndefined
  | HttpData data =>
      do disabled <- lift (get_prop data "disabled");
      do pending <- lift (get_prop data "pending");
      if is_true disabled || is_true pending
      then cb (Some (Error "Interactor disabled.")) VUndefined
      else
        do active <- lift (get_prop data "active");
        if is_false active
        then cb (Some (Error "Interactor not active.")) VUndefined
        else
          do endpoints <- lift (get_prop data "endpoints");
          if negb (truthy endpoints)
          then cb (Some (Error ("Endpoints field not present ("
                                +:+ JSON_stringify data +:+ ").")))
                  VUndefined
          else cb None endpoints
  end.

(** [start ()], given the answer of the verification request. *)
Definition start (answer : http_answer) : M unit :=
  checkCredentials answer (fun err endpoints =>
    match err with
    | Some e => settle (Rejected e)
    | None =>
        do address <- lift (get_prop endpoints "ws");
        do cfg <- gets (fun w => config (agent w));
        do t <- new_WebsocketTransport address
                  [("X-KM-PUBLIC", VStr (publicKey cfg));
                   ("X-KM-SECRET", VStr (secretKey cfg));
                   ("X-KM-SERVER", VStr (appName cfg));
                   ("X-PM2-VERSION", PM2_VERSION);
                   ("X-PROTOCOL-VERSION", PROTOCOL_VERSION)];
        do _ <- modify (with_agent (set_transport (Some t)));
        connect (StartCb endpoints)
    end).

(** ** Events and timers *)

(** A call of a registered function with what the event carries. *)
Definition handle (f : handler) (e : ws_event) : M unit :=
  match f with
  | OnError _ cb =>
      onError cb (match e with Failure err => err | _ => Error "" end)
  | OnOpen origin cb => onOpen origin cb
  | OnClose => onClose
  | LogError => debug "Got an error with websocket connection"
  | ReplyPong =>
      do _ <- debug "Received ping! Pong sended!";
      do s <- this_ws;
      ws_pong s
  | OnMessage =>
      match e with
      | Message rawData => onMessage rawData
      | _ => ret tt
      end
  | OnPong timeout => onPong timeout
  end.

(** [EventEmitter.emit]: the listeners registered when the event is
    emitted are called in order; one registered with [once] is taken out
    before it is called; an exception ends the emission; ['error'] with no
    listener throws the error. *)
Fixpoint call_listeners (s : nat) (ls : list listener) (e : ws_event) : M unit :=
  match ls with
  | [] => ret tt
  | l :: rest =>
      do _ <- (if once l
               then update_socket s (fun k =>
                      set_events (remove_first (registered (on_event l) (callback l))
                                               (events k)) k)
               else ret tt);
      do _ <- handle (callback l) e;
      call_listeners s rest e
  end.

Definition emit (s : nat) (e : ws_event) : M unit :=
  do ls <- gets (listeners_of (name_of e) s);
  match e, ls with
  | Failure err, [] => throw err
  | _, _ => call_listeners s ls e
  end.

(** The [ws] library reports [e] on socket [s]: a handshake that ends
    well opens the socket, a failure leaves it closing, the end of the
    connection closes it, and frames arrive on an open socket; to a ping
    the library sends a pong of its own before it emits ['ping'].  An
    event that the state of the socket rules out does not happen. *)
Definition deliver (s : nat) (e : ws_event) : M unit :=
  do st <- socket_state s;
  match e with
  | Open =>
      if st =? CONNECTING
      then do _ <- update_socket s (set_readyState OPEN); emit s e
      else ret tt
  | Failure _ =>
      if st =? CLOSED then ret tt
      else do _ <- update_socket s (set_readyState CLOSING); emit s e
  | Close =>
      if st =? CLOSED then ret tt
      else do _ <- update_socket s (set_readyState CLOSED); emit s e
  | Ping =>
      if st =? OPEN
      then do _ <- update_socket s (push_frame PongFrame); emit s e
      else ret tt
  | Pong | Message _ =>
      if st =? OPEN then emit s e else ret tt
  end.

(** The timer [id] fires, if it is pending. *)
Definition fire (id : nat) : M unit :=
  do ts <- gets timers;
  match List.find (fun t => Nat.eqb (timer_id t) id) ts with
  | None => ret tt
  | Some t =>
      do _ <- (if repeat t then ret tt else clearTimeout id);
      match timer_fn t with
      | PingTick => ping
      | NoResponse => noResponse id
      | SendStatus => sendStatus
      end
  end.

(** What can happen once [start] has run: the application calls the
    transport, the [ws] library reports an event, a timer fires. *)
Inductive action : Type :=
| CallSend (packet : value)
| CallListen (event : string) (cb : subscriber)
| CallUnlisten (event : string) (cb : option subscriber)
| CallDisconnect
| Deliver (s : nat) (e : ws_event)
| Fire (id : nat).

Definition perform (a : action) : M unit :=
  match a with
  | CallSend packet => do _ <- send packet; ret tt
  | CallListen event cb => do _ <- listen event cb; ret tt
  | CallUnlisten event cb => do _ <- unlisten event cb; ret tt
  | CallDisconnect => disconnect
  | Deliver s e => deliver s e
  | Fire id => fire id
  end.

(** A turn of the event loop; an exception that leaves it is recorded. *)
Definition turn (m : M unit) (w : world) : world :=
  match m w with
  | (Return _, w') => w'
  | (Throw e, w') => with_uncaught e w'
  end.

Definition step (w : world) (a : action) : world := turn (perform a) w.

Definition run (w : world) (trace : list action) : world := fold_left step trace w.

(** [new Agent(config, {})] with a valid configuration: the constructor
    has written the identifier into the process descriptor. *)
Definition new_Agent (public secret app : string) : world :=
  {| agent := {| config := {| publicKey := public; secretKey := secret;
                              appName := app; config_endpoint := VUndefined;
                              internalIp := VUndefined |};
                 process := [("unique_id", VStr (generateUniqueId Math_random))];
                 transport := None; statusInterval := None |};
     sockets := []; timers := []; next_timer := 0; started := Pending;
     console := []; calls := []; uncaught := []; rejections := [] |}.

(** The state once [start] has run on a new agent. *)
Definition boot (public secret app : string) (answer : http_answer) : world :=
  turn (start answer) (new_Agent public secret app).

(** The actions that are not calls of the application. *)
Definition autonomous (a : action) : bool :=
  match a with
  | Deliver _ _ | Fire _ => true
  | _ => false
  end.

End Program.

(** ** [src/index.js]: the rest of class [Agent] *)

(** What [new Agent(config, proc, cb)] leaves: the error of line 26,
    passed to [cb] ([reported]) or answered in place of the agent; or the
    agent, with [this.process = proc] and the identifier written to
    [proc.unique_id]. *)
Inductive constructed : Type :=
| Invalid (err : error) (reported : bool)
| Valid (w : world) (process : value) (unique_id : string).

Section AgentConstructor.
Context {E : Env}.

(** [constructor (config, proc, cb)]; [cb] tells whether a callback is
    given.  The assignment to [proc.unique_id] throws on [null], which
    [typeof] calls an object. *)
Definition Agent_constructor (config proc : value) (cb : bool)
  (random : nat -> Z) : completion constructed :=
  let invalid :=
    Return (Invalid (Error "You need to provide a valid configuration and process!") cb) in
  if negb (truthy config) then invalid
  else
    match get_prop config "publicKey", get_prop config "secretKey",
          get_prop config "appName" with
    | Return (VStr public), Return (VStr secret), Return (VStr app) =>
        if negb (String.eqb (typeof proc) "object") then invalid
        else
          match proc with
          | VNull => Throw (TypeError "Cannot set property 'unique_id' of null")
          | _ =>
              Return (Valid (with_agent
                               (set_process
                                  (set_prop "unique_id"
                                     (VStr (generateUniqueId random))
                                     (spread proc)))
                               (with_console
                                  ("New agent constructed with: [public: " +:+ public
                                   +:+ ", secret: " +:+ secret
                                   +:+ ", app: " +:+ app +:+ "]")
                                  (new_Agent public secret app)))
                            proc (generateUniqueId random))
          end
    | _, _, _ => invalid
    end.

End AgentConstructor.

Section AgentSend.
Context {E : Env}.

(** [async send (channel, payload)] of the agent: the answer of
    [this.transport.send], or [None] when the call throws and the promise
    is rejected. *)
Definition Agent_send (channel payload : value) : M (option bool) :=
  fun w =>
    match (do a <- gets agent;
           send (agent_packet (appName (config a)) channel payload)) w with
    | (Return b, w') => (Return (Some b), w')
    | (Throw e, w') => (Return None, with_rejection e w')
    end.

End AgentSend.

Section StartHeaders.
Context {E : Env}.

(** The headers that [start] gives to the transport. *)
Definition start_headers (public secret app : string) : list (string * value) :=
  [("X-KM-PUBLIC", VStr public); ("X-KM-SECRET", VStr secret);
   ("X-KM-SERVER", VStr app); ("X-PM2-VERSION", PM2_VERSION);
   ("X-PROTOCOL-VERSION", PROTOCOL_VERSION)].

End StartHeaders.

(** The state with the registry [r] in place of that of the transport. *)
Definition with_registry (r : gmap string (list subscriber)) (w : world) : world :=
  with_agent (fun a => set_transport (set_listeners r <$> transport a) a) w.

(** A sample host and a sample source of random digits. *)
Definition sample_host (time : Z) : host :=
  {| host_pid := VNum 4242; host_time := VNum time; host_uptime := VNum 12;
     host_cpu := VNum 3; host_memory := VNum 1024; host_NODE_ENV := VUndefined |}.

Definition sample_random (i : nat) : Z := Z.of_nat (i * 7 mod 16).

(** ** Notions the properties are stated with *)

(** The state after the calls of [fns] with [arg], in order. *)
Definition record_calls (fns : list subscriber) (arg : value) (w : world) : world :=
  fold_left (fun w' fn => with_call (fn_id fn) arg w') fns w.

(** An agent without transport, sockets or timers. *)
Definition idle (w : world) : Prop :=
  transport (agent w) = None /\ sockets w = [] /\ timers w = [].

(** The Subscriber Registry of the agent's transport. *)
Definition registry (w : world) : option (gmap string (list subscriber)) :=
  listeners <$> transport (agent w).

(** The transport holds the address [address] and the headers [hdrs], and
    every socket made so far was made with them. *)
Definition addressed (address : value) (hdrs : list (string * value))
  (w : world) : Prop :=
  (exists t, transport (agent w) = Some t /\ endpoint t = address /\ headers t = hdrs)
  /\ Forall (fun k => url k = address /\ upgrade_headers k = hdrs) (sockets w).

(** A computation keeps a property of the state, however it completes. *)
Definition preserves (P : world -> Prop) {A : Type} (m : M A) : Prop :=
  forall w, P w -> P (snd (m w)).

(** Updates of a socket that keep what it was made with, and updates of
    the transport that keep its address, its headers and its registry. *)
Definition keeps_address (f : socket -> socket) : Prop :=
  forall k, url (f k) = url k /\ upgrade_headers (f k) = upgrade_headers k.

Definition keeps_core (f : WebsocketTransport -> WebsocketTransport) : Prop :=
  forall t, endpoint (f t) = endpoint t /\ headers (f t) = headers t
            /\ listeners (f t) = listeners t.

(** The listeners that [connect] leaves on the socket [s] it makes. *)
Definition connect_listeners (s : nat) (cb : connect_cb) : list listener :=
  [ {| on_event := Eerror; once := true; callback := OnError s cb |};
    {| on_event := Eopen; once := true; callback := OnOpen s cb |};
    {| on_event := Eping; once := false; callback := ReplyPong |};
    {| on_event := Emessage; once := false; callback := OnMessage |} ].

(** No timer is pending and no socket has a listener. *)
Definition quiescent (w : world) : Prop :=
  timers w = [] /\ Forall (fun k => events k = []) (sockets w).

(** A reconnect attempt between the states [w] and [w']: one socket has
    been made, with the address [address], the headers [hdrs] and the
    listeners of [connect], and it is [this.ws]. *)
Definition reconnected (address : value) (hdrs : list (string * value))
  (w w' : world) : Prop :=
  length (sockets w') = S (length (sockets w))
  /\ sockets w' !! length (sockets w)
     = Some (set_events (connect_listeners (length (sockets w)) ReconnectCb)
               (fresh_socket address hdrs))
  /\ (ws <$> transport (agent w')) = Some (Some (length (sockets w))).

(** ** A concrete environment for runs

    The reader and writer of [Json], and sample values for the constants
    and for what the helpers of [./utils/meta] answer. *)

Definition node_env : Env :=
  {| JSON_parse := Json.parse;
     JSON_stringify := Json.stringify;
     ToString := Json.to_string;
     Math_random := sample_random;
     PM2_VERSION := VStr "3.0.0";
     PROTOCOL_VERSION := VNum 1;
     computeInternalIp := VStr "10.0.0.2";
     getServerMeta := VObj [];
     readings := sample_host 1000 |}.

(** The answers of the verification request, the subscribers and the
    states that the concrete runs start from. *)
Definition verified : http_answer :=
  HttpData (VObj [("endpoints", VObj [("ws", VStr "wss://example/x")])]).

Definition disabled_account : http_answer :=
  HttpData (VObj [("disabled", VBool true)]).

Definition started_agent : world := @boot node_env "public" "secret" "app" verified.

(** The agent once its first socket has opened: socket 0 is open, timer 0
    is the interval of [ping] and timer 1 the interval of [sendStatus]. *)
Definition connected_agent : world := @run node_env started_agent [Deliver 0 Open].

(** The text [{<q>channel<q>:<q>c<q>,<q>payload<q>:p}], [<q>] being the
    double quote. *)
Definition frame_text (channel payload : string) : string :=
  "{" +:+ Json.quote "channel" +:+ ":" +:+ Json.quote channel +:+ ","
  +:+ Json.quote "payload" +:+ ":" +:+ payload +:+ "}".

Definition quiet (id : nat) : subscriber :=
  {| fn_id := id; fn_body := fun _ => None |}.

Definition failing (id : nat) : subscriber :=
  {| fn_id := id; fn_body := fun _ => Some (Error "subscriber failed") |}.

(** The transport that [start] makes on the answer [verified]. *)
Definition first_transport : WebsocketTransport :=
  {| endpoint := VStr "wss://example/x";
     headers := [("X-KM-PUBLIC", VStr "public"); ("X-KM-SECRET", VStr "secret");
                 ("X-KM-SERVER", VStr "app"); ("X-PM2-VERSION", VStr "3.0.0");
                 ("X-PROTOCOL-VERSION", VNum 1)];
     ws := Some 0%nat; pingInterval := None; listeners := ∅ |}.

(** The transport of [connected_agent]. *)
Definition connected_transport : WebsocketTransport :=
  set_pingInterval (Some 0%nat) first_transport.

(** Packets with a payload that is present and falsy, and one with a
    truthy payload. *)
Definition zero_packet : value := VObj [("channel", VStr "a"); ("payload", VNum 0)].
Definition one_packet : value := VObj [("channel", VStr "a"); ("payload", VNum 1)].

(** The connected agent with two subscribers on channel [a], the first of
    which throws. *)
Definition listening_agent : world :=
  @run node_env connected_agent [CallListen "a" (failing 1); CallListen "a" (quiet 2)].

(** The socket of [connected_agent]. *)
Definition connected_socket : socket :=
  {| url := VStr "wss://example/x";
     upgrade_headers := headers first_transport;
     readyState := OPEN;
     events := [ {| on_event := Eping; once := false; callback := ReplyPong |};
                 {| on_event := Emessage; once := false; callback := OnMessage |};
                 {| on_event := Eclose; once := false; callback := OnClose |};
                 {| on_event := Eerror; once := false; callback := LogError |} ];
     outbox := [] |}.

(** The connected agent once its socket has closed: socket 1, which
    [onClose] has made, is still connecting, and the two intervals are
    pending. *)
Definition reconnecting_agent : world :=
  @run node_env connected_agent [Deliver 0 Close].

Definition reconnecting_transport : WebsocketTransport :=
  set_ws (Some 1%nat) connected_transport.

Definition reconnecting_socket : socket :=
  set_events (connect_listeners 1 ReconnectCb)
    (fresh_socket (endpoint connected_transport) (headers connected_transport)).



(** The transport of [listening_agent]. *)
Definition listening_transport : WebsocketTransport :=
  set_listeners {["a" := [failing 1; quiet 2]]} connected_transport.

(** The properties of the answer [verified], and a valid configuration. *)
Definition verified_props : list (string * value) :=
  [("endpoints", VObj [("ws", VStr "wss://example/x")])].

Definition sample_config : value :=
  VObj [("publicKey", VStr "public"); ("secretKey", VStr "secret");
        ("appName", VStr "app")].

Definition status_timer : timer :=
  {| timer_id := 1; delay := 1000; repeat := true; timer_fn := SendStatus |}.

(** The agent that the constructor leaves for [sample_config] and the
    process descriptor [{interpreter: 'node'}]. *)
Definition constructed_agent : world :=
  with_agent
    (set_process [("interpreter", VStr "node");
                  ("unique_id", VStr (generateUniqueId sample_random))])
    (with_console
       "New agent constructed with: [public: public, secret: secret, app: app]"
       (@new_Agent node_env "public" "secret" "app")).

(** A transport that has been constructed and not connected. *)
Definition unconnected_agent : world :=
  with_agent (set_transport (Some (set_ws None first_transport)))
    (@new_Agent node_env "public" "secret" "app").

(** * Properties *)

(** ** The JSON reader and writer on sample texts *)

Example parse_packet :
  Json.parse (frame_text "a" "[1, true, null]")
  = Some (VObj [("channel", VStr "a");
                ("payload", VArr [VNum 1; VBool true; VNull])]).
Proof. vm_compute. reflexivity. Qed.

Example parse_not_json : Json.parse "not-json" = None.
Proof. vm_compute. reflexivity. Qed.

Example stringify_packet :
  Json.stringify (VObj [("channel", VStr "a"); ("payload", VNum 0)])
  = frame_text "a" "0".
Proof. vm_compute. reflexivity. Qed.

Example parse_null : Json.parse "null" = Some VNull.
Proof. vm_compute. reflexivity. Qed.

(** ** Methods of the transport, one call at a time *)

Section Methods.
Context {E : Env}.

Ltac js_unfold :=
  unfold send, isConnected, onMessage, listen, unlisten, disconnect,
    this_ws, this, ws_send, ws_close, ws_terminate, ws_ping, ws_pong,
    socket_state, update_socket, update_this, debug,
    bind, ret, throw, gets, modify, lift.

(** The values the specification lists as falsy are. *)
Lemma listed_falsy_values :
  Forall (fun v => truthy v = false) [VNum 0; VBool false; VStr ""; VNull].
Proof. repeat constructor. Qed.

Lemma isConnected_with_socket (t : WebsocketTransport) (s : nat) (k : socket)
  (w : world) :
  transport (agent w) = Some t -> ws t = Some s -> sockets w !! s = Some k ->
  isConnected w = (Return (VBool (readyState k <? 2)), w).
Proof.
  intros Ht Hs Hk. js_unfold. simpl. rewrite Ht. simpl. rewrite Hs. simpl.
  now rewrite Hk.
Qed.

(** [isConnected] reads the state and does not throw on a transport. *)
Lemma isConnected_pure (t : WebsocketTransport) (w w' : world)
  (r : completion value) :
  transport (agent w) = Some t ->
  isConnected w = (r, w') -> w' = w /\ exists v, r = Return v.
Proof.
  intros Ht. js_unfold. simpl. rewrite Ht. simpl.
  destruct (ws t); simpl; intros [= <- <-]; eauto.
Qed.

(** C10.  [send] and [onMessage] test whether [payload] is truthy, not
    whether it is there: a packet whose [payload] is present and falsy is
    refused by [send], which answers [false] and leaves the state as it
    was, and an inbound frame that carries it is dropped with a
    diagnostic, no subscriber being called. *)
Theorem falsy_payload_is_refused (props : list (string * value))
  (payload : value) (t : WebsocketTransport) (w : world) (rawData : string) :
  lookup_prop "payload" props = Some payload ->
  truthy payload = false ->
  transport (agent w) = Some t ->
  send (VObj props) w = (Return false, w)
  /\ (JSON_parse rawData = Some (VObj props) ->
      onMessage rawData w
      = (Return tt,
         with_console ("Get bad message from websocket server: " +:+ rawData) w)).
Proof.
  intros Hp Hf Ht. split.
  - js_unfold. simpl. rewrite Ht. simpl.
    destruct (ws t) as [s|]; simpl; [|done].
    destruct (_ <? 2); simpl; [|done].
    destruct (truthy (default _ (lookup_prop "channel" _))); simpl; [|done].
    rewrite Hp. simpl. rewrite Hf. done.
  - intros Hj. js_unfold. rewrite Hj. simpl.
    destruct (truthy (default _ (lookup_prop "channel" _))); simpl; [|done].
    rewrite Hp. simpl. rewrite Hf. done.
Qed.

(** C6, as the code has it.  [send] answers [false] and leaves the state
    as it was when [isConnected()] is falsy, and when the channel or the
    payload of the packet is missing or falsy; when both are truthy and
    the socket is open, it hands [JSON.stringify(packet)] to the socket
    and answers [true]. *)
Theorem send_checks_truthiness (packet : value) (t : WebsocketTransport)
  (w : world) :
  transport (agent w) = Some t ->
  (forall v : value,
      isConnected w = (Return v, w) -> truthy v = false ->
      send packet w = (Return false, w))
  /\ (forall c p : value,
        get_prop packet "channel" = Return c ->
        get_prop packet "payload" = Return p ->
        truthy c && truthy p = false ->
        send packet w = (Return false, w))
  /\ (forall (c p : value) (s : nat) (k : socket),
        get_prop packet "channel" = Return c ->
        get_prop packet "payload" = Return p ->
        truthy c && truthy p = true ->
        ws t = Some s -> sockets w !! s = Some k -> readyState k = OPEN ->
        send packet w
        = (Return true,
           with_sockets
             (alter (push_frame (TextFrame (JSON_stringify packet))) s) w)).
Proof.
  intros Ht. split; [|split].
  - intros v Hc Hv. unfold send, bind. rewrite Hc, Hv. reflexivity.
  - intros c p Hc Hp Hcp. unfold send, bind.
    destruct (isConnected w) as [r w'] eqn:Hi.
    apply (isConnected_pure t) in Hi as [-> [b ->]]; [|done].
    destruct (truthy b); simpl; [|done]. unfold lift, ret. rewrite Hc, Hp.
    destruct (truthy c); simpl in *; [|done]. now rewrite Hcp.
  - intros c p s k Hc Hp Hcp Hs Hk Ho. unfold send, bind.
    rewrite (isConnected_with_socket t s k w Ht Hs Hk), Ho. simpl.
    apply andb_true_iff in Hcp as [Tc Tp].
    unfold lift. rewrite Hc, Hp, Tc, Tp. simpl.
    js_unfold. simpl. rewrite Ht. simpl. rewrite Hs. simpl.
    rewrite Hk. simpl. now rewrite Ho.
Qed.

(** [unlisten] with a handle, on a channel that has an entry, ends in a
    [TypeError] and removes nothing: line 138 calls [splice] on
    [this.listeners], a plain object, and not on the array of the channel. *)
Lemma unlisten_with_handle_throws (event : string) (cb : subscriber)
  (fns : list subscriber) (t : WebsocketTransport) (w : world) :
  transport (agent w) = Some t ->
  listeners t !! event = Some fns ->
  unlisten event (Some cb) w
  = (Throw (TypeError "this.listeners.splice is not a function"), w).
Proof.
  intros Ht Hl. js_unfold. simpl. rewrite Ht. simpl.
  unfold read_listeners. now rewrite Hl.
Qed.

(** Without a handle, [unlisten] empties the entry of the channel and
    leaves the other channels alone. *)
Lemma unlisten_without_handle (event : string) (fns : list subscriber)
  (t : WebsocketTransport) (w : world) :
  transport (agent w) = Some t ->
  listeners t !! event = Some fns ->
  exists (t' : WebsocketTransport) (w' : world),
    unlisten event None w = (Return (VArr []), w')
    /\ transport (agent w') = Some t'
    /\ listeners t' !! event = Some []
    /\ forall other, other <> event -> listeners t' !! other = listeners t !! other.
Proof.
  intros Ht Hl. js_unfold. simpl. rewrite Ht. simpl.
  unfold read_listeners. rewrite Hl. simpl.
  eexists _, _. split; [reflexivity|]. simpl. rewrite Ht. simpl.
  split; [reflexivity|]. simpl. split.
  - apply lookup_insert_eq.
  - intros other Hne. now apply lookup_insert_ne.
Qed.

(** A frame that parses to [null] is not dropped: reading [data.channel]
    throws a [TypeError], outside the [try] of line 70, and the exception
    leaves [onMessage]. *)
Lemma onMessage_null_throws (rawData : string) (w : world) :
  JSON_parse rawData = Some VNull ->
  onMessage rawData w
  = (Throw (TypeError "Cannot read property 'channel' of null or undefined"), w).
Proof. intros Hj. unfold onMessage. now rewrite Hj. Qed.

(** A frame that does not parse leaves a diagnostic and nothing else. *)
Lemma onMessage_not_json (rawData : string) (w : world) :
  JSON_parse rawData = None ->
  onMessage rawData w
  = (Return tt,
     with_console ("Get non-JSON data from websocket server: " +:+ rawData) w).
Proof. intros Hj. unfold onMessage. now rewrite Hj. Qed.

(** A frame that parses to anything but [null] and has no truthy
    [channel] or no truthy [payload] leaves a diagnostic and nothing
    else. *)
Lemma onMessage_bad_message (rawData : string) (data c p : value) (w : world) :
  JSON_parse rawData = Some data ->
  get_prop data "channel" = Return c ->
  get_prop data "payload" = Return p ->
  truthy c && truthy p = false ->
  onMessage rawData w
  = (Return tt,
     with_console ("Get bad message from websocket server: " +:+ rawData) w).
Proof.
  intros Hj Hc Hp Hcp. unfold onMessage. rewrite Hj. unfold bind, lift.
  rewrite Hc. destruct (truthy c); simpl in *; [|done].
  rewrite Hp. simpl. rewrite Hcp. reflexivity.
Qed.

(** A well-formed frame on a channel that neither the registry nor
    [Object.prototype] knows changes nothing. *)
Lemma onMessage_no_subscriber (rawData : string) (data c p : value)
  (t : WebsocketTransport) (w : world) :
  JSON_parse rawData = Some data ->
  get_prop data "channel" = Return c ->
  get_prop data "payload" = Return p ->
  truthy c && truthy p = true ->
  transport (agent w) = Some t ->
  read_listeners (listeners t) (property_key c) = Absent ->
  onMessage rawData w = (Return tt, w).
Proof.
  intros Hj Hc Hp Hcp Ht Hr. unfold onMessage. rewrite Hj. unfold bind, lift.
  apply andb_true_iff in Hcp as [Tc Tp].
  rewrite Hc, Tc. simpl. rewrite Hp, Tp. simpl.
  unfold this, bind, gets. simpl. rewrite Ht. simpl. now rewrite Hr.
Qed.

(** A well-formed frame on a channel named like a property of
    [Object.prototype], with no subscriber, ends in a [TypeError]. *)
Lemma onMessage_inherited_throws (rawData : string) (data c p : value)
  (t : WebsocketTransport) (w : world) :
  JSON_parse rawData = Some data ->
  get_prop data "channel" = Return c ->
  get_prop data "payload" = Return p ->
  truthy c && truthy p = true ->
  transport (agent w) = Some t ->
  read_listeners (listeners t) (property_key c) = Inherited ->
  onMessage rawData w
  = (Throw (TypeError "this.listeners[data.channel].forEach is not a function"), w).
Proof.
  intros Hj Hc Hp Hcp Ht Hr. unfold onMessage. rewrite Hj. unfold bind, lift.
  apply andb_true_iff in Hcp as [Tc Tp].
  rewrite Hc, Tc. simpl. rewrite Hp, Tp. simpl.
  unfold this, bind, gets. simpl. rewrite Ht. simpl. now rewrite Hr.
Qed.

End Methods.

(** ** Dispatch to subscribers *)

Section Dispatch.
Context {E : Env}.

Lemma agent_record_calls (fns : list subscriber) (arg : value) (w : world) :
  agent (record_calls fns arg w) = agent w.
Proof.
  revert w. induction fns as [|fn fns IH]; intros w; [reflexivity|].
  unfold record_calls in *. simpl. now rewrite IH.
Qed.

Lemma record_calls_app (fns gns : list subscriber) (arg : value) (w : world) :
  record_calls (fns ++ gns) arg w = record_calls gns arg (record_calls fns arg w).
Proof. unfold record_calls. apply fold_left_app. Qed.

(** [forEach] calls the functions in order up to the first that throws. *)
Lemma forEach_stops (before after : list subscriber) (fn : subscriber)
  (arg : value) (e : error) (w : world) :
  Forall (fun g => fn_body g arg = None) before ->
  fn_body fn arg = Some e ->
  forEach (before ++ fn :: after) arg w
  = (Throw e, record_calls (before ++ [fn]) arg w).
Proof.
  intros Hb Hf. revert w. induction Hb as [|g before Hg _ IH]; intros w; simpl.
  - unfold bind, invoke, bind, modify. simpl. now rewrite Hf.
  - unfold bind at 1. unfold invoke at 1. unfold bind, modify. simpl.
    rewrite Hg. simpl. apply IH.
Qed.

Lemma forEach_all (fns : list subscriber) (arg : value) (w : world) :
  Forall (fun g => fn_body g arg = None) fns ->
  forEach fns arg w = (Return tt, record_calls fns arg w).
Proof.
  intros Hb. revert w. induction Hb as [|g fns Hg _ IH]; intros w; simpl.
  - reflexivity.
  - unfold bind at 1. unfold invoke at 1. unfold bind, modify. simpl.
    rewrite Hg. simpl. apply IH.
Qed.

(** C4, as the code has it.  The callbacks of a channel are called in
    insertion order up to the first that throws; its exception leaves
    [onMessage], the callbacks registered after it are not called, and the
    agent with its transport and registry is as it was. *)
Theorem dispatch_stops_at_first_exception (rawData : string)
  (data c p : value) (before after : list subscriber) (fn : subscriber)
  (e : error) (t : WebsocketTransport) (w : world) :
  JSON_parse rawData = Some data ->
  get_prop data "channel" = Return c ->
  get_prop data "payload" = Return p ->
  truthy c && truthy p = true ->
  transport (agent w) = Some t ->
  listeners t !! property_key c = Some (before ++ fn :: after) ->
  Forall (fun g => fn_body g p = None) before ->
  fn_body fn p = Some e ->
  onMessage rawData w = (Throw e, record_calls (before ++ [fn]) p w)
  /\ calls (record_calls (before ++ [fn]) p w)
     = calls w ++ map (fun g => (fn_id g, p)) (before ++ [fn])
  /\ agent (record_calls (before ++ [fn]) p w) = agent w.
Proof.
  intros Hj Hc Hp Hcp Ht Hl Hb Hf. split; [|split].
  - unfold onMessage. rewrite Hj. unfold bind, lift.
    apply andb_true_iff in Hcp as [Tc Tp].
    rewrite Hc, Tc. simpl. rewrite Hp, Tp. simpl.
    unfold this, bind, gets. simpl. rewrite Ht. simpl.
    unfold read_listeners. rewrite Hl. now apply forEach_stops.
  - generalize (before ++ [fn]). intros l. revert w Ht.
    induction l as [|g l IH] using rev_ind; intros w Ht.
    + simpl. now rewrite app_nil_r.
    + rewrite record_calls_app, map_app, app_assoc. simpl.
      now rewrite <- IH.
  - apply agent_record_calls.
Qed.

(** Without an exception every callback of the channel is called. *)
Lemma dispatch_reaches_all (rawData : string) (data c p : value)
  (fns : list subscriber) (t : WebsocketTransport) (w : world) :
  JSON_parse rawData = Some data ->
  get_prop data "channel" = Return c ->
  get_prop data "payload" = Return p ->
  truthy c && truthy p = true ->
  transport (agent w) = Some t ->
  listeners t !! property_key c = Some fns ->
  Forall (fun g => fn_body g p = None) fns ->
  onMessage rawData w = (Return tt, record_calls fns p w).
Proof.
  intros Hj Hc Hp Hcp Ht Hl Hb.
  unfold onMessage. rewrite Hj. unfold bind, lift.
  apply andb_true_iff in Hcp as [Tc Tp].
  rewrite Hc, Tc. simpl. rewrite Hp, Tp. simpl.
  unfold this, bind, gets. simpl. rewrite Ht. simpl.
  unfold read_listeners. rewrite Hl. now apply forEach_all.
Qed.

End Dispatch.

(** ** The agent session *)

Section Session.
Context {E : Env}.

Lemma idle_step (w : world) (a : action) : idle w -> idle (step w a).
Proof.
  intros (Ht & Hs & Hm). unfold step, turn.
  assert (forall A (m : M A) (k : A -> M unit) e,
             m w = (Throw e, w) -> idle (turn (bind m k) w)) as Hthrow.
  { intros A m k e Hm'. unfold turn, bind. rewrite Hm'. now repeat split. }
  assert (this w = (Throw (TypeError "Cannot read property of undefined"), w))
    as Hthis.
  { unfold this, bind, gets. simpl. now rewrite Ht. }
  destruct a as [packet|event cb|event cb|  |s e|id]; simpl.
  - unfold send, isConnected. unfold bind at 1 2 3. rewrite Hthis.
    now repeat split.
  - unfold listen. unfold bind at 1 2. rewrite Hthis. now repeat split.
  - unfold unlisten. unfold bind at 1 2. rewrite Hthis. now repeat split.
  - unfold disconnect, this_ws, debug, modify. unfold bind at 1 2 3. simpl.
    unfold this, bind, gets. simpl. rewrite Ht. simpl. now repeat split.
  - unfold deliver, socket_state, bind, gets. rewrite Hs. simpl.
    destruct e; simpl; now repeat split.
  - unfold fire, bind, gets. rewrite Hm. simpl. now repeat split.
Qed.

Lemma idle_run (trace : list action) (w : world) : idle w -> idle (run w trace).
Proof.
  revert w. induction trace as [|a trace IH]; intros w Hw; [exact Hw|].
  simpl. apply IH. now apply idle_step.
Qed.

(** C8.  When the verification answers [{disabled: true}] or
    [{pending: true}], the promise of [start] is rejected with the error
    'Interactor disabled.', no transport, socket or timer has been made,
    and the [transport] field stays unassigned whatever happens next. *)
Theorem disabled_credentials_create_no_transport (public secret app : string)
  (props : list (string * value)) (trace : list action) :
  lookup_prop "disabled" props = Some (VBool true)
  \/ lookup_prop "pending" props = Some (VBool true) ->
  started (boot public secret app (HttpData (VObj props)))
  = Rejected (Error "Interactor disabled.")
  /\ idle (boot public secret app (HttpData (VObj props)))
  /\ transport (agent (run (boot public secret app (HttpData (VObj props))) trace))
     = None.
Proof.
  intros Hd.
  assert (boot public secret app (HttpData (VObj props))
          = with_started (Rejected (Error "Interactor disabled."))
              (new_Agent public secret app)) as Hboot.
  { unfold boot, turn, start, checkCredentials, bind, lift. simpl.
    destruct Hd as [-> | ->]; simpl; [reflexivity|].
    now rewrite orb_true_r. }
  assert (idle (boot public secret app (HttpData (VObj props)))) as Hidle.
  { rewrite Hboot. now repeat split. }
  split; [now rewrite Hboot|]. split; [exact Hidle|].
  now apply idle_run.
Qed.

End Session.

(** ** Properties that every step keeps *)

Section Frame.
Context {E : Env}.

(** A property [P] of the state that the elementary updates keep: the
    logs, the timers, the promise, the configuration, the process
    descriptor, an update of a socket
    that keeps its address, an update of the transport that keeps its
    address and registry, and a new socket made with the address of the
    transport.  Every method, handler and timer callback then keeps it. *)
Variable P : world -> Prop.

Hypothesis P_console : forall line w, P w -> P (with_console line w).
Hypothesis P_call : forall f arg w, P w -> P (with_call f arg w).
Hypothesis P_timers : forall f n w, P w -> P (with_timers f n w).
Hypothesis P_started : forall p w, P w -> P (with_started p w).
Hypothesis P_uncaught : forall e w, P w -> P (with_uncaught e w).
Hypothesis P_rejection : forall e w, P w -> P (with_rejection e w).
Hypothesis P_config :
  forall f w, P w -> P (with_agent (fun a => set_config (f a) a) w).
Hypothesis P_statusInterval :
  forall i w, P w -> P (with_agent (set_statusInterval i) w).
Hypothesis P_process :
  forall p w, P w -> P (with_agent (set_process p) w).
Hypothesis P_socket :
  forall f s w, keeps_address f -> P w -> P (with_sockets (alter f s) w).
Hypothesis P_this :
  forall f w, keeps_core f ->
              P w -> P (with_agent (fun a => set_transport (f <$> transport a) a) w).
Hypothesis P_new_socket :
  forall t w, transport (agent w) = Some t -> P w ->
              P (with_sockets (fun l => l ++ [fresh_socket (endpoint t) (headers t)]) w).

Lemma preserves_ret {A} (a : A) : preserves P (ret a).
Proof. now intros w Hw. Qed.

Lemma preserves_throw {A} (e : error) : preserves P (@throw A e).
Proof. now intros w Hw. Qed.

Lemma preserves_lift {A} (c : completion A) : preserves P (lift c).
Proof. now intros w Hw. Qed.

Lemma preserves_gets {A} (f : world -> A) : preserves P (gets f).
Proof. now intros w Hw. Qed.

Lemma preserves_modify (f : world -> world) :
  (forall w, P w -> P (f w)) -> preserves P (modify f).
Proof. intros Hf w Hw. now apply Hf. Qed.

Lemma preserves_bind {A B} (m : M A) (k : A -> M B) :
  preserves P m -> (forall a, preserves P (k a)) -> preserves P (bind m k).
Proof.
  intros Hm Hk w Hw. unfold bind. specialize (Hm w Hw).
  destruct (m w) as [[a|e] w']; simpl in *; [now apply Hk | exact Hm].
Qed.

Create HintDb frame.

(** Follows the shape of a computation: hints for the calls already
    treated, then the monad, then a case split. *)
Ltac frame :=
  repeat first
    [ solve [eauto with frame]
    | apply preserves_ret
    | apply preserves_throw
    | apply preserves_lift
    | apply preserves_gets
    | match goal with
      | |- preserves _ (match ?x with _ => _ end) => destruct x
      end
    | apply preserves_bind; [|intros ?] ].

Lemma preserves_debug (line : string) : preserves P (debug line).
Proof. apply preserves_modify. auto. Qed.

Lemma preserves_setTimer (again : bool) (f : timer_callback) (ms : Z) :
  preserves P (setTimer again f ms).
Proof. unfold setTimer. frame. apply preserves_modify. auto. Qed.

Lemma preserves_setInterval (f : timer_callback) (ms : Z) :
  preserves P (setInterval f ms).
Proof. apply preserves_setTimer. Qed.

Lemma preserves_setTimeout (f : timer_callback) (ms : Z) :
  preserves P (setTimeout f ms).
Proof. apply preserves_setTimer. Qed.

Lemma preserves_clearTimeout (id : nat) : preserves P (clearTimeout id).
Proof. apply preserves_modify. auto. Qed.

Lemma preserves_update_socket (s : nat) (f : socket -> socket) :
  keeps_address f -> preserves P (update_socket s f).
Proof. intros Hf. apply preserves_modify. auto. Qed.

Lemma keeps_address_events (g : socket -> list listener) :
  keeps_address (fun k => set_events (g k) k).
Proof. now intros k. Qed.

Lemma keeps_address_set_events (l : list listener) : keeps_address (set_events l).
Proof. now intros k. Qed.

Lemma keeps_address_readyState (n : Z) : keeps_address (set_readyState n).
Proof. now intros k. Qed.

Lemma keeps_address_push (f : frame) : keeps_address (push_frame f).
Proof. now intros k. Qed.

Lemma keeps_core_ws (s : option nat) : keeps_core (set_ws s).
Proof. now intros t. Qed.

Lemma keeps_core_pingInterval (i : option nat) : keeps_core (set_pingInterval i).
Proof. now intros t. Qed.

#[local] Hint Resolve preserves_debug preserves_setTimer preserves_setInterval
  preserves_setTimeout preserves_clearTimeout
  preserves_update_socket keeps_address_events keeps_address_set_events
  keeps_address_readyState keeps_address_push keeps_core_ws
  keeps_core_pingInterval : frame.

Lemma preserves_update_this (f : WebsocketTransport -> WebsocketTransport) :
  keeps_core f -> preserves P (update_this f).
Proof. intros Hf. apply preserves_modify. auto. Qed.

Lemma preserves_socket_state (s : nat) : preserves P (socket_state s).
Proof. apply preserves_gets. Qed.

Lemma preserves_ws_on (s : nat) (ev : event_name) (f : handler) :
  preserves P (ws_on s ev f).
Proof. unfold ws_on. frame. Qed.

Lemma preserves_ws_once (s : nat) (ev : event_name) (f : handler) :
  preserves P (ws_once s ev f).
Proof. unfold ws_once. frame. Qed.

Lemma preserves_ws_removeListener (s : nat) (ev : event_name) (f : handler) :
  preserves P (ws_removeListener s ev f).
Proof. unfold ws_removeListener. frame. Qed.

Lemma preserves_ws_removeAllListeners (s : nat) :
  preserves P (ws_removeAllListeners s).
Proof. unfold ws_removeAllListeners. frame. Qed.

#[local] Hint Resolve preserves_update_this preserves_socket_state
  preserves_ws_on preserves_ws_once preserves_ws_removeListener
  preserves_ws_removeAllListeners : frame.

Lemma preserves_ws_send (s : nat) (data : string) : preserves P (ws_send s data).
Proof. unfold ws_send. frame. Qed.

Lemma preserves_ws_ping (s : nat) : preserves P (ws_ping s).
Proof. unfold ws_ping. frame. Qed.

Lemma preserves_ws_pong (s : nat) : preserves P (ws_pong s).
Proof. unfold ws_pong. frame. Qed.

Lemma preserves_this : preserves P this.
Proof. unfold this. frame. Qed.

#[local] Hint Resolve preserves_ws_send preserves_ws_ping preserves_ws_pong
  preserves_this : frame.

Lemma preserves_this_ws : preserves P this_ws.
Proof. unfold this_ws. frame. Qed.

Lemma preserves_settle (p : promise) : preserves P (settle p).
Proof. apply preserves_modify. intros w Hw. destruct (started w); auto. Qed.

#[local] Hint Resolve preserves_this_ws preserves_settle : frame.

(** [connect] makes its socket with the address and the headers of the
    transport. *)
Lemma preserves_connect (cb : connect_cb) : preserves P (connect cb).
Proof.
  unfold connect. apply preserves_bind; [frame|intros _].
  intros w Hw. unfold bind at 1. unfold this at 1. unfold bind, gets. simpl.
  destruct (transport (agent w)) as [t|] eqn:Ht; simpl; [|exact Hw].
  assert (preserves P
            (do _ <- update_this (set_ws (Some (length (sockets w))));
             do _ <- ws_once (length (sockets w)) Eerror
                       (OnError (length (sockets w)) cb);
             do _ <- ws_once (length (sockets w)) Eopen
                       (OnOpen (length (sockets w)) cb);
             do _ <- ws_on (length (sockets w)) Eping ReplyPong;
             ws_on (length (sockets w)) Emessage OnMessage)%js) as Hrest by frame.
  apply Hrest. now apply P_new_socket with (t := t).
Qed.

#[local] Hint Resolve preserves_connect : frame.

Lemma preserves_call_connect_cb (cb : connect_cb) (err : option error) :
  preserves P (call_connect_cb cb err).
Proof.
  unfold call_connect_cb. frame; apply preserves_modify; auto.
Qed.

#[local] Hint Resolve preserves_call_connect_cb : frame.

Lemma preserves_onError (cb : connect_cb) (err : error) :
  preserves P (onError cb err).
Proof. unfold onError. frame. Qed.

#[local] Hint Resolve preserves_onError : frame.

Lemma preserves_on_abort (f : handler) (err : error) :
  preserves P (on_abort f err).
Proof. unfold on_abort. frame. Qed.

#[local] Hint Resolve preserves_on_abort : frame.

Lemma preserves_abort_listeners (s : nat) (ls : list listener) (err : error) :
  preserves P (abort_listeners s ls err).
Proof. induction ls; simpl; frame. Qed.

#[local] Hint Resolve preserves_abort_listeners : frame.

Lemma preserves_abortHandshake (s : nat) : preserves P (abortHandshake s).
Proof. unfold abortHandshake. frame. Qed.

#[local] Hint Resolve preserves_abortHandshake : frame.

Lemma preserves_ws_terminate (s : nat) : preserves P (ws_terminate s).
Proof. unfold ws_terminate. frame. Qed.

Lemma preserves_ws_close (s : nat) : preserves P (ws_close s).
Proof. unfold ws_close. frame. Qed.

#[local] Hint Resolve preserves_ws_terminate preserves_ws_close : frame.

Lemma preserves_onOpen (origin : nat) (cb : connect_cb) :
  preserves P (onOpen origin cb).
Proof. unfold onOpen. frame. Qed.

Lemma preserves_onClose : preserves P onClose.
Proof. unfold onClose. frame. Qed.

Lemma preserves_invoke (fn : subscriber) (arg : value) : preserves P (invoke fn arg).
Proof. unfold invoke. frame. apply preserves_modify. auto. Qed.

#[local] Hint Resolve preserves_invoke : frame.

Lemma preserves_forEach (fns : list subscriber) (arg : value) :
  preserves P (forEach fns arg).
Proof. induction fns; simpl; frame. Qed.

#[local] Hint Resolve preserves_onError preserves_onOpen preserves_onClose
  preserves_forEach : frame.

Lemma preserves_onMessage (rawData : string) : preserves P (onMessage rawData).
Proof. unfold onMessage. frame. Qed.

Lemma preserves_noResponse (timeout : nat) : preserves P (noResponse timeout).
Proof. unfold noResponse. frame. Qed.

#[local] Hint Resolve preserves_onMessage preserves_noResponse : frame.

Lemma preserves_ping : preserves P ping.
Proof. unfold ping. frame. Qed.

Lemma preserves_onPong (timeout : nat) : preserves P (onPong timeout).
Proof. unfold onPong. frame. Qed.

Lemma preserves_isConnected : preserves P isConnected.
Proof. unfold isConnected. frame. Qed.

#[local] Hint Resolve preserves_ping preserves_onPong preserves_isConnected : frame.

Lemma preserves_send (packet : value) : preserves P (send packet).
Proof. unfold send. frame. Qed.

Lemma preserves_disconnect : preserves P disconnect.
Proof. unfold disconnect. frame. Qed.

#[local] Hint Resolve preserves_send preserves_disconnect : frame.

Lemma preserves_sendStatus : preserves P sendStatus.
Proof.
  intros w Hw. unfold sendStatus.
  match goal with
  | |- P (snd (match ?m w with _ => _ end)) =>
      assert (preserves P m) as H
        by (frame; apply preserves_modify; auto);
      specialize (H w Hw); destruct (m w) as [[b|e] w']
  end; simpl in *; auto.
Qed.

Lemma preserves_handle (f : handler) (e : ws_event) : preserves P (handle f e).
Proof. unfold handle. frame. Qed.

#[local] Hint Resolve preserves_sendStatus preserves_handle : frame.

Lemma preserves_call_listeners (s : nat) (ls : list listener) (e : ws_event) :
  preserves P (call_listeners s ls e).
Proof. induction ls; simpl; frame. Qed.

#[local] Hint Resolve preserves_call_listeners : frame.

Lemma preserves_emit (s : nat) (e : ws_event) : preserves P (emit s e).
Proof. unfold emit. frame. Qed.

#[local] Hint Resolve preserves_emit : frame.

Lemma preserves_deliver (s : nat) (e : ws_event) : preserves P (deliver s e).
Proof. unfold deliver. frame. Qed.

Lemma preserves_fire (id : nat) : preserves P (fire id).
Proof. unfold fire. frame. Qed.

Lemma preserves_turn (m : M unit) (w : world) :
  preserves P m -> P w -> P (turn m w).
Proof.
  intros Hm Hw. unfold turn. specialize (Hm w Hw).
  destruct (m w) as [[u|e] w']; simpl in *; auto.
Qed.

(** What the [ws] library and the timers set off keeps [P]. *)
Lemma autonomous_step_keeps (w : world) (a : action) :
  autonomous a = true -> P w -> P (step w a).
Proof.
  intros Ha Hw. unfold step. apply preserves_turn; [|exact Hw].
  destruct a; try discriminate; simpl.
  - apply preserves_deliver.
  - apply preserves_fire.
Qed.

(** [listen] and [unlisten] write the registry: they keep [P] when a new
    registry does. *)
Hypothesis P_registry :
  forall r w, P w ->
              P (with_agent (fun a => set_transport (set_listeners r <$> transport a) a) w).

Lemma preserves_set_listeners (r : gmap string (list subscriber)) :
  preserves P (update_this (set_listeners r)).
Proof. apply preserves_modify. auto. Qed.

#[local] Hint Resolve preserves_set_listeners : frame.

Lemma preserves_listen (event : string) (cb : subscriber) :
  preserves P (listen event cb).
Proof. unfold listen. frame. Qed.

Lemma preserves_unlisten (event : string) (cb : option subscriber) :
  preserves P (unlisten event cb).
Proof. unfold unlisten. frame. Qed.

(** Every step keeps [P]. *)
Lemma step_keeps (w : world) (a : action) : P w -> P (step w a).
Proof.
  intros Hw. unfold step. apply preserves_turn; [|exact Hw].
  destruct a; simpl.
  - apply preserves_bind; [apply preserves_send | intros; apply preserves_ret].
  - apply preserves_bind; [apply preserves_listen | intros; apply preserves_ret].
  - apply preserves_bind; [apply preserves_unlisten | intros; apply preserves_ret].
  - apply preserves_disconnect.
  - apply preserves_deliver.
  - apply preserves_fire.
Qed.

Lemma run_keeps (trace : list action) (w : world) : P w -> P (run w trace).
Proof.
  revert w. induction trace as [|a trace IH]; intros w Hw; [exact Hw|].
  simpl. apply IH. now apply step_keeps.
Qed.

End Frame.

(** ** The address and the registry across reconnections *)

Section Reconnection.
Context {E : Env}.

(** Calls, events and timers keep the address and the headers of the
    transport, and every socket they make is made with them. *)
Lemma addressed_run (address : value) (hdrs : list (string * value))
  (trace : list action) (w : world) :
  addressed address hdrs w -> addressed address hdrs (run w trace).
Proof.
  apply run_keeps; try (intros; assumption).
  - intros f s w' Hf [Ht Hs]. split; [exact Ht|]. simpl.
    apply Forall_alter; [exact Hs|]. intros k _ [<- <-]. split; apply Hf.
  - intros f w' Hf [(t & Ht & <- & <-) Hs]. split; [|exact Hs].
    exists (f t). simpl. rewrite Ht. split; [reflexivity|]. split; apply Hf.
  - intros t w' Ht [(t' & Ht' & <- & <-) Hs]. split; [now exists t'|].
    simpl. apply Forall_app. split; [exact Hs|].
    assert (t' = t) as -> by congruence. now repeat constructor.
  - intros r w' [(t & Ht & <- & <-) Hs]. split; [|exact Hs].
    exists (set_listeners r t). simpl. now rewrite Ht.
Qed.

(** No event of a socket and no timer changes the registry. *)
Lemma registry_autonomous (w : world) (a : action) :
  autonomous a = true -> registry (step w a) = registry w.
Proof.
  intros Ha.
  apply (autonomous_step_keeps (fun w' => registry w' = registry w));
    try (intros; assumption); try reflexivity.
  intros f w' Hf <-. unfold registry. simpl.
  destruct (transport (agent w')) as [t|]; simpl; [|reflexivity].
  f_equal. apply Hf.
Qed.

(** When [start] has made a transport, it has made one socket, with the
    address and the headers given to the constructor. *)
Lemma boot_addressed (public secret app : string) (answer : http_answer)
  (t0 : WebsocketTransport) :
  transport (agent (boot public secret app answer)) = Some t0 ->
  addressed (endpoint t0) (headers t0) (boot public secret app answer).
Proof.
  unfold boot, turn, start, checkCredentials, bind, lift, settle, modify.
  destruct answer as [err|data]; [discriminate|].
  destruct (get_prop data "disabled") as [d|e]; [|discriminate].
  destruct (get_prop data "pending") as [p|e]; [|discriminate].
  destruct (is_true d || is_true p); [discriminate|].
  destruct (get_prop data "active") as [a|e]; [|discriminate].
  destruct (is_false a); [discriminate|].
  destruct (get_prop data "endpoints") as [endpoints|e]; [|discriminate].
  destruct (truthy endpoints); simpl; [|discriminate].
  destruct (get_prop endpoints "ws") as [address|e]; simpl; [|discriminate].
  intros [= <-]. split; [eexists; split; [reflexivity|]; now split|].
  now repeat constructor.
Qed.

End Reconnection.

(** ** Disconnection, close and liveness failure *)

Section Lifecycle.
Context {E : Env}.

(** [connect] is one reconnect attempt: it makes one socket, with the
    address and the headers of the transport, and makes it [this.ws]. *)
Lemma connect_makes_one_socket (cb : connect_cb) (t : WebsocketTransport)
  (w : world) :
  transport (agent w) = Some t ->
  exists w',
    connect cb w = (Return tt, w')
    /\ sockets w'
       = sockets w ++ [set_events (connect_listeners (length (sockets w)) cb)
                         (fresh_socket (endpoint t) (headers t))]
    /\ transport (agent w') = Some (set_ws (Some (length (sockets w))) t)
    /\ timers w' = timers w.
Proof.
  intros Ht. eexists. split.
  - unfold connect, this, new_WebSocket, update_this, ws_once, ws_on,
      update_socket, debug, bind, gets, modify, ret.
    simpl. rewrite Ht. simpl. reflexivity.
  - simpl. rewrite Ht. simpl. split; [|done].
    set (n := length (sockets w)).
    assert (forall f l (x : socket), length l = n -> alter f n (l ++ [x]) = l ++ [f x]) as Halter.
    { intros f l x Hl. rewrite alter_app_r_alt by lia. now rewrite Hl, Nat.sub_diag. }
    rewrite !Halter by done. reflexivity.
Qed.

Ltac js_unfold :=
  unfold step, turn, perform, deliver, emit, disconnect, onClose, noResponse, connect,
    this_ws, this, new_WebSocket, ws_once, ws_on, ws_removeAllListeners,
    ws_terminate, ws_close, socket_state, update_this, update_socket,
    clearTimeout, debug, bind, gets, modify, ret.

Lemma listeners_of_alter (ev : event_name) (s s' : nat) (f : socket -> socket)
  (w : world) :
  (forall k, events (f k) = events k) ->
  listeners_of ev s (with_sockets (alter f s') w) = listeners_of ev s w.
Proof.
  intros Hf. unfold listeners_of. simpl. rewrite list_lookup_alter.
  case_decide; [subst|reflexivity].
  destruct (sockets w !! s); simpl; [|reflexivity]. now rewrite Hf.
Qed.

(** [onClose] is one reconnect attempt: on a [this.ws] that is past its
    handshake, it takes the listeners off [this.ws] and calls [connect]. *)
Lemma onClose_reconnects (t : WebsocketTransport) (s : nat) (k : socket)
  (w : world) :
  transport (agent w) = Some t ->
  ws t = Some s ->
  sockets w !! s = Some k ->
  (readyState k =? CONNECTING) = false ->
  exists w',
    onClose w = (Return tt, w')
    /\ transport (agent w') = Some (set_ws (Some (length (sockets w))) t)
    /\ length (sockets w') = S (length (sockets w))
    /\ sockets w' !! length (sockets w)
       = Some (set_events (connect_listeners (length (sockets w)) ReconnectCb)
                 (fresh_socket (endpoint t) (headers t)))
    /\ events <$> sockets w' !! s = Some []
    /\ timers w' = timers w.
Proof.
  intros Ht Hs Hk Hnc.
  assert (forall w1, transport (agent w1) = Some t ->
            length (sockets w1) = length (sockets w) ->
            events <$> sockets w1 !! s = Some [] ->
            timers w1 = timers w ->
            exists w', connect ReconnectCb w1 = (Return tt, w')
    /\ transport (agent w') = Some (set_ws (Some (length (sockets w))) t)
    /\ length (sockets w') = S (length (sockets w))
    /\ sockets w' !! length (sockets w)
       = Some (set_events (connect_listeners (length (sockets w)) ReconnectCb)
                 (fresh_socket (endpoint t) (headers t)))
    /\ events <$> sockets w' !! s = Some []
    /\ timers w' = timers w) as Hconnect.
  { intros w1 Ht1 Hl1 He1 Hm1.
    destruct (connect_makes_one_socket ReconnectCb t w1 Ht1)
      as (w' & Hc & Hsock & Htr & Htm).
    exists w'. rewrite Hc, Htr, Hsock, length_app, Hl1, Htm, Hm1. simpl.
    repeat split; try done.
    - lia.
    - rewrite lookup_app_r by lia. now rewrite Hl1, Nat.sub_diag.
    - rewrite lookup_app_l; [exact He1|].
      rewrite Hl1. now apply lookup_lt_Some with k. }
  unfold onClose. set (reconnect := connect ReconnectCb).
  unfold this_ws, this, ws_removeAllListeners, ws_terminate, socket_state,
    update_socket, debug, bind, gets, modify, ret.
  simpl. rewrite Ht. simpl. rewrite Hs. simpl. rewrite Hk. simpl.
  rewrite Hnc.
  destruct (_ =? CLOSED); simpl; apply Hconnect; simpl;
    rewrite ?length_alter, ?list_lookup_alter_eq, ?Hk; done.
Qed.

(** The ['close'] event of a socket that carries the listener of line 41
    closes the socket and runs [onClose]. *)
Lemma close_event_runs_onClose (s : nat) (k : socket) (w : world) :
  sockets w !! s = Some k ->
  (readyState k =? CLOSED) = false ->
  listeners_of Eclose s w
  = [{| on_event := Eclose; once := false; callback := OnClose |}] ->
  deliver s Close w
  = (do _ <- onClose; ret tt)%js (with_sockets (alter (set_readyState CLOSED) s) w).
Proof.
  intros Hk Hne Hl. unfold deliver, socket_state, emit, update_socket.
  unfold bind at 1. unfold gets at 1. rewrite Hk. simpl. rewrite Hne.
  unfold bind at 1. unfold modify at 1. unfold bind at 1. unfold gets at 1.
  rewrite listeners_of_alter by done. rewrite Hl. reflexivity.
Qed.

(** A successful handshake: when the socket that [connect] made reports
    ['open'], it is open, it is still [this.ws], and its only ['close']
    listener is [onClose]. *)
Lemma open_installs_close_listener (cb : connect_cb) (t : WebsocketTransport)
  (s : nat) (k : socket) (w : world) :
  transport (agent w) = Some t ->
  ws t = Some s ->
  sockets w !! s = Some k ->
  readyState k = CONNECTING ->
  events k = connect_listeners s cb ->
  (readyState <$> sockets (step w (Deliver s Open)) !! s) = Some OPEN
  /\ listeners_of Eclose s (step w (Deliver s Open))
     = [{| on_event := Eclose; once := false; callback := OnClose |}]
  /\ (ws <$> transport (agent (step w (Deliver s Open)))) = Some (Some s).
Proof.
  intros Ht Hs Hk Hc He.
  remember (step w (Deliver s Open)) as w' eqn:Hw'.
  unfold step, turn, perform, deliver, emit, socket_state, update_socket,
    bind, gets, modify, ret in Hw'.
  rewrite Hk in Hw'. simpl in Hw'. rewrite Hc in Hw'. simpl in Hw'.
  unfold listeners_of in Hw'. simpl in Hw'.
  rewrite list_lookup_alter_eq, Hk in Hw'. simpl in Hw'.
  rewrite He in Hw'. simpl in Hw'.
  unfold onOpen, call_connect_cb, this_ws, this, ws_removeListener, ws_on,
    setInterval, setTimer, settle, update_this, update_socket, debug,
    bind, lift, gets, modify, ret in Hw'.
  simpl in Hw'. rewrite Ht in Hw'. simpl in Hw'. rewrite Hs in Hw'.
  simpl in Hw'.
  destruct cb as [endpoints|]; [destruct (get_prop endpoints "ws")|];
    simpl in Hw'; try destruct (started w); subst w';
    unfold listeners_of; simpl; rewrite ?Ht; simpl;
    rewrite !list_lookup_alter_eq, Hk; simpl; rewrite He; simpl;
    unfold registered, same_function; simpl; rewrite ?Nat.eqb_refl; simpl;
    rewrite ?Nat.eqb_refl; simpl; rewrite Hs; done.
Qed.
(** C1, as the code has it.  On a transport whose socket is open and
    carries the ['close'] listener of line 41, [disconnect()] calls [close]
    on the socket, which goes to [CLOSING], and does nothing else: the
    listener stays.  When the socket then reports ['close'], [onClose] makes
    a reconnect attempt: one new socket, made with the address and the
    headers of the transport, becomes [this.ws]. *)
Theorem disconnect_then_close_reconnects (t : WebsocketTransport) (s : nat)
  (k : socket) (w : world) :
  transport (agent w) = Some t ->
  ws t = Some s ->
  sockets w !! s = Some k ->
  readyState k = OPEN ->
  listeners_of Eclose s w
  = [{| on_event := Eclose; once := false; callback := OnClose |}] ->
  step w CallDisconnect
  = with_sockets (alter (set_readyState CLOSING) s)
      (with_console "Disconnect from websocket server" w)
  /\ transport (agent (step (step w CallDisconnect) (Deliver s Close)))
     = Some (set_ws (Some (length (sockets w))) t)
  /\ length (sockets (step (step w CallDisconnect) (Deliver s Close)))
     = S (length (sockets w))
  /\ sockets (step (step w CallDisconnect) (Deliver s Close)) !! length (sockets w)
     = Some (set_events (connect_listeners (length (sockets w)) ReconnectCb)
               (fresh_socket (endpoint t) (headers t))).
Proof.
  intros Ht Hs Hk Ho Hl.
  assert (step w CallDisconnect
   = with_sockets (alter (set_readyState CLOSING) s)
       (with_console "Disconnect from websocket server" w)) as Hd.
  { js_unfold. simpl. rewrite Ht. simpl. rewrite Hs. simpl. rewrite Hk. simpl.
    now rewrite Ho. }
  split; [exact Hd|]. rewrite Hd.
  set (w1 := with_sockets _ _).
  assert (sockets w1 !! s = Some (set_readyState CLOSING k)) as Hk1.
  { unfold w1. simpl. now rewrite list_lookup_alter_eq, Hk. }
  assert (listeners_of Eclose s w1
          = [{| on_event := Eclose; once := false; callback := OnClose |}]) as Hl1.
  { unfold w1. now rewrite listeners_of_alter. }
  unfold step. unfold perform, turn.
  rewrite (close_event_runs_onClose s _ w1 Hk1 eq_refl Hl1).
  set (w2 := with_sockets _ w1).
  destruct (onClose_reconnects t s (set_readyState CLOSED (set_readyState CLOSING k)) w2)
    as (w' & Hc & Htr & Hlen & Hnew & _ & Htm).
  { exact Ht. }
  { exact Hs. }
  { unfold w2, w1. simpl. now rewrite !list_lookup_alter_eq, Hk. }
  { reflexivity. }
  assert (length (sockets w2) = length (sockets w)) as Hlen2.
  { unfold w2, w1. simpl. now rewrite !length_alter. }
  unfold bind. rewrite Hc. simpl.
  rewrite Hlen2 in *. repeat split; done.
Qed.

(** The abort of a handshake, with the calls of [onError] it sets off,
    keeps the timers and the agent. *)
Lemma abort_keeps_timers_and_agent (w0 : world) (s : nat) :
  preserves (fun w' => timers w' = timers w0 /\ agent w' = agent w0)
            (abortHandshake s).
Proof.
  set (P := fun w' : world => timers w' = timers w0 /\ agent w' = agent w0).
  assert (forall f : world -> world,
             (forall w, timers (f w) = timers w /\ agent (f w) = agent w) ->
             preserves P (modify f)) as Hmodify.
  { intros f Hf. apply preserves_modify. intros w [Hm Ha]. unfold P.
    destruct (Hf w) as [-> ->]. now split. }
  assert (forall cb err, preserves P (onError cb err)) as HonError.
  { intros cb err. unfold onError, this_ws, this, ws_removeAllListeners,
      update_socket, call_connect_cb, settle, debug.
    repeat first
      [ apply preserves_ret | apply preserves_throw | apply preserves_gets
      | apply Hmodify; intros w; simpl; now destruct (started w)
      | match goal with
        | |- preserves _ (match ?x with _ => _ end) => destruct x
        end
      | apply preserves_bind; [|intros ?] ]. }
  assert (forall ls err, preserves P (abort_listeners s ls err)) as Hlisteners.
  { intros ls err. induction ls as [|l ls IH]; simpl; [apply preserves_ret|].
    apply preserves_bind; [|intros _; apply preserves_bind; [|intros _; exact IH]].
    - destruct (once l); [apply Hmodify; now intros w|apply preserves_ret].
    - unfold on_abort. destruct (callback l);
        first [apply HonError | apply preserves_ret | apply Hmodify; now intros w]. }
  unfold abortHandshake, update_socket.
  apply preserves_bind; [apply Hmodify; now intros w|intros _].
  apply preserves_bind; [apply preserves_gets|intros ls].
  destruct ls; [apply preserves_throw|apply Hlisteners].
Qed.

(** C2, as the code has it.  [disconnect()] cancels no timer and leaves
    the agent and its transport as they were: the timers pending before
    the call are pending after it. *)
Theorem disconnect_cancels_no_timer (w : world) :
  timers (step w CallDisconnect) = timers w
  /\ agent (step w CallDisconnect) = agent w.
Proof.
  assert (preserves (fun w' => timers w' = timers w /\ agent w' = agent w)
                    disconnect) as Hkeeps.
  { unfold disconnect, this_ws, this, ws_close, socket_state, debug,
      update_socket.
    repeat first
      [ apply abort_keeps_timers_and_agent
      | apply preserves_ret | apply preserves_throw | apply preserves_gets
      | apply preserves_modify; intros w1 [Hm Ha]; split; assumption
      | match goal with
        | |- preserves _ (match ?x with _ => _ end) => destruct x
        end
      | apply preserves_bind; [|intros ?] ]. }
  specialize (Hkeeps w (conj eq_refl eq_refl)).
  unfold step, turn, perform.
  destruct (disconnect w) as [[u|e] w']; exact Hkeeps.
Qed.

(** The closure [noResponse] terminates [this.ws], leaves the listeners of
    that socket in place, and calls [connect] once. *)
Lemma noResponse_reconnects (timeout : nat) (t : WebsocketTransport) (s : nat)
  (k : socket) (w : world) :
  transport (agent w) = Some t ->
  ws t = Some s ->
  sockets w !! s = Some k ->
  readyState k = OPEN ->
  exists w',
    noResponse timeout w = (Return tt, w')
    /\ transport (agent w') = Some (set_ws (Some (length (sockets w))) t)
    /\ sockets w'
       = alter (set_readyState CLOSING) s (sockets w)
         ++ [set_events (connect_listeners (length (sockets w)) ReconnectCb)
               (fresh_socket (endpoint t) (headers t))]
    /\ timers w' = filter (fun tm => timer_id tm <> timeout) (timers w).
Proof.
  intros Ht Hs Hk Ho.
  unfold noResponse. set (reconnect := connect ReconnectCb).
  unfold this_ws, this, ws_terminate, socket_state, update_socket, clearTimeout,
    debug, bind, gets, modify, ret.
  simpl. rewrite Ht. simpl. rewrite Hs. simpl. rewrite Hk. simpl. rewrite Ho.
  simpl. subst reconnect.
  match goal with |- context [connect _ ?w1] =>
    destruct (connect_makes_one_socket ReconnectCb t w1 Ht)
      as (w' & Hc & Hsock & Htr & Htm)
  end.
  exists w'. simpl in *. rewrite length_alter in *.
  repeat split; done.
Qed.

End Lifecycle.

(** ** Reconnection with the stored address *)

Section Reconnects.
Context {E : Env}.

(** The ['close'] of [this.ws], when it carries the listener of line 41,
    is followed by one reconnect attempt with the address and the headers
    of the transport. *)
Lemma close_reconnects (t : WebsocketTransport) (s : nat) (k : socket)
  (w : world) :
  transport (agent w) = Some t ->
  ws t = Some s ->
  sockets w !! s = Some k ->
  (readyState k =? CLOSED) = false ->
  listeners_of Eclose s w
  = [{| on_event := Eclose; once := false; callback := OnClose |}] ->
  reconnected (endpoint t) (headers t) w (step w (Deliver s Close)).
Proof.
  intros Ht Hs Hk Hne Hl.
  unfold step, perform, turn.
  rewrite (close_event_runs_onClose s k w Hk Hne Hl).
  set (w1 := with_sockets _ w).
  destruct (onClose_reconnects t s (set_readyState CLOSED k) w1)
    as (w' & Hc & Htr & Hlen & Hnew & _ & _).
  { exact Ht. }
  { exact Hs. }
  { unfold w1. simpl. now rewrite list_lookup_alter_eq, Hk. }
  { reflexivity. }
  assert (length (sockets w1) = length (sockets w)) as Hlen1.
  { unfold w1. simpl. now rewrite length_alter. }
  unfold bind. rewrite Hc. simpl. rewrite Hlen1 in *.
  split; [exact Hlen|]. split; [exact Hnew|]. now rewrite Htr.
Qed.

(** The deadline of a probe, when it comes while [this.ws] is open, is
    followed by one reconnect attempt with the address and the headers of
    the transport. *)
Lemma deadline_reconnects (t : WebsocketTransport) (s : nat) (k : socket)
  (id : nat) (tm : timer) (w : world) :
  transport (agent w) = Some t ->
  ws t = Some s ->
  sockets w !! s = Some k ->
  readyState k = OPEN ->
  List.find (fun x => Nat.eqb (timer_id x) id) (timers w) = Some tm ->
  timer_fn tm = NoResponse ->
  reconnected (endpoint t) (headers t) w (step w (Fire id)).
Proof.
  intros Ht Hs Hk Ho Hfind Hfn.
  unfold step, perform, turn, fire. unfold bind at 1. unfold gets at 1.
  rewrite Hfind, Hfn.
  assert (forall w1,
             transport (agent w1) = Some t -> sockets w1 = sockets w ->
             reconnected (endpoint t) (headers t) w
               (match noResponse id w1 with
                | (Return _, w') => w'
                | (Throw e, w') => with_uncaught e w'
                end)) as Hrun.
  { intros w1 Ht1 Hs1.
    destruct (noResponse_reconnects id t s k w1) as (w' & Hc & Htr & Hsock & _);
      try done.
    { now rewrite Hs1. }
    rewrite Hc, Hs1 in *. unfold reconnected. rewrite Hsock, Htr.
    rewrite length_app, length_alter. simpl. split; [lia|]. split; [|done].
    rewrite lookup_app_r by (rewrite length_alter; lia).
    now rewrite length_alter, Nat.sub_diag. }
  unfold bind. destruct (repeat tm); simpl; apply Hrun; done.
Qed.

(** C9.  Whatever calls, socket events and timers follow [start], the
    transport holds the address and the headers it was constructed with
    and every socket made so far was made with exactly them; no socket
    event or timer, hence no reconnection, changes the Subscriber
    Registry; and the two autonomous reconnects do reopen the connection
    with them: when [this.ws] reports ['close'] to the listener of line 41,
    and when the deadline of a probe comes while [this.ws] is open, one
    new socket is made with the address and the headers given to the
    constructor, with the listeners of [connect], and becomes
    [this.ws]. *)
Theorem reconnect_reuses_address (public secret app : string)
  (answer : http_answer) (t0 : WebsocketTransport) (trace : list action)
  (a : action) :
  transport (agent (boot public secret app answer)) = Some t0 ->
  addressed (endpoint t0) (headers t0) (run (boot public secret app answer) trace)
  /\ (autonomous a = true ->
      registry (step (run (boot public secret app answer) trace) a)
      = registry (run (boot public secret app answer) trace))
  /\ (forall (s : nat) (k : socket),
        (ws <$> transport (agent (run (boot public secret app answer) trace)))
        = Some (Some s) ->
        sockets (run (boot public secret app answer) trace) !! s = Some k ->
        (readyState k =? CLOSED) = false ->
        listeners_of Eclose s (run (boot public secret app answer) trace)
        = [{| on_event := Eclose; once := false; callback := OnClose |}] ->
        reconnected (endpoint t0) (headers t0)
          (run (boot public secret app answer) trace)
          (step (run (boot public secret app answer) trace) (Deliver s Close)))
  /\ (forall (s : nat) (k : socket) (id : nat) (tm : timer),
        (ws <$> transport (agent (run (boot public secret app answer) trace)))
        = Some (Some s) ->
        sockets (run (boot public secret app answer) trace) !! s = Some k ->
        readyState k = OPEN ->
        List.find (fun x => Nat.eqb (timer_id x) id)
                  (timers (run (boot public secret app answer) trace))
        = Some tm ->
        timer_fn tm = NoResponse ->
        reconnected (endpoint t0) (headers t0)
          (run (boot public secret app answer) trace)
          (step (run (boot public secret app answer) trace) (Fire id))).
Proof.
  intros Ht.
  assert (addressed (endpoint t0) (headers t0)
            (run (boot public secret app answer) trace)) as Haddr.
  { apply addressed_run. now apply boot_addressed. }
  split; [exact Haddr|]. split; [apply registry_autonomous|].
  destruct Haddr as [(t & Htr & <- & <-) _].
  split.
  - intros s k Hws Hk Hne Hl. apply (close_reconnects t s k); try done.
    rewrite Htr in Hws. now injection Hws.
  - intros s k id tm Hws Hk Ho Hfind Hfn.
    apply (deadline_reconnects t s k id tm); try done.
    rewrite Htr in Hws. now injection Hws.
Qed.

End Reconnects.

(** ** Subscribing and unsubscribing *)

Section Subscriptions.
Context {E : Env}.

Lemma with_registry_twice (r1 r2 : gmap string (list subscriber)) (w : world) :
  with_registry r2 (with_registry r1 w) = with_registry r2 w.
Proof.
  unfold with_registry, with_agent. simpl. f_equal.
  destruct (transport (agent w)); reflexivity.
Qed.

Lemma registry_with_registry (r : gmap string (list subscriber))
  (t : WebsocketTransport) (w : world) :
  transport (agent w) = Some t ->
  transport (agent (with_registry r w)) = Some (set_listeners r t).
Proof. intros Ht. unfold with_registry. simpl. now rewrite Ht. Qed.

Lemma read_inherited (r : gmap string (list subscriber)) (event : string) :
  event ∈ Object_prototype -> r !! event = None ->
  read_listeners r event = Inherited.
Proof.
  intros Hp Hl. unfold read_listeners. rewrite Hl.
  now rewrite bool_decide_eq_true_2.
Qed.

Lemma read_absent (r : gmap string (list subscriber)) (event : string) :
  event ∉ Object_prototype -> r !! event = None ->
  read_listeners r event = Absent.
Proof.
  intros Hp Hl. unfold read_listeners. rewrite Hl.
  now rewrite bool_decide_eq_false_2.
Qed.

Lemma read_own_or_absent (r : gmap string (list subscriber)) (event : string) :
  read_listeners r event <> Inherited ->
  read_listeners r event = Handlers (default [] (r !! event))
  \/ (read_listeners r event = Absent /\ r !! event = None).
Proof.
  unfold read_listeners. destruct (r !! event); simpl; [now left|].
  destruct (bool_decide _); [congruence|now right].
Qed.

(** What [listen] answers and leaves on a channel that has an entry, or
    whose name [Object.prototype] does not define. *)
Lemma listen_result (event : string) (cb : subscriber)
  (t : WebsocketTransport) (w : world) :
  transport (agent w) = Some t ->
  read_listeners (listeners t) event <> Inherited ->
  listen event cb w
  = (Return (Z.of_nat (length (default [] (listeners t !! event))) + 1),
     with_registry
       (<[event := default [] (listeners t !! event) ++ [cb]]> (listeners t)) w).
Proof.
  intros Ht Hr. unfold listen, this, update_this, bind, gets, modify, ret.
  simpl. rewrite Ht. simpl.
  destruct (read_own_or_absent _ _ Hr) as [Hown | [Habsent Hl]].
  - rewrite Hown. simpl. rewrite Ht. simpl. rewrite Hown. reflexivity.
  - rewrite Habsent, Hl. simpl. rewrite Ht. simpl.
    unfold read_listeners. rewrite lookup_insert_eq. simpl.
    rewrite insert_insert_eq.
    change (with_agent _ (with_agent _ w))
      with (with_registry (<[event:=[cb]]> (listeners t))
              (with_registry (<[event:=[]]> (listeners t)) w)).
    now rewrite with_registry_twice.
Qed.

(** X1.  On a channel that has an entry, or whose name [Object.prototype]
    does not define, [listen] puts the callback after the callbacks
    already registered on the channel and answers the new number of
    callbacks; the other channels, the sockets and the timers are as
    before. *)
Theorem listen_appends (event : string) (cb : subscriber)
  (t : WebsocketTransport) (w : world) :
  transport (agent w) = Some t ->
  read_listeners (listeners t) event <> Inherited ->
  exists w',
    listen event cb w
    = (Return (Z.of_nat (length (default [] (listeners t !! event))) + 1), w')
    /\ (registry w' ≫= lookup event)
       = Some (default [] (listeners t !! event) ++ [cb])
    /\ (forall other, other <> event ->
          (registry w' ≫= lookup other) = listeners t !! other)
    /\ sockets w' = sockets w
    /\ timers w' = timers w.
Proof.
  intros Ht Hr. eexists. split; [now apply listen_result|].
  unfold registry. rewrite (registry_with_registry _ t) by done. simpl.
  split; [apply lookup_insert_eq|]. split; [|done].
  intros other Hne. now apply lookup_insert_ne.
Qed.

(** X2.  On a channel named like a property of [Object.prototype],
    [listen] throws a [TypeError] and registers nothing. *)
Theorem listen_inherited_name_throws (event : string) (cb : subscriber)
  (t : WebsocketTransport) (w : world) :
  transport (agent w) = Some t ->
  event ∈ Object_prototype ->
  listeners t !! event = None ->
  listen event cb w
  = (Throw (TypeError "this.listeners[event].push is not a function"), w).
Proof.
  intros Ht Hp Hl. unfold listen, this, update_this, bind, gets, modify, ret.
  simpl. rewrite Ht. simpl. rewrite (read_inherited _ _ Hp Hl). simpl.
  rewrite Ht. simpl. now rewrite (read_inherited _ _ Hp Hl).
Qed.

(** X3.  A callback registered with [listen] receives the payload of the
    next frame of its channel, unchanged, after the callbacks registered
    before it, as long as none of them throws. *)
Theorem subscribe_then_deliver (event rawData : string) (data payload : value)
  (cb : subscriber) (t : WebsocketTransport) (w : world) :
  transport (agent w) = Some t ->
  read_listeners (listeners t) event <> Inherited ->
  JSON_parse rawData = Some data ->
  get_prop data "channel" = Return (VStr event) ->
  get_prop data "payload" = Return payload ->
  truthy (VStr event) && truthy payload = true ->
  Forall (fun g => fn_body g payload = None)
         (default [] (listeners t !! event) ++ [cb]) ->
  onMessage rawData (step w (CallListen event cb))
  = (Return tt,
     record_calls (default [] (listeners t !! event) ++ [cb]) payload
       (step w (CallListen event cb))).
Proof.
  intros Ht Hr Hj Hc Hp Hcp Hb.
  assert (step w (CallListen event cb)
          = with_registry
              (<[event := default [] (listeners t !! event) ++ [cb]]> (listeners t)) w)
    as Hstep.
  { unfold step, turn, perform, bind, ret.
    now rewrite (listen_result event cb t w Ht Hr). }
  rewrite Hstep.
  apply (dispatch_reaches_all rawData data (VStr event) payload _
           (set_listeners
              (<[event := default [] (listeners t !! event) ++ [cb]]> (listeners t)) t));
    try done.
  - now apply registry_with_registry.
  - simpl. apply lookup_insert_eq.
Qed.

(** What [unlisten] without a handle leaves of the channel. *)
Lemma unlisten_all_result (event : string) (t : WebsocketTransport) (w : world) :
  transport (agent w) = Some t ->
  event ∉ Object_prototype ->
  exists t',
    transport (agent (step w (CallUnlisten event None))) = Some t'
    /\ (read_listeners (listeners t') event = Absent
        \/ listeners t' !! event = Some []).
Proof.
  intros Ht Hp.
  unfold step, turn, perform, unlisten, this, update_this, bind, gets, modify, ret.
  simpl. rewrite Ht. simpl.
  destruct (listeners t !! event) as [fns|] eqn:Hl.
  - assert (read_listeners (listeners t) event = Handlers fns) as ->.
    { unfold read_listeners. now rewrite Hl. }
    simpl. rewrite Ht. simpl. eexists. split; [reflexivity|]. right. simpl.
    apply lookup_insert_eq.
  - rewrite (read_absent _ _ Hp Hl). simpl. rewrite Ht.
    eexists. split; [reflexivity|]. left. now apply read_absent.
Qed.

(** X4.  After [unlisten] without a handle, a well-formed frame of the
    channel calls no callback and raises nothing, whether the channel had
    callbacks or not: the state is as [unlisten] left it. *)
Theorem unlisten_all_then_deliver_is_silent (event rawData : string)
  (data payload : value) (t : WebsocketTransport) (w : world) :
  transport (agent w) = Some t ->
  event ∉ Object_prototype ->
  JSON_parse rawData = Some data ->
  get_prop data "channel" = Return (VStr event) ->
  get_prop data "payload" = Return payload ->
  truthy (VStr event) && truthy payload = true ->
  onMessage rawData (step w (CallUnlisten event None))
  = (Return tt, step w (CallUnlisten event None)).
Proof.
  intros Ht Hp Hj Hc Hpl Hcp.
  destruct (unlisten_all_result event t w Ht Hp) as (t' & Ht' & [Habsent | Hempty]).
  - now apply (onMessage_no_subscriber rawData data (VStr event) payload t').
  - now rewrite (dispatch_reaches_all rawData data (VStr event) payload []
                   t' _ Hj Hc Hpl Hcp Ht' Hempty (List.Forall_nil _)).
Qed.
End Subscriptions.

(** ** The heartbeat and the life of a socket *)

Section Heartbeat.
Context {E : Env}.

Lemma clear_absent_timer (id : nat) (l : list timer) :
  (forall tm, tm ∈ l -> timer_id tm <> id) ->
  filter (fun tm => timer_id tm <> id) l = l.
Proof.
  induction l as [|tm l IH]; intros Hl; [reflexivity|].
  rewrite filter_cons_True by (apply Hl; left).
  f_equal. apply IH. intros tm' Hin. apply Hl. now right.
Qed.

(** The listeners of ['pong'] cancel the timeouts they close over: the
    pending one of the last probe, [n], goes, and the timers [T], none of
    which is the timeout of a probe, stay. *)
Lemma pong_listeners_cancel (s n : nat) (T : list timer) (probe : timer)
  (ls : list listener) (w : world) :
  timer_id probe = n ->
  (forall tm, tm ∈ T -> timer_id tm <> n) ->
  Forall (fun l => once l = false
                   /\ exists t0, callback l = OnPong t0
                                 /\ (t0 = n \/ forall tm, tm ∈ T -> timer_id tm <> t0)) ls ->
  timers w = T \/ timers w = T ++ [probe] ->
  exists w',
    call_listeners s ls Pong w = (Return tt, w')
    /\ sockets w' = sockets w
    /\ (timers w' = T \/ timers w' = T ++ [probe])
    /\ (timers w = T -> timers w' = T)
    /\ (Exists (fun l => callback l = OnPong n) ls -> timers w' = T).
Proof.
  intros Hprobe Hfresh Hls. revert w.
  induction Hls as [|l ls (Honce & t0 & Hcb & Ht0) _ IH]; intros w Hw.
  - exists w. repeat split; try done. intros Hex. inversion Hex.
  - simpl. rewrite Honce, Hcb.
    unfold bind at 1. unfold ret at 1. unfold bind at 1. unfold handle, onPong.
    unfold bind at 1. unfold clearTimeout, modify at 1. unfold debug, modify.
    set (w1 := with_console _ _).
    assert (sockets w1 = sockets w) as Hs1 by reflexivity.
    assert (timers w1 = filter (fun tm => timer_id tm <> t0) (timers w)) as Ht1
      by reflexivity.
    assert (filter (fun tm => timer_id tm <> n) T = T) as HTn
      by now apply clear_absent_timer.
    assert ((timers w1 = T \/ timers w1 = T ++ [probe])
            /\ (timers w = T -> timers w1 = T)
            /\ (t0 = n -> timers w1 = T)) as (Hw1 & Hkeep1 & Hn1).
    { rewrite Ht1. destruct (decide (t0 = n)) as [->|Hne].
      - assert (filter (fun tm => timer_id tm <> n) (T ++ [probe]) = T) as HT'.
        { rewrite filter_app, HTn.
          rewrite filter_cons_False by (simpl; intros Heq; now apply Heq).
          rewrite filter_nil. apply app_nil_r. }
        destruct Hw as [-> | ->]; rewrite ?HTn, ?HT'; auto.
      - destruct Ht0 as [->|Hstale]; [done|].
        assert (filter (fun tm => timer_id tm <> t0) T = T) as HT
          by now apply clear_absent_timer.
        split; [|split; [intros ->; exact HT|done]].
        destruct Hw as [-> | ->]; [now left|right].
        rewrite filter_app, HT.
        rewrite filter_cons_True by (simpl; intros Heq; apply Hne; congruence).
        reflexivity. }
    destruct (IH w1 Hw1) as (w' & Hrun & Hs' & Hw' & Hkeep' & Hex').
    exists w'. rewrite Hrun. split; [reflexivity|]. split; [congruence|].
    split; [exact Hw'|]. split; [intros Hw0; apply Hkeep', Hkeep1, Hw0|].
    intros Hex. apply Exists_cons in Hex as [Hhere | Hlater]; [|now apply Hex'].
    apply Hkeep', Hn1. congruence.
Qed.

Lemma find_absent_timer (id : nat) (l : list timer) :
  (forall tm, tm ∈ l -> timer_id tm <> id) ->
  List.find (fun tm => Nat.eqb (timer_id tm) id) l = None.
Proof.
  induction l as [|tm l IH]; intros Hl; [reflexivity|]. simpl.
  destruct (Nat.eqb_spec (timer_id tm) id) as [Heq|_].
  - exfalso. apply (Hl tm); [left|exact Heq].
  - apply IH. intros tm' Hin. apply Hl. now right.
Qed.

(** The state that a call of [ping] leaves when [this.ws] is open. *)
Lemma ping_on_open_socket (t : WebsocketTransport) (s : nat) (k : socket)
  (w : world) :
  transport (agent w) = Some t ->
  ws t = Some s ->
  sockets w !! s = Some k ->
  readyState k = OPEN ->
  turn ping w
  = with_sockets
      (alter (fun k0 => set_events
                          (events k0 ++ [{| on_event := Epong; once := false;
                                            callback := OnPong (next_timer w) |}]) k0) s)
      (with_console "Successfuly sended a ping!"
         (with_sockets (alter (push_frame PingFrame) s)
            (with_timers
               (fun l => l ++ [{| timer_id := next_timer w; delay := 5 * 1000;
                                  repeat := false; timer_fn := NoResponse |}])
               (S (next_timer w)) w))).
Proof.
  intros Ht Hs Hk Ho.
  unfold turn, ping, setTimeout, setTimer, this_ws, this, ws_ping, ws_on,
    socket_state, update_socket, debug, bind, gets, modify, ret.
  simpl. rewrite Ht. simpl. rewrite Hs. simpl. rewrite Hk. simpl. rewrite Ho.
  simpl. rewrite Ht. simpl. rewrite Hs. reflexivity.
Qed.

(** The pong that answers a probe: the listeners of ['pong'] run, the
    timeout of the probe is cancelled, and the sockets are as the probe
    left them. *)
Lemma probe_then_pong (t : WebsocketTransport) (s : nat) (k : socket)
  (w : world) :
  transport (agent w) = Some t ->
  ws t = Some s ->
  sockets w !! s = Some k ->
  readyState k = OPEN ->
  (forall tm, tm ∈ timers w -> timer_id tm <> next_timer w) ->
  Forall (fun l => once l = false
                   /\ exists t0, callback l = OnPong t0
                                 /\ forall tm, tm ∈ timers w -> timer_id tm <> t0)
         (listeners_of Epong s w) ->
  sockets (step (turn ping w) (Deliver s Pong)) = sockets (turn ping w)
  /\ timers (step (turn ping w) (Deliver s Pong)) = timers w
  /\ listeners_of Epong s (turn ping w)
     = listeners_of Epong s w
       ++ [{| on_event := Epong; once := false;
              callback := OnPong (next_timer w) |}].
Proof.
  intros Ht Hs Hk Ho Hfresh Hold.
  rewrite (ping_on_open_socket t s k w Ht Hs Hk Ho).
  set (probe := {| timer_id := next_timer w; delay := 5 * 1000;
                   repeat := false; timer_fn := NoResponse |}).
  set (w1 := with_sockets _ _).
  assert (sockets w1 !! s
          = Some (set_events (events k ++ [{| on_event := Epong; once := false;
                                              callback := OnPong (next_timer w) |}])
                    (push_frame PingFrame k))) as Hk1.
  { unfold w1. simpl. now rewrite !list_lookup_alter_eq, Hk. }
  assert (timers w1 = timers w ++ [probe]) as Ht1 by reflexivity.
  assert (listeners_of Epong s w1
          = listeners_of Epong s w
            ++ [{| on_event := Epong; once := false;
                   callback := OnPong (next_timer w) |}]) as Hl1.
  { unfold listeners_of. rewrite Hk1, Hk. simpl.
    rewrite filter_app. f_equal. }
  destruct (pong_listeners_cancel s (next_timer w) (timers w) probe
              (listeners_of Epong s w1) w1) as (w2 & Hrun & Hs2 & _ & _ & Hdone).
  { reflexivity. }
  { exact Hfresh. }
  { rewrite Hl1. apply Forall_app. split.
    - eapply Forall_impl; [exact Hold|]. intros l (Ho1 & t0 & Hcb & Hst). eauto 6.
    - repeat constructor. eexists. split; [reflexivity|now left]. }
  { right. exact Ht1. }
  assert (step w1 (Deliver s Pong) = w2) as ->.
  { unfold step, turn, perform, deliver, socket_state, emit.
    unfold bind at 1. unfold gets at 1. rewrite Hk1. simpl. rewrite Ho. simpl.
    unfold bind, gets. now rewrite Hrun. }
  split; [exact Hs2|]. split; [|exact Hl1].
  apply Hdone. rewrite Hl1. apply Exists_app. right. now left.
Qed.

(** X5.  A probe that is answered in time.  On an open socket, [ping]
    sends one ping frame and arms a one-shot timeout of 5000 ms; when the
    pong arrives the timeout is cancelled: the pending timers are those
    from before the probe, no socket has been made, and the deadline, were
    it to come, finds nothing to fire. *)
Theorem probe_answered_in_time (t : WebsocketTransport) (s : nat) (k : socket)
  (w : world) :
  transport (agent w) = Some t ->
  ws t = Some s ->
  sockets w !! s = Some k ->
  readyState k = OPEN ->
  (forall tm, tm ∈ timers w -> timer_id tm <> next_timer w) ->
  Forall (fun l => once l = false
                   /\ exists t0, callback l = OnPong t0
                                 /\ forall tm, tm ∈ timers w -> timer_id tm <> t0)
         (listeners_of Epong s w) ->
  (outbox <$> sockets (turn ping w) !! s) = Some (outbox k ++ [PingFrame])
  /\ timers (turn ping w)
     = timers w ++ [{| timer_id := next_timer w; delay := 5000;
                       repeat := false; timer_fn := NoResponse |}]
  /\ timers (step (turn ping w) (Deliver s Pong)) = timers w
  /\ length (sockets (step (turn ping w) (Deliver s Pong))) = length (sockets w)
  /\ step (step (turn ping w) (Deliver s Pong)) (Fire (next_timer w))
     = step (turn ping w) (Deliver s Pong).
Proof.
  intros Ht Hs Hk Ho Hfresh Hold.
  destruct (probe_then_pong t s k w Ht Hs Hk Ho Hfresh Hold) as (Hs2 & Ht2 & _).
  split; [|split; [|split; [exact Ht2|split]]].
  - rewrite (ping_on_open_socket t s k w Ht Hs Hk Ho). simpl.
    now rewrite !list_lookup_alter_eq, Hk.
  - now rewrite (ping_on_open_socket t s k w Ht Hs Hk Ho).
  - rewrite Hs2, (ping_on_open_socket t s k w Ht Hs Hk Ho). simpl.
    now rewrite !length_alter.
  - unfold step at 1. unfold turn at 1. unfold perform, fire, bind, gets.
    rewrite Ht2. now rewrite find_absent_timer.
Qed.

(** X6.  The listeners of ['pong'] pile up.  Every probe registers one more
    listener of ['pong'] on the socket, and the pong that answers it takes
    none away: after a probe and its pong the socket has the listeners of
    ['pong'] it had before and one more. *)
Theorem pong_listeners_accumulate (t : WebsocketTransport) (s : nat)
  (k : socket) (w : world) :
  transport (agent w) = Some t ->
  ws t = Some s ->
  sockets w !! s = Some k ->
  readyState k = OPEN ->
  (forall tm, tm ∈ timers w -> timer_id tm <> next_timer w) ->
  Forall (fun l => once l = false
                   /\ exists t0, callback l = OnPong t0
                                 /\ forall tm, tm ∈ timers w -> timer_id tm <> t0)
         (listeners_of Epong s w) ->
  listeners_of Epong s (step (turn ping w) (Deliver s Pong))
  = listeners_of Epong s w
    ++ [{| on_event := Epong; once := false;
           callback := OnPong (next_timer w) |}].
Proof.
  intros Ht Hs Hk Ho Hfresh Hold.
  destruct (probe_then_pong t s k w Ht Hs Hk Ho Hfresh Hold) as (Hs2 & _ & Hl).
  rewrite <- Hl. unfold listeners_of. now rewrite Hs2.
Qed.



End Heartbeat.

Section SocketLife.
Context {E : Env}.

(** X8.  A ping of the peer is answered twice.  The [ws] library sends
    a pong of its own before it emits ['ping'], and the listener that
    [connect] registers sends another: one ping of the peer on an open
    [this.ws] puts two pong frames on it, and nothing else changes but the
    log. *)
Theorem peer_ping_is_answered (t : WebsocketTransport) (s : nat) (k : socket)
  (w : world) :
  transport (agent w) = Some t ->
  ws t = Some s ->
  sockets w !! s = Some k ->
  readyState k = OPEN ->
  listeners_of Eping s w
  = [{| on_event := Eping; once := false; callback := ReplyPong |}] ->
  step w (Deliver s Ping)
  = with_sockets (alter (push_frame PongFrame) s)
      (with_console "Received ping! Pong sended!"
         (with_sockets (alter (push_frame PongFrame) s) w))
  /\ (outbox <$> sockets (step w (Deliver s Ping)) !! s)
     = Some (outbox k ++ [PongFrame; PongFrame]).
Proof.
  intros Ht Hs Hk Ho Hl.
  assert (step w (Deliver s Ping)
          = with_sockets (alter (push_frame PongFrame) s)
              (with_console "Received ping! Pong sended!"
                 (with_sockets (alter (push_frame PongFrame) s) w))) as ->.
  { unfold step, turn, perform, deliver, emit, socket_state, update_socket.
    unfold bind at 1. unfold gets at 1. rewrite Hk. simpl. rewrite Ho. simpl.
    unfold bind at 1. unfold modify at 1.
    unfold bind at 1. unfold gets at 1.
    rewrite listeners_of_alter by reflexivity. rewrite Hl. simpl.
    unfold this_ws, this, ws_pong, socket_state, update_socket, debug,
      bind, gets, modify, ret.
    simpl. rewrite Ht. simpl. rewrite Hs. simpl.
    rewrite list_lookup_alter_eq, Hk. simpl. now rewrite Ho. }
  split; [reflexivity|]. simpl.
  rewrite !list_lookup_alter_eq, Hk. simpl. now rewrite <- app_assoc.
Qed.

(** X9.  Every reopening adds a heartbeat interval.  When the socket made
    by a reconnection reports ['open'], a new 30000 ms interval of [ping]
    is set and [this.pingInterval] is overwritten with its id; the timers
    pending before, an earlier heartbeat interval among them, all stay. *)
Theorem reopen_adds_heartbeat_interval (t : WebsocketTransport) (s : nat)
  (k : socket) (w : world) :
  transport (agent w) = Some t ->
  ws t = Some s ->
  sockets w !! s = Some k ->
  readyState k = CONNECTING ->
  events k = connect_listeners s ReconnectCb ->
  timers (step w (Deliver s Open))
  = timers w ++ [{| timer_id := next_timer w; delay := 30000;
                    repeat := true; timer_fn := PingTick |}]
  /\ (pingInterval <$> transport (agent (step w (Deliver s Open))))
     = Some (Some (next_timer w))
  /\ length (sockets (step w (Deliver s Open))) = length (sockets w).
Proof.
  intros Ht Hs Hk Hc He.
  remember (step w (Deliver s Open)) as w' eqn:Hw'.
  unfold step, turn, perform, deliver, emit, socket_state, update_socket,
    bind, gets, modify, ret in Hw'.
  rewrite Hk in Hw'. simpl in Hw'. rewrite Hc in Hw'. simpl in Hw'.
  unfold listeners_of in Hw'. simpl in Hw'.
  rewrite list_lookup_alter_eq, Hk in Hw'. simpl in Hw'.
  rewrite He in Hw'. simpl in Hw'.
  unfold onOpen, call_connect_cb, this_ws, this, ws_removeListener, ws_on,
    setInterval, setTimer, update_this, update_socket, debug,
    bind, gets, modify, ret in Hw'.
  simpl in Hw'. rewrite Ht in Hw'. simpl in Hw'. rewrite Hs in Hw'.
  simpl in Hw'. subst w'. simpl. rewrite Ht. simpl.
  now rewrite !length_alter.
Qed.

(** X10.  A reconnection that fails is not tried again by the socket.
    When the socket made by a reconnection reports an error before it
    opens, [onError] takes all listeners off it and only logs; the
    ['close'] that follows finds no listener: no new socket is made, no
    timer is set or cancelled, and [this.ws] still names the dead
    socket. *)
Theorem failed_reconnect_is_not_retried (err : error) (t : WebsocketTransport)
  (s : nat) (k : socket) (w : world) :
  transport (agent w) = Some t ->
  ws t = Some s ->
  sockets w !! s = Some k ->
  readyState k = CONNECTING ->
  events k = connect_listeners s ReconnectCb ->
  sockets (run w [Deliver s (Failure err); Deliver s Close])
  = <[s := set_events [] (set_readyState CLOSED k)]> (sockets w)
  /\ timers (run w [Deliver s (Failure err); Deliver s Close]) = timers w
  /\ agent (run w [Deliver s (Failure err); Deliver s Close]) = agent w
  /\ uncaught (run w [Deliver s (Failure err); Deliver s Close]) = uncaught w.
Proof.
  intros Ht Hs Hk Hc He.
  remember (run w [Deliver s (Failure err); Deliver s Close]) as w' eqn:Hw'.
  simpl in Hw'.
  assert (step w (Deliver s (Failure err))
          = with_console "Got an error on websocket connection"
              (with_sockets (alter (set_events []) s)
                 (with_sockets
                    (alter (fun k0 => set_events
                              (remove_first
                                 (registered Eerror (OnError s ReconnectCb))
                                 (events k0)) k0) s)
                    (with_sockets (alter (set_readyState CLOSING) s) w)))) as Hfail.
  { unfold step, turn, perform, deliver, emit, socket_state, update_socket,
      bind, gets, modify, ret.
    rewrite Hk. simpl. rewrite Hc. simpl.
    unfold listeners_of. simpl. rewrite list_lookup_alter_eq, Hk. simpl.
    rewrite He. simpl.
    unfold onError, call_connect_cb, this_ws, this, ws_removeAllListeners,
      update_socket, debug, bind, gets, modify, ret.
    simpl. rewrite Ht. simpl. now rewrite Hs. }
  rewrite Hfail in Hw'.
  unfold step, turn, perform, deliver, emit, socket_state, update_socket,
    bind, gets, modify, ret in Hw'.
  simpl in Hw'. rewrite !list_lookup_alter_eq, Hk in Hw'. simpl in Hw'.
  unfold listeners_of in Hw'. simpl in Hw'.
  rewrite !list_lookup_alter_eq, Hk in Hw'. simpl in Hw'.
  subst w'. simpl. repeat split.
  rewrite !list_alter_alter_eq. rewrite list_insert_alter.
  apply list_alter_ext; [|reflexivity]. intros k0 Hk0.
  rewrite Hk in Hk0. injection Hk0 as <-. now destruct k.
Qed.

(** X11.  After [disconnect()] on an open socket the transport is not
    connected: [isConnected()] answers [false] and [send] refuses every
    packet without transmitting it. *)
Theorem disconnect_stops_sending (packet : value) (t : WebsocketTransport)
  (s : nat) (k : socket) (w : world) :
  transport (agent w) = Some t ->
  ws t = Some s ->
  sockets w !! s = Some k ->
  readyState k = OPEN ->
  isConnected (step w CallDisconnect)
  = (Return (VBool false), step w CallDisconnect)
  /\ send packet (step w CallDisconnect) = (Return false, step w CallDisconnect).
Proof.
  intros Ht Hs Hk Ho.
  assert (step w CallDisconnect
          = with_sockets (alter (set_readyState CLOSING) s)
              (with_console "Disconnect from websocket server" w)) as ->.
  { unfold step, turn, perform, disconnect, this_ws, this, ws_close,
      socket_state, update_socket, debug, bind, gets, modify, ret.
    simpl. rewrite Ht. simpl. rewrite Hs. simpl. rewrite Hk. simpl.
    now rewrite Ho. }
  set (w1 := with_sockets _ _).
  assert (isConnected w1 = (Return (VBool false), w1)) as Hi.
  { rewrite (isConnected_with_socket t s (set_readyState CLOSING k) w1); try done.
    unfold w1. simpl. now rewrite list_lookup_alter_eq, Hk. }
  split; [exact Hi|]. unfold send, bind. now rewrite Hi.
Qed.

(** X12.  A transport counts as connected from the call of [connect] on,
    before the handshake has ended: right after [connect], with the new
    socket still [CONNECTING], [isConnected()] answers [true]. *)
Theorem connecting_counts_as_connected (cb : connect_cb)
  (t : WebsocketTransport) (w : world) :
  transport (agent w) = Some t ->
  (readyState <$> sockets (snd (connect cb w)) !! length (sockets w))
  = Some CONNECTING
  /\ isConnected (snd (connect cb w))
     = (Return (VBool true), snd (connect cb w)).
Proof.
  intros Ht.
  destruct (connect_makes_one_socket cb t w Ht) as (w' & Hc & Hsock & Htr & _).
  rewrite Hc. simpl.
  assert (sockets w' !! length (sockets w)
          = Some (set_events (connect_listeners (length (sockets w)) cb)
                    (fresh_socket (endpoint t) (headers t)))) as Hk.
  { rewrite Hsock, lookup_app_r by lia. now rewrite Nat.sub_diag. }
  split; [now rewrite Hk|].
  now rewrite (isConnected_with_socket _ _ _ w' Htr eq_refl Hk).
Qed.

(** X13.  Before [connect].  A transport that has been constructed and not
    connected has no socket: [isConnected] answers [null], the value of
    [this.ws], and not [false]; [send], which only tests that answer,
    returns [false] for every packet and changes nothing; and
    [disconnect] throws a [TypeError] after its log line. *)
Theorem unconnected_transport_sends_nothing (packet : value)
  (t : WebsocketTransport) (w : world) :
  transport (agent w) = Some t ->
  ws t = None ->
  isConnected w = (Return VNull, w)
  /\ send packet w = (Return false, w)
  /\ disconnect w
     = (Throw (TypeError "Cannot read property of null"),
        with_console "Disconnect from websocket server" w).
Proof.
  intros Ht Hs.
  assert (isConnected w = (Return VNull, w)) as Hi.
  { unfold isConnected, this, bind, gets, ret. simpl. rewrite Ht. simpl.
    now rewrite Hs. }
  split; [exact Hi|]. split.
  - unfold send, bind. now rewrite Hi.
  - unfold disconnect, this_ws, this, debug, bind, gets, modify, ret, throw.
    simpl. rewrite Ht. simpl. now rewrite Hs.
Qed.

End SocketLife.


(** ** The start of the agent *)

Section Start.
Context {E : Env}.

(** The state that [start] leaves when the verification passes. *)
Lemma boot_state (public secret app url : string)
  (props : list (string * value)) :
  is_true (field props "disabled") || is_true (field props "pending") = false ->
  is_false (field props "active") = false ->
  get_prop (field props "endpoints") "ws" = Return (VStr url) ->
  exists lines,
    boot public secret app (HttpData (VObj props))
    = {| agent := {| config := {| publicKey := public; secretKey := secret;
                                  appName := app; config_endpoint := VUndefined;
                                  internalIp := VUndefined |};
                     process := [("unique_id",
                                  VStr (generateUniqueId Math_random))];
                     transport :=
                       Some {| endpoint := VStr url;
                               headers := start_headers public secret app;
                               ws := Some 0%nat; pingInterval := None;
                               listeners := ∅ |};
                     statusInterval := None |};
         sockets := [set_events (connect_listeners 0 (StartCb (field props "endpoints")))
                       (fresh_socket (VStr url) (start_headers public secret app))];
         timers := []; next_timer := 0; started := Pending;
         console := lines; calls := []; uncaught := []; rejections := [] |}.
Proof.
  intros Hd Ha He.
  assert (truthy (field props "endpoints") = true) as Ht.
  { destruct (field props "endpoints"); try discriminate; reflexivity. }
  eexists.
  unfold boot, turn, start, checkCredentials, bind, lift. simpl.
  fold (field props "disabled"). fold (field props "pending").
  rewrite Hd. simpl. fold (field props "active"). rewrite Ha. simpl.
  fold (field props "endpoints"). rewrite Ht. simpl. rewrite He. simpl.
  reflexivity.
Qed.


(** X15.  When the first socket opens, the promise of [start] resolves:
    the agent has stored the websocket address and the internal IP in its
    configuration, the heartbeat interval (30000 ms) and the status
    interval (1000 ms) are the two timers, and the socket is open with the
    listeners of ['ping'], ['message'], ['close'] and ['error']. *)
Theorem start_resolves_on_open (public secret app url : string)
  (props : list (string * value)) :
  is_true (field props "disabled") || is_true (field props "pending") = false ->
  is_false (field props "active") = false ->
  get_prop (field props "endpoints") "ws" = Return (VStr url) ->
  started (run (boot public secret app (HttpData (VObj props))) [Deliver 0 Open])
  = Resolved
  /\ config (agent (run (boot public secret app (HttpData (VObj props)))
                      [Deliver 0 Open]))
     = {| publicKey := public; secretKey := secret; appName := app;
          config_endpoint := VStr url; internalIp := computeInternalIp |}
  /\ timers (run (boot public secret app (HttpData (VObj props))) [Deliver 0 Open])
     = [{| timer_id := 0; delay := 30000; repeat := true; timer_fn := PingTick |};
        {| timer_id := 1; delay := 1000; repeat := true; timer_fn := SendStatus |}]
  /\ statusInterval (agent (run (boot public secret app (HttpData (VObj props)))
                              [Deliver 0 Open]))
     = Some 1%nat
  /\ (pingInterval <$> transport (agent (run (boot public secret app
                                                (HttpData (VObj props)))
                                           [Deliver 0 Open])))
     = Some (Some 0%nat)
  /\ sockets (run (boot public secret app (HttpData (VObj props))) [Deliver 0 Open])
     = [ {| url := VStr url;
            upgrade_headers := start_headers public secret app;
            readyState := OPEN;
            events := [ {| on_event := Eping; once := false; callback := ReplyPong |};
                        {| on_event := Emessage; once := false; callback := OnMessage |};
                        {| on_event := Eclose; once := false; callback := OnClose |};
                        {| on_event := Eerror; once := false; callback := LogError |} ];
            outbox := [] |} ].
Proof.
  intros Hd Ha He.
  destruct (boot_state public secret app url props Hd Ha He) as [lines ->].
  unfold run, fold_left, step, turn, perform, deliver, emit, socket_state,
    update_socket, bind, gets, modify, ret.
  simpl. unfold listeners_of. simpl.
  unfold onOpen, call_connect_cb, this_ws, this, ws_removeListener, ws_on,
    setInterval, setTimer, update_this, update_socket, settle, debug,
    bind, gets, modify, ret, lift.
  simpl. rewrite He. simpl. now repeat split.
Qed.

Lemma turn_gets {A} (f : world -> A) (k : A -> M unit) (w : world) :
  turn (bind (gets f) k) w = turn (k (f w)) w.
Proof. reflexivity. Qed.

Lemma turn_modify (f : world -> world) (m : M unit) (w : world) :
  turn (bind (modify f) (fun _ => m)) w = turn m (f w).
Proof. reflexivity. Qed.

(** What the [ws] library and the timers set off on a state without
    timers and without listeners makes no socket, no timer and no
    listener, and leaves the agent and the promise as they are. *)
Lemma quiescent_step (w : world) (a : action) :
  autonomous a = true -> quiescent w ->
  quiescent (step w a)
  /\ length (sockets (step w a)) = length (sockets w)
  /\ agent (step w a) = agent w
  /\ started (step w a) = started w.
Proof.
  intros Ha Hw.
  set (Q := fun w' : world =>
              quiescent w' /\ length (sockets w') = length (sockets w)
              /\ agent w' = agent w /\ started w' = started w).
  change (Q (step w a)).
  assert (Q w) as Hsame by (unfold Q; auto).
  assert (forall f s w',
             (forall k, events (f k) = events k) ->
             Q w' -> Q (with_sockets (alter f s) w')) as Hstate.
  { intros f s w' Hf ((Hm & Hs) & Hl & Hag & Hst). repeat split; try assumption.
    - simpl. apply Forall_alter; [exact Hs|]. intros k _ Hk. now rewrite Hf.
    - simpl. now rewrite length_alter. }
  assert (forall s e w', Q w' -> Q (turn (emit s e) w')) as Hemit.
  { intros s e w' HQ. unfold turn, emit, bind, gets.
    assert (listeners_of (name_of e) s w' = []) as ->.
    { destruct HQ as ((_ & Hs) & _). unfold listeners_of.
      destruct (sockets w' !! s) as [k|] eqn:Hk; simpl; [|reflexivity].
      rewrite Forall_lookup in Hs. now rewrite (Hs _ _ Hk). }
    destruct e; simpl; exact HQ. }
  destruct a as [| | | |s e|id]; try discriminate.
  - unfold step, perform, deliver, socket_state. rewrite turn_gets.
    destruct e; simpl;
      match goal with
      | |- context [if ?b then _ else _] => destruct b
      end;
      try exact Hsame;
      try (unfold update_socket; rewrite turn_modify);
      apply Hemit; try (apply Hstate; [reflexivity|]); exact Hsame.
  - unfold step, perform, fire. rewrite turn_gets.
    destruct Hw as [Hm _]. rewrite Hm. simpl. exact Hsame.
Qed.

Lemma quiescent_run (trace : list action) (w : world) :
  Forall (fun a => autonomous a = true) trace -> quiescent w ->
  quiescent (run w trace)
  /\ length (sockets (run w trace)) = length (sockets w)
  /\ agent (run w trace) = agent w
  /\ started (run w trace) = started w.
Proof.
  intros Ha. revert w.
  induction Ha as [|a trace Ha _ IH]; intros w Hw; [auto|].
  simpl. destruct (quiescent_step w a Ha Hw) as (Hq & Hl & Hag & Hst).
  destruct (IH _ Hq) as (Hq' & Hl' & Hag' & Hst').
  split; [exact Hq'|]. split; [congruence|]. split; congruence.
Qed.

(** X16.  A first connection that fails rejects [start] and is never
    tried again.  When the first socket reports an error before it opens,
    the promise is rejected with that error; and whatever socket events
    and timers follow, no second socket is made, no timer is ever set, the
    status interval is never started and the promise stays rejected. *)
Theorem failed_first_connection_is_final (public secret app url : string)
  (props : list (string * value)) (err : error) (trace : list action) :
  is_true (field props "disabled") || is_true (field props "pending") = false ->
  is_false (field props "active") = false ->
  get_prop (field props "endpoints") "ws" = Return (VStr url) ->
  Forall (fun a => autonomous a = true) trace ->
  started (run (boot public secret app (HttpData (VObj props)))
             (Deliver 0 (Failure err) :: trace))
  = Rejected err
  /\ length (sockets (run (boot public secret app (HttpData (VObj props)))
                        (Deliver 0 (Failure err) :: trace))) = 1%nat
  /\ timers (run (boot public secret app (HttpData (VObj props)))
               (Deliver 0 (Failure err) :: trace)) = []
  /\ statusInterval (agent (run (boot public secret app (HttpData (VObj props)))
                              (Deliver 0 (Failure err) :: trace))) = None.
Proof.
  intros Hd Ha He Htrace.
  destruct (boot_state public secret app url props Hd Ha He) as [lines ->].
  simpl run.
  set (w1 := step _ (Deliver 0 (Failure err))).
  assert (quiescent w1 /\ length (sockets w1) = 1%nat
          /\ statusInterval (agent w1) = None /\ started w1 = Rejected err)
    as (Hq & Hl & Hi & Hs).
  { unfold w1, step, turn, perform, deliver, emit, socket_state,
      update_socket, bind, gets, modify, ret.
    simpl. unfold listeners_of. simpl.
    unfold onError, call_connect_cb, this_ws, this, ws_removeAllListeners,
      update_socket, settle, bind, gets, modify, ret.
    simpl. repeat split. now repeat constructor. }
  destruct (quiescent_run trace w1 Htrace Hq) as ((Hm & _) & Hl' & Hag & Hst).
  fold (run w1 trace).
  split; [congruence|]. split; [congruence|]. split; [exact Hm|]. congruence.
Qed.

End Start.

(** ** Answers of the verification that end the start *)

Section Credentials.
Context {E : Env}.

Lemma rejected_boot_is_idle (public secret app : string) (answer : http_answer)
  (err : error) (trace : list action) :
  boot public secret app answer
  = with_started (Rejected err) (new_Agent public secret app) ->
  started (boot public secret app answer) = Rejected err
  /\ idle (run (boot public secret app answer) trace).
Proof.
  intros ->. split; [reflexivity|]. apply idle_run. now repeat split.
Qed.

(** X17.  An account that the verification reports as not active:
    [start] is rejected with 'Interactor not active.', and no transport,
    socket or timer exists then or after any calls, events and timers. *)
Theorem inactive_account_is_rejected (public secret app : string)
  (props : list (string * value)) (trace : list action) :
  is_true (field props "disabled") || is_true (field props "pending") = false ->
  lookup_prop "active" props = Some (VBool false) ->
  started (boot public secret app (HttpData (VObj props)))
  = Rejected (Error "Interactor not active.")
  /\ idle (run (boot public secret app (HttpData (VObj props))) trace).
Proof.
  intros Hd Ha. apply rejected_boot_is_idle.
  unfold boot, turn, start, checkCredentials, bind, lift. simpl.
  fold (field props "disabled"). fold (field props "pending").
  rewrite Hd. simpl. now rewrite Ha.
Qed.

(** X18.  An answer without endpoints: [start] is rejected with an error
    that quotes the whole answer as JSON, and no transport, socket or
    timer exists then or later. *)
Theorem missing_endpoints_are_rejected (public secret app : string)
  (props : list (string * value)) (trace : list action) :
  is_true (field props "disabled") || is_true (field props "pending") = false ->
  is_false (field props "active") = false ->
  truthy (field props "endpoints") = false ->
  started (boot public secret app (HttpData (VObj props)))
  = Rejected (Error ("Endpoints field not present ("
                     +:+ JSON_stringify (VObj props) +:+ ")."))
  /\ idle (run (boot public secret app (HttpData (VObj props))) trace).
Proof.
  intros Hd Ha He. apply rejected_boot_is_idle.
  unfold boot, turn, start, checkCredentials, bind, lift. simpl.
  fold (field props "disabled"). fold (field props "pending").
  rewrite Hd. simpl. fold (field props "active"). rewrite Ha. simpl.
  fold (field props "endpoints"). now rewrite He.
Qed.

(** X19.  A verification request that fails: [start] is rejected with
    the error of the request, whatever it is, and no transport, socket or
    timer exists then or later. *)
Theorem request_error_is_rejected (public secret app : string) (err : error)
  (trace : list action) :
  started (boot public secret app (HttpError err)) = Rejected err
  /\ idle (run (boot public secret app (HttpError err)) trace).
Proof.
  split; [reflexivity|].
  apply idle_run. unfold boot, turn, start, checkCredentials, settle, modify.
  simpl. now repeat split.
Qed.

End Credentials.

(** ** Sending through the agent *)

Section Sending.
Context {E : Env}.

Lemma lookup_set_prop_eq (k : string) (v : value) (props : list (string * value)) :
  lookup_prop k (set_prop k v props) = Some v.
Proof.
  induction props as [|[k' v'] props IH]; simpl.
  - now rewrite String.eqb_refl.
  - destruct (String.eqb k k') eqn:Hk; simpl.
    + now rewrite String.eqb_refl.
    + now rewrite Hk.
Qed.

Lemma lookup_set_prop_ne (k k0 : string) (v : value)
  (props : list (string * value)) :
  k0 <> k -> lookup_prop k0 (set_prop k v props) = lookup_prop k0 props.
Proof.
  intros Hne. induction props as [|[k' v'] props IH]; simpl.
  - now apply String.eqb_neq in Hne as ->.
  - destruct (String.eqb k k') eqn:Hk; simpl.
    + apply String.eqb_eq in Hk as <-.
      now apply String.eqb_neq in Hne as ->.
    + now rewrite IH.
Qed.

(** X20.  On a socket that is still connecting, [send] passes its
    guards, since [isConnected] counts the socket as connected, and the
    socket refuses the data: [send] throws and nothing is transmitted. *)
Theorem send_while_connecting_throws (packet c p : value)
  (t : WebsocketTransport) (s : nat) (k : socket) (w : world) :
  transport (agent w) = Some t ->
  ws t = Some s ->
  sockets w !! s = Some k ->
  readyState k = CONNECTING ->
  get_prop packet "channel" = Return c -> truthy c = true ->
  get_prop packet "payload" = Return p -> truthy p = true ->
  send packet w = (Throw not_open, w).
Proof.
  intros Ht Hs Hk Hc Hgc Hc' Hgp Hp'.
  unfold send. unfold bind at 1.
  rewrite (isConnected_with_socket t s k w Ht Hs Hk), Hc. simpl.
  unfold bind, lift. rewrite Hgc, Hc'. simpl. rewrite Hgp, Hp'. simpl.
  unfold this_ws, this, ws_send, socket_state, bind, gets, ret, throw.
  simpl. rewrite Ht. simpl. rewrite Hs. simpl. rewrite Hk. simpl.
  now rewrite Hc.
Qed.

(** What [sendStatus] makes of the process descriptor before it sends. *)
Lemma sendStatus_on_socket (t : WebsocketTransport) (s : nat) (k : socket)
  (w : world) :
  transport (agent w) = Some t ->
  ws t = Some s ->
  sockets w !! s = Some k ->
  sendStatus w
  = match send (status_packet (agent w))
            (with_agent
               (set_process
                  (fst (generateProcess readings (appName (config (agent w)))
                          (process (agent w))))) w) with
    | (Return _, w') => (Return tt, w')
    | (Throw e, w') => (Return tt, with_rejection e w')
    end.
Proof.
  intros Ht Hs Hk. unfold sendStatus, this. unfold bind at 1. unfold bind at 1.
  unfold gets at 1. simpl. rewrite Ht. reflexivity.
Qed.


(** X22.  When the status interval fires while the socket is still
    connecting, as after a reconnection, [generateProcess] has written
    [createdAt] into the process descriptor, unless a truthy one is
    there, when the call of [send] throws inside the asynchronous
    [sendStatus]: its promise is rejected with the error of the socket, no
    frame goes out, and the interval stays pending. *)
Theorem status_tick_while_connecting_is_rejected (t : WebsocketTransport)
  (s : nat) (k : socket) (tm : timer) (id : nat) (w : world) :
  transport (agent w) = Some t ->
  ws t = Some s ->
  sockets w !! s = Some k ->
  readyState k = CONNECTING ->
  List.find (fun x => Nat.eqb (timer_id x) id) (timers w) = Some tm ->
  repeat tm = true ->
  timer_fn tm = SendStatus ->
  step w (Fire id)
  = with_rejection not_open
      (with_agent
         (set_process
            (if truthy (field (process (agent w)) "createdAt")
             then process (agent w)
             else set_prop "createdAt" (host_time readings) (process (agent w))))
         w).
Proof.
  intros Ht Hs Hk Hc Hfind Hrep Hfn.
  unfold step, turn, perform, fire. unfold bind at 1. unfold gets at 1.
  rewrite Hfind, Hrep, Hfn. unfold bind at 1. unfold ret at 1.
  rewrite (sendStatus_on_socket t s k w Ht Hs Hk).
  set (w1 := with_agent _ w).
  assert (w1 = with_agent
                 (set_process
                    (if truthy (field (process (agent w)) "createdAt")
                     then process (agent w)
                     else set_prop "createdAt" (host_time readings)
                            (process (agent w)))) w) as Hw1.
  { unfold w1, generateProcess. cbn [fst].
    now destruct (truthy (field (process (agent w)) "createdAt")). }
  assert (transport (agent w1) = Some t) as Ht1 by (unfold w1; simpl; now rewrite Ht).
  assert (sockets w1 !! s = Some k) as Hk1 by exact Hk.
  unfold send. unfold bind at 1.
  rewrite (isConnected_with_socket t s k w1 Ht1 Hs Hk1), Hc.
  unfold bind, lift. cbn -[w1 JSON_stringify generateProcess].
  unfold this_ws, this, ws_send, socket_state, update_socket, bind, gets,
    modify, ret, throw.
  rewrite Ht1. cbn -[w1 JSON_stringify generateProcess].
  rewrite Hs. cbn -[w1 JSON_stringify generateProcess].
  rewrite Hk1. cbn -[w1 JSON_stringify generateProcess]. rewrite Hc.
  cbn -[w1 JSON_stringify generateProcess]. now rewrite Hw1.
Qed.

(** X23.  [Agent.send] wraps what it is given.  On an open socket and
    with a truthy channel, every payload is transmitted, a falsy one
    included, since the payload of the packet is a new object; that object
    holds the properties that spreading the given payload copies, except
    that [process] is always the description of this agent, also when the
    given payload has a [process] of its own. *)
Theorem agent_send_wraps_payload (channel payload : value)
  (t : WebsocketTransport) (s : nat) (k : socket) (w : world) :
  transport (agent w) = Some t ->
  ws t = Some s ->
  sockets w !! s = Some k ->
  readyState k = OPEN ->
  truthy channel = true ->
  Agent_send channel payload w
  = (Return (Some true),
     with_sockets
       (alter (push_frame
                 (TextFrame (JSON_stringify
                               (agent_packet (appName (config (agent w)))
                                             channel payload)))) s) w)
  /\ exists props,
       get_prop (agent_packet (appName (config (agent w))) channel payload)
                "payload" = Return (VObj props)
       /\ lookup_prop "process" props
          = Some (VObj [("pm_id", VNum 0);
                        ("name", VStr (appName (config (agent w))));
                        ("server", VStr (appName (config (agent w))))])
       /\ forall k0, k0 <> "process" ->
                     lookup_prop k0 props = lookup_prop k0 (spread payload).
Proof.
  intros Ht Hs Hk Ho Hc. split.
  - unfold Agent_send. unfold bind at 1. unfold gets at 1.
    unfold send. unfold bind at 1.
    rewrite (isConnected_with_socket t s k w Ht Hs Hk), Ho.
    unfold bind, lift. cbn -[truthy]. rewrite Hc. simpl.
    unfold this_ws, this, ws_send, socket_state, update_socket, bind, gets,
      modify, ret, lift.
    simpl. rewrite Ht. simpl. rewrite Hs. simpl. rewrite Hk. simpl.
    now rewrite Ho.
  - eexists. split; [reflexivity|]. split.
    + apply lookup_set_prop_eq.
    + intros k0 Hne. now apply lookup_set_prop_ne.
Qed.

End Sending.

(** ** The identifier, the constructor and the process description *)

Section Identity.
Context {E : Env}.

Lemma substr1_hex (r : Z) :
  0 <= r < 16 ->
  exists c, substr1 hexDigits r = String c EmptyString
            /\ In c (list_ascii_of_string hexDigits).
Proof.
  intros Hr.
  assert (exists n, (n < 16)%nat /\ r = Z.of_nat n) as (n & Hn & ->).
  { exists (Z.to_nat r). split; lia. }
  do 16 (destruct n as [|n]; [eexists; split; [reflexivity|simpl; tauto]|]).
  lia.
Qed.

(** The digit that line 78 writes at index 19 is one of 8, 9, a and b,
    whatever hexadecimal digit the loop has put there. *)
Lemma variant_digit (c : ascii) :
  In c (list_ascii_of_string hexDigits) ->
  exists c',
    substr1 hexDigits (Z.lor (Z.land (digit_value (String c EmptyString)) 3) 8)
    = String c' EmptyString
    /\ In c' (list_ascii_of_string "89ab").
Proof.
  simpl. intros H.
  repeat (destruct H as [<- | H];
          [eexists; split; [vm_compute; reflexivity|simpl; tauto]|]).
  destruct H.
Qed.

Lemma random_digits (random : nat -> Z) (l : list nat) :
  (forall i, In i l -> 0 <= random i < 16) ->
  exists cs,
    length cs = length l
    /\ Forall (fun c => In c (list_ascii_of_string hexDigits)) cs
    /\ map (fun i => substr1 hexDigits (random i)) l
       = map (fun c => String c EmptyString) cs.
Proof.
  induction l as [|i l IH]; intros Hl.
  - exists []. now repeat split.
  - destruct IH as (cs & Hlen & Hcs & Heq); [intros j Hj; apply Hl; now right|].
    destruct (substr1_hex (random i)) as (c & Hc & Hin); [apply Hl; now left|].
    exists (c :: cs). simpl. rewrite Hlen, Hc, Heq. now repeat split; try constructor.
Qed.

(** X24.  The identifier has the shape of a version 4 UUID: 36
    characters, hyphens at the indices 8, 13, 18 and 23, the digit 4 at
    index 14, one of 8, 9, a and b at index 19, and a lower-case
    hexadecimal digit everywhere else. *)
Theorem unique_id_has_uuid_shape (random : nat -> Z) :
  (forall i, (i < 36)%nat -> 0 <= random i < 16) ->
  String.length (generateUniqueId random) = 36%nat
  /\ String.get 8 (generateUniqueId random) = Some "-"%char
  /\ String.get 13 (generateUniqueId random) = Some "-"%char
  /\ String.get 18 (generateUniqueId random) = Some "-"%char
  /\ String.get 23 (generateUniqueId random) = Some "-"%char
  /\ String.get 14 (generateUniqueId random) = Some "4"%char
  /\ (exists c, String.get 19 (generateUniqueId random) = Some c
                /\ In c (list_ascii_of_string "89ab"))
  /\ forall i c, String.get i (generateUniqueId random) = Some c ->
                 ~ In i [8; 13; 18; 23]%nat ->
                 In c (list_ascii_of_string hexDigits).
Proof.
  intros Hr.
  destruct (random_digits random (seq 0 36)) as (cs & Hlen & Hcs & Heq).
  { intros i Hi. apply Hr. apply in_seq in Hi. lia. }
  unfold generateUniqueId. rewrite Heq. clear Heq Hr.
  do 36 (destruct cs as [|? cs]; [discriminate|]).
  destruct cs; [|discriminate]. clear Hlen.
  repeat match goal with
         | H : Forall _ (_ :: _) |- _ =>
             let Hc := fresh "Hc" in
             apply List.Forall_cons_iff in H as [Hc H]
         end.
  clear Hcs.
  cbn [map list_insert list_lookup insert lookup default from_option id].
  match goal with
  | |- context [digit_value (String ?c EmptyString)] =>
      destruct (variant_digit c) as (v & -> & Hv); [assumption|]
  end.
  cbn [String.concat String.append].
  repeat split.
  - eexists. split; [reflexivity|exact Hv].
  - intros i c Hget Hni.
    assert (In "4"%char (list_ascii_of_string hexDigits)) as H4 by (simpl; tauto).
    assert (In v (list_ascii_of_string hexDigits)) as Hv'.
    { simpl in Hv. simpl. intuition. }
    do 36 (destruct i as [|i];
           [first [ exfalso; apply Hni; simpl; tauto
                  | simpl in Hget; injection Hget as <-; assumption ]|]).
    simpl in Hget. discriminate.
Qed.

(** X25.  What the constructor accepts.  When [new Agent] leaves an
    agent, the three keys of the configuration are strings and the process
    descriptor is an object; the agent holds exactly these keys, has no
    transport, socket or timer, its promise is pending, and its process is
    the descriptor it was given, with a new identifier in [unique_id]. *)
Theorem constructed_agent_is_valid (cfg proc : value) (cb : bool)
  (random : nat -> Z) (w : world) (p : value) (uid : string) :
  Agent_constructor cfg proc cb random = Return (Valid w p uid) ->
  exists public secret app,
    get_prop cfg "publicKey" = Return (VStr public)
    /\ get_prop cfg "secretKey" = Return (VStr secret)
    /\ get_prop cfg "appName" = Return (VStr app)
    /\ typeof proc = "object"
    /\ p = proc
    /\ uid = generateUniqueId random
    /\ config (agent w)
       = {| publicKey := public; secretKey := secret; appName := app;
            config_endpoint := VUndefined; internalIp := VUndefined |}
    /\ process (agent w) = set_prop "unique_id" (VStr uid) (spread proc)
    /\ idle w
    /\ started w = Pending.
Proof.
  unfold Agent_constructor.
  destruct (truthy cfg); simpl; [|discriminate].
  destruct (get_prop cfg "publicKey") as [[| | | |public| |]|]; try discriminate.
  destruct (get_prop cfg "secretKey") as [[| | | |secret| |]|]; try discriminate.
  destruct (get_prop cfg "appName") as [[| | | |app| |]|]; try discriminate.
  destruct (String.eqb (typeof proc) "object") eqn:Hty; simpl; [|discriminate].
  apply String.eqb_eq in Hty.
  destruct proc; try discriminate; intros [= <- <- <-];
    exists public, secret, app; now repeat split.
Qed.

(** X26.  [null] passes for a process descriptor and breaks the
    constructor.  With a valid configuration and [null] for the process,
    the check of line 25 lets the call through, since [typeof null] is
    ['object'], and the assignment to [proc.unique_id] throws a
    [TypeError]: no agent is made and the callback is not called. *)
Theorem null_process_breaks_constructor (cfg : value) (public secret app : string)
  (cb : bool) (random : nat -> Z) :
  get_prop cfg "publicKey" = Return (VStr public) ->
  get_prop cfg "secretKey" = Return (VStr secret) ->
  get_prop cfg "appName" = Return (VStr app) ->
  Agent_constructor cfg VNull cb random
  = Throw (TypeError "Cannot set property 'unique_id' of null").
Proof.
  intros Hp Hs Ha. unfold Agent_constructor.
  assert (truthy cfg = true) as ->.
  { destruct cfg; try discriminate; reflexivity. }
  now rewrite Hp, Hs, Ha.
Qed.

(** X27.  The creation time is taken once.  The first [generateProcess]
    on a descriptor without [createdAt] writes the time of the host into
    it; a later call, at whatever time, leaves the descriptor as it is and
    reports the same [created_at]. *)
Theorem created_at_is_set_once (h h' : host) (app : string)
  (proc : list (string * value)) :
  truthy (host_time h) = true ->
  fst (generateProcess h' app (fst (generateProcess h app proc)))
  = fst (generateProcess h app proc)
  /\ get_prop (snd (generateProcess h' app (fst (generateProcess h app proc))))
              "created_at"
     = get_prop (snd (generateProcess h app proc)) "created_at"
  /\ get_prop (snd (generateProcess h app proc)) "created_at"
     = Return (if truthy (field proc "createdAt")
               then field proc "createdAt" else host_time h).
Proof.
  intros Hh.
  assert (forall k v l, field (set_prop k v l) k = v) as Hset.
  { intros k v l. unfold field.
    induction l as [|[k' v'] l IH]; simpl.
    - now rewrite String.eqb_refl.
    - destruct (String.eqb k k') eqn:Hk; simpl.
      + now rewrite String.eqb_refl.
      + now rewrite Hk. }
  assert (truthy (field (fst (generateProcess h app proc)) "createdAt") = true
          /\ field (fst (generateProcess h app proc)) "createdAt"
             = (if truthy (field proc "createdAt")
                then field proc "createdAt" else host_time h)) as [Ht Hf].
  { unfold generateProcess. cbn [fst].
    destruct (truthy (field proc "createdAt")) eqn:Hc; cbn [negb].
    - now rewrite Hc.
    - now rewrite Hset. }
  assert (fst (generateProcess h' app (fst (generateProcess h app proc)))
          = fst (generateProcess h app proc)) as Hfst.
  { unfold generateProcess at 1. cbn [fst]. now rewrite Ht. }
  split; [exact Hfst|].
  assert (forall h0 l,
             get_prop (snd (generateProcess h0 app l)) "created_at"
             = Return (field (fst (generateProcess h0 app l)) "createdAt")) as Hget.
  { intros h0 l. reflexivity. }
  rewrite !Hget, Hfst. split; [reflexivity|]. now rewrite Hf.
Qed.

End Identity.

(** ** Runs of the agent *)

#[local] Existing Instance node_env.

(** A witness of C10: the connected agent and a packet whose payload is
    [0]. *)
Lemma falsy_payload_is_refused_witness :
  send zero_packet connected_agent = (Return false, connected_agent)
  /\ onMessage (frame_text "a" "0") connected_agent
     = (Return tt,
        with_console ("Get bad message from websocket server: " +:+ frame_text "a" "0")
          connected_agent).
Proof.
  destruct (falsy_payload_is_refused
              [("channel", VStr "a"); ("payload", VNum 0)] (VNum 0)
              connected_transport connected_agent (frame_text "a" "0"))
    as [Hsend Hframe].
  - reflexivity.
  - reflexivity.
  - vm_compute. reflexivity.
  - split; [exact Hsend|]. apply Hframe. vm_compute. reflexivity.
Defined.

(** The counterexample to C6: the connected agent is connected and the
    packet has both fields, yet [send] answers [false] and transmits
    nothing, because the payload is [0]. *)
Lemma send_refuses_zero_payload :
  isConnected connected_agent = (Return (VBool true), connected_agent)
  /\ get_prop zero_packet "channel" = Return (VStr "a")
  /\ get_prop zero_packet "payload" = Return (VNum 0)
  /\ send zero_packet connected_agent = (Return false, connected_agent).
Proof. vm_compute. repeat split. Qed.

(** A witness of C6 as amended. *)
Lemma send_checks_truthiness_witness :
  send one_packet connected_agent
  = (Return true,
     with_sockets (alter (push_frame (TextFrame (frame_text "a" "1"))) 0%nat)
       connected_agent)
  /\ send zero_packet connected_agent = (Return false, connected_agent).
Proof.
  split.
  - destruct (send_checks_truthiness one_packet connected_transport connected_agent)
      as (_ & _ & Hopen); [vm_compute; reflexivity|].
    eapply Hopen; vm_compute; reflexivity.
  - destruct (send_checks_truthiness zero_packet connected_transport connected_agent)
      as (_ & Hfalsy & _); [vm_compute; reflexivity|].
    eapply Hfalsy; vm_compute; reflexivity.
Defined.

(** C5, on the code.  On a transport whose channel [a] has the
    subscribers 1 and 2, [unlisten] with the handle of subscriber 2 ends in
    a [TypeError] and removes nothing: the subscribers of [a] are as
    before. *)
Theorem unlisten_with_handle_fails :
  unlisten "a" (Some (quiet 2)) listening_agent
  = (Throw (TypeError "this.listeners.splice is not a function"), listening_agent)
  /\ (registry listening_agent ≫= lookup "a") = Some [failing 1; quiet 2].
Proof.
  split.
  - apply unlisten_with_handle_throws
      with (fns := [failing 1; quiet 2])
           (t := set_listeners {["a" := [failing 1; quiet 2]]} connected_transport).
    + vm_compute. reflexivity.
    + vm_compute. reflexivity.
  - vm_compute. reflexivity.
Qed.

(** C7, on the code.  The frame [null] parses, and [onMessage] throws a
    [TypeError] on it: the exception leaves the router and the event
    loop, and no diagnostic is recorded. *)
Theorem null_frame_escapes_router :
  JSON_parse "null" = Some VNull
  /\ onMessage "null" connected_agent
     = (Throw (TypeError "Cannot read property 'channel' of null or undefined"),
        connected_agent)
  /\ uncaught (step connected_agent (Deliver 0 (Message "null")))
     = [TypeError "Cannot read property 'channel' of null or undefined"]
  /\ console (step connected_agent (Deliver 0 (Message "null")))
     = console connected_agent.
Proof. vm_compute. repeat split. Qed.

(** A well-formed frame on the channel [toString], which has no
    subscriber, ends in a [TypeError] as well. *)
Lemma inherited_channel_escapes_router :
  uncaught (step connected_agent (Deliver 0 (Message (frame_text "toString" "1"))))
  = [TypeError "this.listeners[data.channel].forEach is not a function"].
Proof. vm_compute. reflexivity. Qed.

(** The counterexample to C4: subscriber 1 throws and subscriber 2, the
    next on the channel, is not called. *)
Lemma later_subscriber_is_skipped :
  (registry listening_agent ≫= lookup "a") = Some [failing 1; quiet 2]
  /\ calls (step listening_agent (Deliver 0 (Message (frame_text "a" "5"))))
     = [(1%nat, VNum 5)]
  /\ uncaught (step listening_agent (Deliver 0 (Message (frame_text "a" "5"))))
     = [Error "subscriber failed"].
Proof. vm_compute. repeat split. Qed.

(** A witness of C4 as amended. *)
Lemma dispatch_stops_at_first_exception_witness :
  onMessage (frame_text "a" "5") listening_agent
  = (Throw (Error "subscriber failed"),
     record_calls ([] ++ [failing 1]) (VNum 5) listening_agent)
  /\ calls (record_calls ([] ++ [failing 1]) (VNum 5) listening_agent)
     = calls listening_agent ++ map (fun g => (fn_id g, VNum 5)) ([] ++ [failing 1])
  /\ agent (record_calls ([] ++ [failing 1]) (VNum 5) listening_agent)
     = agent listening_agent.
Proof.
  apply dispatch_stops_at_first_exception
    with (data := VObj [("channel", VStr "a"); ("payload", VNum 5)])
         (c := VStr "a") (after := [quiet 2])
         (t := set_listeners {["a" := [failing 1; quiet 2]]} connected_transport).
  - vm_compute. reflexivity.
  - reflexivity.
  - reflexivity.
  - reflexivity.
  - vm_compute. reflexivity.
  - vm_compute. reflexivity.
  - constructor.
  - reflexivity.
Defined.

(** A witness of C8: the answer [{disabled: true}], then two events. *)
Lemma disabled_credentials_create_no_transport_witness :
  started (boot "public" "secret" "app" disabled_account)
  = Rejected (Error "Interactor disabled.")
  /\ idle (boot "public" "secret" "app" disabled_account)
  /\ transport (agent (run (boot "public" "secret" "app" disabled_account)
                         [Deliver 0 Open; Fire 0]))
     = None.
Proof.
  apply (disabled_credentials_create_no_transport
           "public" "secret" "app" [("disabled", VBool true)]
           [Deliver 0 Open; Fire 0]).
  left. reflexivity.
Defined.

(** A witness of C9: the agent connects, loses its connection and
    reconnects; and the agent connects, sends a probe (timer 0), gets no
    pong before the deadline (timer 2) and reconnects.  Both times socket
    1 is made with the address and the headers of the first socket. *)
Lemma reconnect_reuses_address_witness :
  addressed (endpoint first_transport) (headers first_transport)
    (run (boot "public" "secret" "app" verified) [Deliver 0 Open; Deliver 0 Close])
  /\ registry (step (run (boot "public" "secret" "app" verified)
                       [Deliver 0 Open; Deliver 0 Close]) (Deliver 1 Open))
     = registry (run (boot "public" "secret" "app" verified)
                   [Deliver 0 Open; Deliver 0 Close])
  /\ reconnected (VStr "wss://example/x") (headers first_transport)
       (run (boot "public" "secret" "app" verified) [Deliver 0 Open])
       (step (run (boot "public" "secret" "app" verified) [Deliver 0 Open])
             (Deliver 0 Close))
  /\ reconnected (VStr "wss://example/x") (headers first_transport)
       (run (boot "public" "secret" "app" verified) [Deliver 0 Open; Fire 0])
       (step (run (boot "public" "secret" "app" verified) [Deliver 0 Open; Fire 0])
             (Fire 2)).
Proof.
  destruct (reconnect_reuses_address "public" "secret" "app" verified
              first_transport [Deliver 0 Open; Deliver 0 Close] (Deliver 1 Open))
    as (Haddress & Hregistry & _); [vm_compute; reflexivity|].
  destruct (reconnect_reuses_address "public" "secret" "app" verified
              first_transport [Deliver 0 Open] (Deliver 0 Close))
    as (_ & _ & Hclose & _); [vm_compute; reflexivity|].
  destruct (reconnect_reuses_address "public" "secret" "app" verified
              first_transport [Deliver 0 Open; Fire 0] (Fire 2))
    as (_ & _ & _ & Hdeadline); [vm_compute; reflexivity|].
  split; [exact Haddress|]. split; [apply Hregistry; reflexivity|]. split.
  - apply (Hclose 0%nat connected_socket); vm_compute; reflexivity.
  - eapply (Hdeadline 0%nat _ 2%nat); vm_compute; reflexivity.
Defined.

(** The counterexample to C1: the connected agent calls [disconnect()],
    socket 0 reports ['close'], and [onClose] has made socket 1 and made
    it [this.ws]: a reconnect attempt follows the intentional
    disconnection. *)
Lemma disconnect_is_followed_by_reconnect :
  length (sockets (run connected_agent [CallDisconnect])) = 1%nat
  /\ length (sockets (run connected_agent [CallDisconnect; Deliver 0 Close])) = 2%nat
  /\ (ws <$> transport (agent (run connected_agent [CallDisconnect; Deliver 0 Close])))
     = Some (Some 1%nat).
Proof. vm_compute. repeat split. Qed.

(** A witness of C1 as amended, on the connected agent. *)
Lemma disconnect_then_close_reconnects_witness :
  step connected_agent CallDisconnect
  = with_sockets (alter (set_readyState CLOSING) 0%nat)
      (with_console "Disconnect from websocket server" connected_agent)
  /\ transport (agent (step (step connected_agent CallDisconnect) (Deliver 0 Close)))
     = Some (set_ws (Some 1%nat) connected_transport)
  /\ length (sockets (step (step connected_agent CallDisconnect) (Deliver 0 Close)))
     = 2%nat
  /\ sockets (step (step connected_agent CallDisconnect) (Deliver 0 Close)) !! 1%nat
     = Some (set_events (connect_listeners 1 ReconnectCb)
               (fresh_socket (endpoint connected_transport)
                             (headers connected_transport))).
Proof.
  eapply (disconnect_then_close_reconnects connected_transport 0%nat).
  - vm_compute. reflexivity.
  - reflexivity.
  - vm_compute. reflexivity.
  - reflexivity.
  - vm_compute. reflexivity.
Defined.

(** The counterexample to C2: after [disconnect()] the interval of
    [ping] (timer 0) and the interval of [sendStatus] (timer 1) are still
    pending; once the transport has reconnected, their callbacks send a
    status packet and a heartbeat probe on the new socket. *)
Lemma timers_fire_after_disconnect :
  map timer_fn (timers (run connected_agent [CallDisconnect])) = [PingTick; SendStatus]
  /\ (outbox <$> sockets (run connected_agent
                            [CallDisconnect; Deliver 0 Close; Deliver 1 Open;
                             Fire 1; Fire 0]) !! 1%nat)
     = Some [TextFrame (JSON_stringify (status_packet (agent connected_agent)));
             PingFrame].
Proof. vm_compute. repeat split. Qed.

(** C3, on the code.  The connected agent sends a probe (timer 0 fires)
    and gets no pong before the deadline (timer 2, of 5000 ms, fires):
    [noResponse] terminates socket 0 and makes socket 1, leaving the
    listeners of socket 0 in place.  When socket 0 then reports ['close'],
    [onClose] terminates socket 1 and makes socket 2: two reconnect
    attempts follow the one termination. *)
Theorem liveness_failure_reconnects_twice :
  map (fun tm => (timer_id tm, delay tm, timer_fn tm))
      (timers (run connected_agent [Fire 0]))
  = [(0%nat, 30000, PingTick); (1%nat, 1000, SendStatus); (2%nat, 5000, NoResponse)]
  /\ map readyState (sockets (run connected_agent [Fire 0; Fire 2]))
     = [CLOSING; CONNECTING]
  /\ listeners_of Eclose 0 (run connected_agent [Fire 0; Fire 2])
     = [{| on_event := Eclose; once := false; callback := OnClose |}]
  /\ map readyState (sockets (run connected_agent [Fire 0; Fire 2; Deliver 0 Close]))
     = [CLOSED; CLOSING; CONNECTING]
  /\ (ws <$> transport (agent (run connected_agent [Fire 0; Fire 2; Deliver 0 Close])))
     = Some (Some 2%nat).
Proof. vm_compute. repeat split. Qed.

(** ** Runs for the further properties *)

(** A witness of X1. *)
Lemma listen_appends_witness :
  exists w',
    listen "a" (quiet 3) listening_agent = (Return 3, w')
    /\ (registry w' ≫= lookup "a") = Some [failing 1; quiet 2; quiet 3]
    /\ (forall other, other <> "a" ->
          (registry w' ≫= lookup other) = listeners listening_transport !! other)
    /\ sockets w' = sockets listening_agent
    /\ timers w' = timers listening_agent.
Proof.
  apply (listen_appends "a" (quiet 3) listening_transport listening_agent).
  - vm_compute. reflexivity.
  - vm_compute. discriminate.
Defined.

(** A witness of X2. *)
Lemma listen_inherited_name_throws_witness :
  listen "toString" (quiet 1) connected_agent
  = (Throw (TypeError "this.listeners[event].push is not a function"),
     connected_agent).
Proof.
  apply (listen_inherited_name_throws "toString" (quiet 1) connected_transport).
  - vm_compute. reflexivity.
  - apply (bool_decide_unpack ("toString" ∈ Object_prototype)). vm_compute.
    exact I.
  - reflexivity.
Defined.

(** A witness of X3. *)
Lemma subscribe_then_deliver_witness :
  onMessage (frame_text "a" "1") (step connected_agent (CallListen "a" (quiet 1)))
  = (Return tt,
     record_calls [quiet 1] (VNum 1)
       (step connected_agent (CallListen "a" (quiet 1)))).
Proof.
  apply (subscribe_then_deliver "a" (frame_text "a" "1") one_packet (VNum 1)
           (quiet 1) connected_transport connected_agent).
  - vm_compute. reflexivity.
  - vm_compute. discriminate.
  - vm_compute. reflexivity.
  - reflexivity.
  - reflexivity.
  - reflexivity.
  - repeat constructor.
Defined.

(** A witness of X4. *)
Lemma unlisten_all_then_deliver_is_silent_witness :
  onMessage (frame_text "a" "1") (step listening_agent (CallUnlisten "a" None))
  = (Return tt, step listening_agent (CallUnlisten "a" None)).
Proof.
  apply (unlisten_all_then_deliver_is_silent "a" (frame_text "a" "1") one_packet
           (VNum 1) listening_transport listening_agent).
  - vm_compute. reflexivity.
  - apply (bool_decide_eq_false_1 ("a" ∈ Object_prototype)). vm_compute.
    reflexivity.
  - vm_compute. reflexivity.
  - reflexivity.
  - reflexivity.
  - reflexivity.
Defined.

(** A witness of X5. *)
Lemma probe_answered_in_time_witness :
  (outbox <$> sockets (turn ping connected_agent) !! 0%nat) = Some [PingFrame]
  /\ timers (turn ping connected_agent)
     = timers connected_agent
       ++ [{| timer_id := 2; delay := 5000; repeat := false;
              timer_fn := NoResponse |}]
  /\ timers (step (turn ping connected_agent) (Deliver 0 Pong))
     = timers connected_agent
  /\ length (sockets (step (turn ping connected_agent) (Deliver 0 Pong)))
     = length (sockets connected_agent)
  /\ step (step (turn ping connected_agent) (Deliver 0 Pong)) (Fire 2)
     = step (turn ping connected_agent) (Deliver 0 Pong).
Proof.
  apply (probe_answered_in_time connected_transport 0%nat connected_socket
           connected_agent).
  - vm_compute. reflexivity.
  - reflexivity.
  - vm_compute. reflexivity.
  - reflexivity.
  - intros tm Htm. vm_compute in Htm.
    repeat (apply elem_of_cons in Htm as [->|Htm]; [vm_compute; lia|]).
    inversion Htm.
  - vm_compute. constructor.
Defined.

(** A witness of X6. *)
Lemma pong_listeners_accumulate_witness :
  listeners_of Epong 0 (step (turn ping connected_agent) (Deliver 0 Pong))
  = listeners_of Epong 0 connected_agent
    ++ [{| on_event := Epong; once := false; callback := OnPong 2 |}].
Proof.
  apply (pong_listeners_accumulate connected_transport 0%nat connected_socket
           connected_agent).
  - vm_compute. reflexivity.
  - reflexivity.
  - vm_compute. reflexivity.
  - reflexivity.
  - intros tm Htm. vm_compute in Htm.
    repeat (apply elem_of_cons in Htm as [->|Htm]; [vm_compute; lia|]).
    inversion Htm.
  - vm_compute. constructor.
Defined.


(** A witness of X8. *)
Lemma peer_ping_is_answered_witness :
  step connected_agent (Deliver 0 Ping)
  = with_sockets (alter (push_frame PongFrame) 0%nat)
      (with_console "Received ping! Pong sended!"
         (with_sockets (alter (push_frame PongFrame) 0%nat) connected_agent))
  /\ (outbox <$> sockets (step connected_agent (Deliver 0 Ping)) !! 0%nat)
     = Some [PongFrame; PongFrame].
Proof.
  apply (peer_ping_is_answered connected_transport 0%nat connected_socket).
  - vm_compute. reflexivity.
  - reflexivity.
  - vm_compute. reflexivity.
  - reflexivity.
  - vm_compute. reflexivity.
Defined.

(** A witness of X9. *)
Lemma reopen_adds_heartbeat_interval_witness :
  timers (step reconnecting_agent (Deliver 1 Open))
  = timers reconnecting_agent
    ++ [{| timer_id := 2; delay := 30000; repeat := true; timer_fn := PingTick |}]
  /\ (pingInterval <$> transport (agent (step reconnecting_agent (Deliver 1 Open))))
     = Some (Some 2%nat)
  /\ length (sockets (step reconnecting_agent (Deliver 1 Open)))
     = length (sockets reconnecting_agent).
Proof.
  apply (reopen_adds_heartbeat_interval reconnecting_transport 1%nat
           reconnecting_socket reconnecting_agent).
  - vm_compute. reflexivity.
  - reflexivity.
  - vm_compute. reflexivity.
  - reflexivity.
  - reflexivity.
Defined.

(** A witness of X10. *)
Lemma failed_reconnect_is_not_retried_witness :
  sockets (run reconnecting_agent
             [Deliver 1 (Failure (Error "refused")); Deliver 1 Close])
  = <[1%nat := set_events [] (set_readyState CLOSED reconnecting_socket)]>
      (sockets reconnecting_agent)
  /\ timers (run reconnecting_agent
               [Deliver 1 (Failure (Error "refused")); Deliver 1 Close])
     = timers reconnecting_agent
  /\ agent (run reconnecting_agent
              [Deliver 1 (Failure (Error "refused")); Deliver 1 Close])
     = agent reconnecting_agent
  /\ uncaught (run reconnecting_agent
                 [Deliver 1 (Failure (Error "refused")); Deliver 1 Close])
     = uncaught reconnecting_agent.
Proof.
  apply (failed_reconnect_is_not_retried (Error "refused") reconnecting_transport
           1%nat reconnecting_socket reconnecting_agent).
  - vm_compute. reflexivity.
  - reflexivity.
  - vm_compute. reflexivity.
  - reflexivity.
  - reflexivity.
Defined.

(** A witness of X11. *)
Lemma disconnect_stops_sending_witness :
  isConnected (step connected_agent CallDisconnect)
  = (Return (VBool false), step connected_agent CallDisconnect)
  /\ send one_packet (step connected_agent CallDisconnect)
     = (Return false, step connected_agent CallDisconnect).
Proof.
  apply (disconnect_stops_sending one_packet connected_transport 0%nat
           connected_socket connected_agent).
  - vm_compute. reflexivity.
  - reflexivity.
  - vm_compute. reflexivity.
  - reflexivity.
Defined.

(** A witness of X12. *)
Lemma connecting_counts_as_connected_witness :
  (readyState <$> sockets (snd (connect ReconnectCb connected_agent)) !! 1%nat)
  = Some CONNECTING
  /\ isConnected (snd (connect ReconnectCb connected_agent))
     = (Return (VBool true), snd (connect ReconnectCb connected_agent)).
Proof.
  apply (connecting_counts_as_connected ReconnectCb connected_transport
           connected_agent).
  vm_compute. reflexivity.
Defined.


(** A witness of X15. *)
Lemma start_resolves_on_open_witness :
  started connected_agent = Resolved
  /\ config (agent connected_agent)
     = {| publicKey := "public"; secretKey := "secret"; appName := "app";
          config_endpoint := VStr "wss://example/x";
          internalIp := VStr "10.0.0.2" |}
  /\ timers connected_agent
     = [{| timer_id := 0; delay := 30000; repeat := true; timer_fn := PingTick |};
        status_timer]
  /\ statusInterval (agent connected_agent) = Some 1%nat
  /\ (pingInterval <$> transport (agent connected_agent)) = Some (Some 0%nat)
  /\ sockets connected_agent = [connected_socket].
Proof.
  refine (start_resolves_on_open "public" "secret" "app" "wss://example/x"
            verified_props _ _ _).
  - reflexivity.
  - reflexivity.
  - reflexivity.
Defined.

(** A witness of X16. *)
Lemma failed_first_connection_is_final_witness :
  started (run started_agent
             [Deliver 0 (Failure (Error "refused")); Deliver 0 Close; Fire 0;
              Deliver 0 Open])
  = Rejected (Error "refused")
  /\ length (sockets (run started_agent
                        [Deliver 0 (Failure (Error "refused")); Deliver 0 Close;
                         Fire 0; Deliver 0 Open])) = 1%nat
  /\ timers (run started_agent
               [Deliver 0 (Failure (Error "refused")); Deliver 0 Close; Fire 0;
                Deliver 0 Open]) = []
  /\ statusInterval (agent (run started_agent
                              [Deliver 0 (Failure (Error "refused"));
                               Deliver 0 Close; Fire 0; Deliver 0 Open])) = None.
Proof.
  refine (failed_first_connection_is_final "public" "secret" "app"
            "wss://example/x" verified_props (Error "refused")
            [Deliver 0 Close; Fire 0; Deliver 0 Open] _ _ _ _).
  - reflexivity.
  - reflexivity.
  - reflexivity.
  - repeat constructor.
Defined.

(** A witness of X17. *)
Lemma inactive_account_is_rejected_witness :
  started (boot "public" "secret" "app" (HttpData (VObj [("active", VBool false)])))
  = Rejected (Error "Interactor not active.")
  /\ idle (run (boot "public" "secret" "app"
                  (HttpData (VObj [("active", VBool false)])))
             [CallSend one_packet; Fire 0]).
Proof.
  apply (inactive_account_is_rejected "public" "secret" "app"
           [("active", VBool false)] [CallSend one_packet; Fire 0]).
  - reflexivity.
  - reflexivity.
Defined.

(** A witness of X18. *)
Lemma missing_endpoints_are_rejected_witness :
  started (boot "public" "secret" "app" (HttpData (VObj [("active", VBool true)])))
  = Rejected (Error ("Endpoints field not present ("
                     +:+ JSON_stringify (VObj [("active", VBool true)]) +:+ ")."))
  /\ idle (run (boot "public" "secret" "app"
                  (HttpData (VObj [("active", VBool true)])))
             [CallSend one_packet; Fire 0]).
Proof.
  apply (missing_endpoints_are_rejected "public" "secret" "app"
           [("active", VBool true)] [CallSend one_packet; Fire 0]).
  - reflexivity.
  - reflexivity.
  - reflexivity.
Defined.

(** A witness of X20. *)
Lemma send_while_connecting_throws_witness :
  send one_packet reconnecting_agent = (Throw not_open, reconnecting_agent).
Proof.
  apply (send_while_connecting_throws one_packet (VStr "a") (VNum 1)
           reconnecting_transport 1%nat reconnecting_socket).
  - vm_compute. reflexivity.
  - reflexivity.
  - vm_compute. reflexivity.
  - reflexivity.
  - reflexivity.
  - reflexivity.
  - reflexivity.
  - reflexivity.
Defined.


(** A witness of X22. *)
Lemma status_tick_while_connecting_is_rejected_witness :
  step reconnecting_agent (Fire 1)
  = with_rejection not_open
      (with_agent
         (set_process
            (set_prop "createdAt" (VNum 1000) (process (agent reconnecting_agent))))
         reconnecting_agent).
Proof.
  refine (status_tick_while_connecting_is_rejected reconnecting_transport 1%nat
            reconnecting_socket status_timer 1%nat reconnecting_agent
            _ _ _ _ _ _ _).
  - vm_compute. reflexivity.
  - reflexivity.
  - vm_compute. reflexivity.
  - reflexivity.
  - vm_compute. reflexivity.
  - reflexivity.
  - reflexivity.
Defined.

(** A witness of X23. *)
Lemma agent_send_wraps_payload_witness :
  Agent_send (VStr "event") (VObj [("process", VNum 7); ("n", VNum 0)])
    connected_agent
  = (Return (Some true),
     with_sockets
       (alter (push_frame
                 (TextFrame
                    (JSON_stringify
                       (agent_packet "app" (VStr "event")
                          (VObj [("process", VNum 7); ("n", VNum 0)])))))
              0%nat)
       connected_agent)
  /\ exists props,
       get_prop (agent_packet "app" (VStr "event")
                   (VObj [("process", VNum 7); ("n", VNum 0)])) "payload"
       = Return (VObj props)
       /\ lookup_prop "process" props
          = Some (VObj [("pm_id", VNum 0); ("name", VStr "app");
                        ("server", VStr "app")])
       /\ forall k0, k0 <> "process" ->
                     lookup_prop k0 props
                     = lookup_prop k0 (spread (VObj [("process", VNum 7);
                                                     ("n", VNum 0)])).
Proof.
  apply (agent_send_wraps_payload (VStr "event")
           (VObj [("process", VNum 7); ("n", VNum 0)])
           connected_transport 0%nat connected_socket connected_agent).
  - vm_compute. reflexivity.
  - reflexivity.
  - vm_compute. reflexivity.
  - reflexivity.
  - reflexivity.
Defined.

(** A witness of X24. *)
Lemma unique_id_has_uuid_shape_witness :
  String.length (generateUniqueId sample_random) = 36%nat
  /\ String.get 8 (generateUniqueId sample_random) = Some "-"%char
  /\ String.get 13 (generateUniqueId sample_random) = Some "-"%char
  /\ String.get 18 (generateUniqueId sample_random) = Some "-"%char
  /\ String.get 23 (generateUniqueId sample_random) = Some "-"%char
  /\ String.get 14 (generateUniqueId sample_random) = Some "4"%char
  /\ (exists c, String.get 19 (generateUniqueId sample_random) = Some c
                /\ In c (list_ascii_of_string "89ab"))
  /\ forall i c, String.get i (generateUniqueId sample_random) = Some c ->
                 ~ In i [8; 13; 18; 23]%nat ->
                 In c (list_ascii_of_string hexDigits).
Proof.
  apply (unique_id_has_uuid_shape sample_random).
  intros i Hi. unfold sample_random.
  pose proof (Nat.mod_upper_bound (i * 7) 16). lia.
Defined.

(** A witness of X25. *)
Lemma constructed_agent_is_valid_witness :
  exists public secret app,
    get_prop sample_config "publicKey" = Return (VStr public)
    /\ get_prop sample_config "secretKey" = Return (VStr secret)
    /\ get_prop sample_config "appName" = Return (VStr app)
    /\ typeof (VObj [("interpreter", VStr "node")]) = "object"
    /\ VObj [("interpreter", VStr "node")] = VObj [("interpreter", VStr "node")]
    /\ generateUniqueId sample_random = generateUniqueId sample_random
    /\ config (agent constructed_agent)
       = {| publicKey := public; secretKey := secret; appName := app;
            config_endpoint := VUndefined; internalIp := VUndefined |}
    /\ process (agent constructed_agent)
       = set_prop "unique_id" (VStr (generateUniqueId sample_random))
           (spread (VObj [("interpreter", VStr "node")]))
    /\ idle constructed_agent
    /\ started constructed_agent = Pending.
Proof.
  refine (constructed_agent_is_valid sample_config
            (VObj [("interpreter", VStr "node")]) false sample_random
            constructed_agent (VObj [("interpreter", VStr "node")])
            (generateUniqueId sample_random) _).
  reflexivity.
Defined.

(** A witness of X26. *)
Lemma null_process_breaks_constructor_witness :
  Agent_constructor sample_config VNull true sample_random
  = Throw (TypeError "Cannot set property 'unique_id' of null").
Proof.
  apply (null_process_breaks_constructor sample_config "public" "secret" "app").
  - reflexivity.
  - reflexivity.
  - reflexivity.
Defined.

(** A witness of X27. *)
Lemma created_at_is_set_once_witness :
  fst (generateProcess (sample_host 200) "app"
         (fst (generateProcess (sample_host 100) "app" [("unique_id", VStr "u")])))
  = fst (generateProcess (sample_host 100) "app" [("unique_id", VStr "u")])
  /\ get_prop (snd (generateProcess (sample_host 200) "app"
                      (fst (generateProcess (sample_host 100) "app"
                              [("unique_id", VStr "u")]))))
              "created_at"
     = get_prop (snd (generateProcess (sample_host 100) "app"
                        [("unique_id", VStr "u")])) "created_at"
  /\ get_prop (snd (generateProcess (sample_host 100) "app"
                      [("unique_id", VStr "u")])) "created_at"
     = Return (VNum 100).
Proof.
  apply (created_at_is_set_once (sample_host 100) (sample_host 200) "app"
           [("unique_id", VStr "u")]).
  reflexivity.
Defined.

(** A witness of X13. *)
Lemma unconnected_transport_sends_nothing_witness :
  isConnected unconnected_agent = (Return VNull, unconnected_agent)
  /\ send one_packet unconnected_agent = (Return false, unconnected_agent)
  /\ disconnect unconnected_agent
     = (Throw (TypeError "Cannot read property of null"),
        with_console "Disconnect from websocket server" unconnected_agent).
Proof.
  apply (unconnected_transport_sends_nothing one_packet
           (set_ws None first_transport) unconnected_agent).
  - reflexivity.
  - reflexivity.
Defined.
